(* ===== verification/_CoqProject ===== *)
-Q . S2P
Prelude.v
Md5.v
FloatRepr.v
PyRuntime.v
Json.v
PyRepr.v
Agent.v
Script.v
Protocol.v
Liveness.v
Refinement.v
Scenario.v
