(* ===== verification/Prelude.v ===== *)
(** * Leader-follower drone swarm: a verification development

    The program ([src/code.py]) is one Python class, [Drone], and a demo
    script.  A drone holds an id, a role string (['leader'] or
    ['follower']), a mass, velocity and acceleration dicts, a GPS dict
    [{"latitude", "longitude"}], an altitude and a list of received
    messages.  The leader's [send_position_update] builds one message
    (header, payload, MD5 of [json.dumps(payload, sort_keys=True)]) and
    hands it to every follower's [receive_message], which checks the
    checksum, logs and prints the message and, through [process_message],
    calls [adjust_position]: the follower computes its distance to the
    leader ([calculate_distance], an equirectangular approximation) and
    moves along the degree-space unit vector towards the leader by
    [distance - 3.0].  Every method narrates on standard output.

    ** Files, in dependency order
    - [Prelude] (this file): the state-and-exception monad [stexc] in
      which every method is written.  Python keeps the writes made before
      an exception, so a raise returns the state reached so far.  Its
      notations ([let*], [let?] in [stexc_scope]); [for_each] for a
      [for] loop; the relation combinators [stable] (what a computation
      preserves, for a preorder) and [readonly], with their bind and loop
      lemmas; [related] (two runs from related states end related, with
      the same outcome), the relational form used for footprints; the
      tactics [solve_stable] and [solve_readonly]; the hint
      database [swarm]; string lemmas (characters, splitting at a
      separator) and [int_repr] ([int.__repr__]) with its injectivity.
    - [Md5]: RFC 1321 as an executable function on bytes, [hexdigest],
      UTF-8 encoding: [hashlib.md5(data.encode()).hexdigest()].
    - [FloatRepr]: [float.__repr__] (shortest round-tripping digits, then
      CPython's layout) and [format(x, '.2f')], computed on the exact
      value of the float.
    - [PyRuntime]: Python numbers ([PyNum]: an int is [Z], a float is
      Rocq's primitive binary64 [float], whose [+ - * / sqrt] are the
      IEEE operations CPython uses); the exceptions the code can raise;
      CPython's [+ - *] with int-to-float promotion, [x / y], [x ** 2],
      [math.sqrt], [math.radians], [math.cos], the [:.2f] format.  The
      class [Runtime] is the interface to the library functions the
      program calls: libm [cos], [float.__repr__] and [hashlib.md5]; the
      class [ReprLaws] is what JSON serialization needs of [repr].
    - [Json]: JSON values and [json.dumps] with [sort_keys=True].
    - [PyRepr]: [repr] of the dicts, lists and strings the program
      prints.
    - [Agent]: the program's objects as a store ([World.t]: drones and
      GPS dicts in two [gmap]s reached by references, and the lines
      printed so far), [print], [Drone.__init__] ([drone_init]),
      [update_position], the store invariant [wf], the relations
      [evolves] (what every operation keeps) and [moves_only] (what a
      position update may touch), and a decidable form of [wf].
    - [Script]: the demo script's three drones (lines 121-124), CPython's
      runtime ([cpython_runtime], with the models of [Md5] and
      [FloatRepr]) and a runtime whose digest always collides.
    - [Protocol]: [create_message], [calculate_checksum],
      [verify_checksum], [calculate_distance], [adjust_position],
      [process_message], [receive_message], [send_position_update], each
      the translation of the method of the same name, prints included;
      the operations as a transition system ([op], [run_op],
      [reachable]); the protocol's properties and their witnesses.
    - [Liveness]: the footprint of [adjust_position] (the fields and
      dicts it reads, [agree]), what one delivery touches ([touches]),
      the progress of the broadcast loop, and the follower at its
      leader's position that blocks it.
    - [Refinement]: the spec's value semantics (drones owning their
      position, logs of messages whose payload is a value) as abstract
      drones [ADrone.t] with one spec per operation ([a_init],
      [a_update], [a_send], gathered in [a_step]), the abstraction [abs]
      of a store, and the simulation of the program's operations by
      these specs.
    - [Scenario]: the whole script (lines 126-136) and concrete runs.

    ** Aliasing
    The payload built on line 22 holds the leader's GPS dict itself.  The
    model keeps that reference ([Payload.gps_coordinates] is a location of
    the store), so a message already logged by a follower changes when the
    leader later moves (C3), and the first message of the script fails
    verification at the end of it ([Scenario.script_first_message_goes_stale]).

    ** What the theorems show
    - C1, C2: a broadcast delivers one verified message per listed
      follower and never changes the leader, whatever the followers do.
    - C3: messages share the leader's dict (the aliasing above).
    - C4: one correction moves follower B of the script from latitude
      28.7040 to 37.036: degrees and metres are mixed (the spec's
      convergence claim fails).
    - C5: a follower at its leader's position (ints in the float range
      or finite floats) makes [adjust_position] print a distance of
      [0.00] and raise [ZeroDivisionError], and no broadcast listing it
      returns normally.
    - C6-C9: role gating (a print, no error), corrupt messages dropped
      with a print, the terminal case at exactly 3.0 m, dispatch on type
      and role.
    - C10, C11: every reachable store is well formed; every operation
      keeps ids, roles and GPS references, only appends to logs and to
      the output.
    - C12: a payload changed after its checksum was computed passes
      verification only through an MD5 collision ([json.dumps] is
      injective on payloads).
    - C13, C14: refinement.  From a store where every logged payload
      holds a leader's dict, each constructor call, broadcast, and move
      of a drone no logged payload refers to does what the spec's value
      semantics allows (C13, a forward simulation through [abs]); so in
      runs of such operations every logged message keeps verifying
      (C14), proved on the abstract drones, where it is immediate.
    - C15: the hypothesis on moves is needed: any move that changes a
      dict some logged payload holds is no step of the spec.
    - C16: liveness of a broadcast: to distinct existing drones, each of
      which, if a follower, could adjust to the payload from the starting
      store, the loop reaches every one and returns normally.  A
      follower's adjustment reads only its own footprint, which the
      deliveries before it leave alone.
    - C17: a follower far from its leader ([1e160] degrees) makes
      [lat_diff ** 2] raise [OverflowError] before anything is printed.
    The library models carry their own lemmas, used by the theorems
    above or checking the models: [Md5] (shape of the hex digest,
    padding, byte order, the RFC 1321 test suite), [FloatRepr] (shape of
    [repr], CPython's outputs at the layout's boundaries, the fuel of
    the trailing-zero loop), [Json] (a dict's serialization does not
    depend on its insertion order), and [Scenario]'s runs of the script
    with CPython's runtime.

    ** Bounds and assumptions
    No fuel is needed: every method is structurally recursive (loops are
    over the follower list); MD5 runs over [length / 64] blocks, the
    digit search over at most 17 lengths, and the trailing zeros of at
    most 18 digits are stripped with fuel 17, which [FloatReprFacts.strip_zeros_fuel] shows enough.  Python ints are unbounded
    ([Z]); floats are binary64 with CPython's error cases.  [x ** 2] on a
    float calls libm [pow(x, 2.0)], modelled as the correctly rounded
    [x * x].  libm's [cos] is a parameter: concrete runs assume its
    correctly rounded value at the points they meet, stated as a
    hypothesis (C4, C17), required finite (C5) or tabulated in
    [Script.cos_at_script_points] (the witnesses and the examples of
    [Scenario]; the table gives [1] elsewhere, the correctly rounded
    cosine of [0] and of the tiny angle of the underflow example).  The
    injectivity of [float.__repr__] (its round-trip guarantee) is
    assumed by C12 through [ReprLaws].

    ** Not modelled
    libm's [cos] (a parameter of [Runtime]).  That the shortest-digit
    search of [FloatRepr] always succeeds within 17 digits, and so that
    CPython's [repr] is injective, is not proved: it needs a proof that
    [SpecFloat.binary_normalize] rounds to nearest.  Python objects that
    the program never builds (sets, tuples, nested lists of dicts) have
    no [repr] here. *)

From Stdlib Require Import ZArith Ascii String DecimalString DecimalZ DecimalPos.
From stdpp Require Import base list.

(** ** Outcomes and the state-and-exception monad *)

Inductive outcome (E A : Type) : Type :=
| Ok (a : A)
| Raise (e : E).
Arguments Ok {E A} a.
Arguments Raise {E A} e.

(** A computation reads and writes a state of type [S]; it returns the
    final state together with either a value or an exception. *)
Definition stexc (S E A : Type) : Type := S -> S * outcome E A.

Section Monad.
Context {S E : Type}.

Definition ret {A} (a : A) : stexc S E A := fun s => (s, Ok a).

Definition bind {A B} (m : stexc S E A) (k : A -> stexc S E B) : stexc S E B :=
  fun s =>
    match m s with
    | (s', Ok a) => k a s'
    | (s', Raise e) => (s', Raise e)
    end.

Definition modify (f : S -> S) : stexc S E unit := fun s => (f s, Ok tt).

(** A pure computation that may raise. *)
Definition lift {A} (o : outcome E A) : stexc S E A := fun s => (s, o).

(** [for x in xs: body(x)]: the body runs in list order and the first
    exception stops the loop. *)
Fixpoint for_each {A} (body : A -> stexc S E unit) (xs : list A) : stexc S E unit :=
  match xs with
  | [] => ret tt
  | x :: xs' => bind (body x) (fun _ => for_each body xs')
  end.

(** Bind on pure outcomes. *)
Definition obind {A B} (o : outcome E A) (k : A -> outcome E B) : outcome E B :=
  match o with Ok a => k a | Raise e => Raise e end.
End Monad.

Declare Scope stexc_scope.
Delimit Scope stexc_scope with stexc.
Notation "'let*' x ':=' m 'in' k" := (bind m (fun x => k))
  (at level 10, x name, m at level 100, k at level 200) : stexc_scope.
Notation "'let*' ' p ':=' m 'in' k" := (bind m (fun x => match x with p => k end))
  (at level 10, p pattern, m at level 100, k at level 200) : stexc_scope.
Notation "'let?' x ':=' o 'in' k" := (obind o (fun x => k))
  (at level 10, x name, o at level 100, k at level 200) : stexc_scope.

Create HintDb swarm.

(** ** Invariants and relations carried through computations *)

Section Stability.
Context {S E : Type}.

(** [stable R m]: whatever [m] does, normally or by raising, the final
    state is related to the initial one. *)
Definition stable (R : relation S) {A} (m : stexc S E A) : Prop :=
  forall s, R s (fst (m s)).

Context (R : relation S) `{!PreOrder R}.

Lemma stable_ret {A} (a : A) : stable R (ret a).
Proof. intros s. simpl. reflexivity. Qed.

Lemma stable_lift {A} (o : outcome E A) : stable R (lift o).
Proof. intros s. simpl. reflexivity. Qed.

Lemma stable_bind {A B} (m : stexc S E A) (k : A -> stexc S E B) :
  stable R m -> (forall a, stable R (k a)) -> stable R (bind m k).
Proof.
  intros Hm Hk s. unfold bind. specialize (Hm s).
  destruct (m s) as [s' [a|e]]; simpl in *; [|exact Hm].
  etrans; [exact Hm | apply Hk].
Qed.

Lemma stable_for_each {A} (body : A -> stexc S E unit) xs :
  (forall x, x ∈ xs -> stable R (body x)) -> stable R (for_each body xs).
Proof.
  induction xs as [|x xs IH]; intros Hb; simpl.
  - apply stable_ret.
  - apply stable_bind; [apply Hb; left|].
    intros _. apply IH. intros y Hy. apply Hb. by right.
Qed.

Lemma stable_if {A} (b : bool) (m1 m2 : stexc S E A) :
  stable R m1 -> stable R m2 -> stable R (if b then m1 else m2).
Proof. by destruct b. Qed.
End Stability.

(** An invariant [P] is preserved by [m] when [m] is [stable] for the
    relation "P s -> P s'", a preorder. *)
#[export] Instance preserves_preorder {S} (P : S -> Prop) :
  PreOrder (fun s s' : S => P s -> P s').
Proof. split; [intros s; auto | intros s1 s2 s3 H12 H23 H; auto]. Qed.

#[export] Hint Resolve stable_ret stable_lift : swarm.

(** ** Related runs of two computations

    [related R RA m1 m2]: run from states related by [R], the two
    computations end in states related by [R], with the same exception
    or with values related by [RA].  It is the relational counterpart of
    [stable], used to show that a computation depends on a footprint of
    the state only. *)

Section Related.
Context {S E : Type} (R : relation S).

Definition outcome_rel {A B} (RA : A -> B -> Prop) (o1 : outcome E A) (o2 : outcome E B) : Prop :=
  match o1, o2 with
  | Ok a, Ok b => RA a b
  | Raise e1, Raise e2 => e1 = e2
  | _, _ => False
  end.

Definition related {A B} (RA : A -> B -> Prop) (m1 : stexc S E A) (m2 : stexc S E B) : Prop :=
  forall s1 s2, R s1 s2 -> R (fst (m1 s1)) (fst (m2 s2)) /\ outcome_rel RA (snd (m1 s1)) (snd (m2 s2)).

Lemma related_ret {A B} (RA : A -> B -> Prop) a b : RA a b -> related RA (ret a) (ret b).
Proof. by intros Hab s1 s2 Hs. Qed.

Lemma related_lift {A} (o : outcome E A) : related eq (lift o) (lift o).
Proof. intros s1 s2 Hs. split; [done|]. by destruct o. Qed.

Lemma related_bind {A1 A2 B1 B2} (RA : A1 -> A2 -> Prop) (RB : B1 -> B2 -> Prop)
    m1 m2 (k1 : A1 -> stexc S E B1) (k2 : A2 -> stexc S E B2) :
  related RA m1 m2 -> (forall a1 a2, RA a1 a2 -> related RB (k1 a1) (k2 a2)) ->
  related RB (bind m1 k1) (bind m2 k2).
Proof.
  intros Hm Hk s1 s2 Hs. unfold bind. destruct (Hm s1 s2 Hs) as [Hs' Ho].
  destruct (m1 s1) as [s1' [a1|e1]], (m2 s2) as [s2' [a2|e2]]; simpl in *; try done.
  by apply Hk.
Qed.

(** Equal values, so the two continuations can be the same function. *)
Lemma related_bind_eq {A B} (m1 m2 : stexc S E A) (k1 k2 : A -> stexc S E B) :
  related eq m1 m2 -> (forall a, related eq (k1 a) (k2 a)) -> related eq (bind m1 k1) (bind m2 k2).
Proof. intros Hm Hk. apply (related_bind eq); [done|]. by intros a ? <-. Qed.

Lemma related_outcome {A} (m1 m2 : stexc S E A) s1 s2 :
  related eq m1 m2 -> R s1 s2 -> snd (m1 s1) = snd (m2 s2).
Proof.
  intros Hm Hs. destruct (Hm s1 s2 Hs) as [_ Ho].
  destruct (snd (m1 s1)), (snd (m2 s2)); simpl in Ho; by subst.
Qed.
End Related.

(** ** Generic list lemmas *)

(** In a list of pairs whose first components are distinct, the first
    component determines the pair. *)
Lemma NoDup_fst_eq {A B} (l : list (A * B)) (x y : A * B) :
  NoDup l.*1 -> x ∈ l -> y ∈ l -> x.1 = y.1 -> x = y.
Proof.
  induction l as [|z l IH]; intros Hnd Hx Hy Hxy; [by apply not_elem_of_nil in Hx|].
  simpl in Hnd. apply NoDup_cons in Hnd as [Hz Hnd].
  apply elem_of_cons in Hx as [->|Hx]; apply elem_of_cons in Hy as [->|Hy]; auto.
  - destruct Hz. rewrite Hxy. by apply list_elem_of_fmap_2.
  - destruct Hz. rewrite <- Hxy. by apply list_elem_of_fmap_2.
Qed.

(** [mapM] over options, on the shapes of lists the logs take. *)
Section MapM.
Context {A B : Type} (f : A -> option B).

Lemma mapM_app l1 l2 :
  mapM f (l1 ++ l2) = k1 ← mapM f l1; k2 ← mapM f l2; Some (k1 ++ k2).
Proof.
  induction l1 as [|x l1 IH]; simpl.
  - by destruct (mapM f l2).
  - destruct (f x); simpl; [|done]. rewrite IH.
    destruct (mapM f l1); simpl; [|done]. by destruct (mapM f l2).
Qed.

Lemma mapM_replicate n x y : f x = Some y -> mapM f (replicate n x) = Some (replicate n y).
Proof. intros Hx. induction n as [|n IH]; simpl; [done|]. by rewrite Hx, IH. Qed.

Lemma mapM_ext_in (g : A -> option B) l :
  (forall x, x ∈ l -> f x = g x) -> mapM f l = mapM g l.
Proof.
  induction l as [|x l IH]; intros Hfg; simpl; [done|].
  rewrite (Hfg x (proj2 (elem_of_cons _ _ _) (or_introl eq_refl))), IH; [done|].
  intros y Hy. apply Hfg. by right.
Qed.
Lemma mapM_Some_elem l k x :
  mapM f l = Some k -> x ∈ l -> exists y, f x = Some y /\ y ∈ k.
Proof.
  intros Hl Hx. apply mapM_Some_1 in Hl.
  apply list_elem_of_lookup in Hx as [i Hi].
  destruct (Forall2_lookup_l _ _ _ i x Hl Hi) as (y & Hy & Hxy).
  exists y. split; [done | by eapply list_elem_of_lookup_2].
Qed.

(** Two maps of [l] with the same result agree on every element of [l]. *)
Lemma mapM_same_elem (g : A -> option B) l k x :
  mapM f l = Some k -> mapM g l = Some k -> x ∈ l -> f x = g x.
Proof.
  intros Hf Hg Hx. apply mapM_Some_1 in Hf, Hg.
  apply list_elem_of_lookup in Hx as [i Hi].
  destruct (Forall2_lookup_l _ _ _ i x Hf Hi) as (y & Hy & Hxy).
  destruct (Forall2_lookup_l _ _ _ i x Hg Hi) as (y' & Hy' & Hxy').
  congruence.
Qed.
End MapM.

(** ** Computations that only read the state *)

Definition readonly {S E A} (m : stexc S E A) : Prop := forall s, fst (m s) = s.

Section Readonly.
Context {S E : Type}.

Lemma readonly_run {A} (m : stexc S E A) s : readonly m -> m s = (s, snd (m s)).
Proof. intros Hm. rewrite <- (Hm s) at 2. by destruct (m s). Qed.

Lemma readonly_ret {A} (a : A) : readonly (@ret S E A a).
Proof. done. Qed.

Lemma readonly_lift {A} (o : outcome E A) : readonly (@lift S E A o).
Proof. done. Qed.

Lemma readonly_bind {A B} (m : stexc S E A) (k : A -> stexc S E B) :
  readonly m -> (forall a, readonly (k a)) -> readonly (bind m k).
Proof.
  intros Hm Hk s. unfold bind. rewrite (readonly_run m s Hm).
  destruct (snd (m s)); simpl; [apply Hk | done].
Qed.

Lemma readonly_stable (R : relation S) `{!Reflexive R} {A} (m : stexc S E A) :
  readonly m -> stable R m.
Proof. intros Hm s. rewrite Hm. reflexivity. Qed.

(** A read-only first step passes its state on unchanged. *)
Lemma bind_readonly {A B} (m : stexc S E A) (k : A -> stexc S E B) s :
  readonly m ->
  bind m k s = match snd (m s) with Ok a => k a s | Raise e => (s, Raise e) end.
Proof. intros Hm. unfold bind. by rewrite (readonly_run m s Hm). Qed.
End Readonly.

(** A bind whose first step is known. *)
Lemma bind_run_ok {S E A B} (m : stexc S E A) (k : A -> stexc S E B) s s' a :
  m s = (s', Ok a) -> bind m k s = k a s'.
Proof. intros Hm. unfold bind. by rewrite Hm. Qed.

Lemma bind_run_raise {S E A B} (m : stexc S E A) (k : A -> stexc S E B) s s' e :
  m s = (s', Raise e) -> bind m k s = (s', Raise e).
Proof. intros Hm. unfold bind. by rewrite Hm. Qed.

#[export] Hint Resolve readonly_ret readonly_lift : swarm.

(** Prove a computation written with [let*] [readonly], or [stable] for
    a given relation, from the lemmas of [swarm]. *)
Ltac solve_readonly :=
  first
    [ solve [eauto with swarm]
    | apply readonly_bind; [solve_readonly | intros ?; solve_readonly]
    | match goal with |- readonly (if ?b then _ else _) => destruct b; solve_readonly end
    | match goal with |- readonly (match ?x with _ => _ end) => destruct x; solve_readonly end ].

Ltac solve_stable R :=
  first
    [ solve [eauto with swarm typeclass_instances]
    | apply (readonly_stable R); solve [solve_readonly]
    | apply (stable_bind R); [solve_stable R | intros ?; solve_stable R]
    | apply (stable_if R); solve_stable R
    | apply (stable_for_each R); intros ? ?; solve_stable R
    | match goal with |- stable _ (match ?x with _ => _ end) => destruct x; solve_stable R end
    | apply (stable_lift R)
    | apply (stable_ret R) ].

Lemma stable_apply {S E A} (R : relation S) (m : stexc S E A) s :
  stable R m -> R s (fst (m s)).
Proof. auto. Qed.

(** ** Hexadecimal digits *)


(** The lowercase hex digit of [n < 16], as [hexdigest] and the JSON
    escapes write it. *)
Definition hex_digit (n : nat) : ascii :=
  ascii_of_nat (if Nat.ltb n 10 then 48 + n else 87 + n).

Definition is_hex_char (c : ascii) : bool :=
  let n := nat_of_ascii c in (Nat.leb 48 n && Nat.leb n 57) || (Nat.leb 97 n && Nat.leb n 102).

Lemma string_length_app s1 s2 : String.length (s1 ++ s2) = String.length s1 + String.length s2.
Proof. induction s1 as [|c s1 IH]; simpl; auto. Qed.

(** ** Characters of a string *)

Fixpoint all_chars (p : ascii -> bool) (s : string) : bool :=
  match s with
  | EmptyString => true
  | String c s' => p c && all_chars p s'
  end.

Fixpoint has_char (c : ascii) (s : string) : bool :=
  match s with
  | EmptyString => false
  | String c' s' => Ascii.eqb c c' || has_char c s'
  end.

Lemma all_chars_app p s1 s2 : all_chars p (s1 ++ s2) = all_chars p s1 && all_chars p s2.
Proof. induction s1 as [|c s1 IH]; simpl; [done|]. by rewrite IH, andb_assoc. Qed.

Lemma has_char_app c s1 s2 : has_char c (s1 ++ s2) = has_char c s1 || has_char c s2.
Proof. induction s1 as [|c' s1 IH]; simpl; [done|]. by rewrite IH, orb_assoc. Qed.

Lemma all_chars_substring p n m s :
  all_chars p s = true -> all_chars p (substring n m s) = true.
Proof.
  revert n m. induction s as [|c s IH]; intros n m Hs; [by destruct n, m|].
  simpl in Hs. apply andb_prop in Hs as [Hc Hs].
  destruct n, m; simpl; rewrite ?Hc, ?IH; auto.
Qed.

(** A character the predicate rejects does not occur. *)
Lemma all_chars_has_char p c s : all_chars p s = true -> p c = false -> has_char c s = false.
Proof.
  induction s as [|c' s IH]; simpl; [done|]. intros Hs Hc.
  apply andb_prop in Hs as [Hc' Hs]. rewrite IH by done.
  destruct (Ascii.eqb_spec c c') as [->|]; [congruence | done].
Qed.

Definition all_hex : string -> bool := all_chars is_hex_char.

Lemma all_hex_app s1 s2 : all_hex (s1 ++ s2) = all_hex s1 && all_hex s2.
Proof. apply all_chars_app. Qed.

(** ** Splitting a string at a separator *)

Lemma string_app_assoc (s1 s2 s3 : string) : ((s1 ++ s2) ++ s3 = s1 ++ (s2 ++ s3))%string.
Proof. induction s1 as [|c s1 IH]; simpl; congruence. Qed.

Lemma string_app_inv_head (s t t' : string) : (s ++ t)%string = (s ++ t')%string -> t = t'.
Proof. induction s as [|c s IH]; simpl; [done|]. intros [= H]. auto. Qed.

Lemma list_ascii_of_string_app (s t : string) :
  list_ascii_of_string (s ++ t) = list_ascii_of_string s ++ list_ascii_of_string t.
Proof. induction s as [|c s IH]; simpl; congruence. Qed.

Lemma string_app_inv_tail (s s' t : string) : (s ++ t)%string = (s' ++ t)%string -> s = s'.
Proof.
  intros H. apply (f_equal list_ascii_of_string) in H. rewrite !list_ascii_of_string_app in H.
  apply app_inv_tail in H. rewrite <- (string_of_list_ascii_of_string s), H.
  apply string_of_list_ascii_of_string.
Qed.

(** The text before the first occurrence of [c] is determined. *)
Lemma string_app_sep c s1 s1' t t' :
  has_char c s1 = false -> has_char c s1' = false ->
  (s1 ++ String c t)%string = (s1' ++ String c t')%string -> s1 = s1' /\ t = t'.
Proof.
  revert s1'. induction s1 as [|c1 s1 IH]; intros [|c1' s1'] H1 H1' Heq; simpl in *.
  - by injection Heq.
  - injection Heq as <- _. by rewrite Ascii.eqb_refl in H1'.
  - injection Heq as -> _. by rewrite Ascii.eqb_refl in H1.
  - apply orb_false_elim in H1 as [_ H1]. apply orb_false_elim in H1' as [_ H1'].
    injection Heq as -> Heq. destruct (IH s1' H1 H1' Heq) as [-> ->]. done.
Qed.

(** The same, with the separator at the head of a literal. *)
Lemma string_app_sep_lit c u s1 s1' t t' :
  has_char c s1 = false -> has_char c s1' = false ->
  (s1 ++ (String c u ++ t))%string = (s1' ++ (String c u ++ t'))%string -> s1 = s1' /\ t = t'.
Proof.
  intros H1 H1' H. destruct (string_app_sep c s1 s1' (u ++ t) (u ++ t') H1 H1' H) as [-> Ht].
  split; [done|]. by apply string_app_inv_head in Ht.
Qed.

(** ** Decimal integers *)

(** [int.__repr__]: decimal digits with a leading [-] when negative. *)
Definition int_repr (z : Z) : string := NilZero.string_of_int (Z.to_int z).

Definition is_int_char (c : ascii) : bool :=
  let n := nat_of_ascii c in (Nat.leb 48 n && Nat.leb n 57) || Nat.eqb n 45.

Lemma int_repr_chars z : all_chars is_int_char (int_repr z) = true.
Proof.
  assert (Hu : forall u, all_chars is_int_char (NilEmpty.string_of_uint u) = true)
    by (induction u; simpl; auto).
  unfold int_repr, NilZero.string_of_int, NilZero.string_of_uint.
  destruct (Z.to_int z) as [u|u]; destruct u; simpl; auto.
Qed.

Lemma int_repr_no_char c z : is_int_char c = false -> has_char c (int_repr z) = false.
Proof. apply all_chars_has_char, int_repr_chars. Qed.

Lemma int_repr_inj z z' : int_repr z = int_repr z' -> z = z'.
Proof.
  intros H. apply DecimalZ.to_int_inj.
  assert (Hnn : forall z, Z.to_int z <> Decimal.Pos Decimal.Nil /\ Z.to_int z <> Decimal.Neg Decimal.Nil).
  { intros [|p|p]; simpl; split; try discriminate; intros [= Hp]; by apply (DecimalPos.Unsigned.to_uint_nonnil p). }
  destruct (Hnn z), (Hnn z').
  apply (f_equal NilZero.int_of_string) in H. unfold int_repr in H.
  rewrite !NilZero.isi in H by done. by injection H.
Qed.

Lemma hex_digit_is_hex n : n < 16 -> is_hex_char (hex_digit n) = true.
Proof.
  intros Hn. unfold hex_digit, is_hex_char.
  do 16 (destruct n as [|n]; [reflexivity|]). lia.
Qed.
