(* ===== verification/Md5.v ===== *)
(** * MD5: [hashlib.md5(data.encode()).hexdigest()]

    The checksum of a message ([calculate_checksum], [verify_checksum],
    lines 102-111 of [src/code.py]) is the MD5 digest of the UTF-8
    encoding of a JSON text, written as 32 lowercase hex digits.  This
    file is RFC 1321 as an executable function: words are [Z] kept in
    [0, 2^32) by [wrap32] (the wrap-around of C's [uint32_t]), rotations
    are [Z.shiftl]/[Z.shiftr]/[Z.lor], bytes are [Byte.byte] combined
    little-endian into words.  [md5_hexdigest] is the function the
    protocol calls; [Protocol] reaches it through the [Runtime] class. *)

From Stdlib Require Import ZArith String Ascii.
From Stdlib Require Import Strings.Byte.
From stdpp Require Import base list.
From coqutil Require Import Z.bitblast.
From S2P Require Import Prelude.

Module Md5.
Local Open Scope Z_scope.

(** ** 32-bit words *)

Definition wrap32 (x : Z) : Z := Z.land x (Z.ones 32).
Definition add32 (x y : Z) : Z := wrap32 (x + y).
Definition not32 (x : Z) : Z := Z.lxor x (Z.ones 32).
Definition rotl32 (x s : Z) : Z := wrap32 (Z.lor (Z.shiftl x s) (Z.shiftr x (32 - s))).

(** [T[i] = floor(2^32 * |sin(i + 1)|)] (RFC 1321, 3.4). *)
Definition K : list Z := [
  0xd76aa478; 0xe8c7b756; 0x242070db; 0xc1bdceee;
  0xf57c0faf; 0x4787c62a; 0xa8304613; 0xfd469501;
  0x698098d8; 0x8b44f7af; 0xffff5bb1; 0x895cd7be;
  0x6b901122; 0xfd987193; 0xa679438e; 0x49b40821;
  0xf61e2562; 0xc040b340; 0x265e5a51; 0xe9b6c7aa;
  0xd62f105d; 0x02441453; 0xd8a1e681; 0xe7d3fbc8;
  0x21e1cde6; 0xc33707d6; 0xf4d50d87; 0x455a14ed;
  0xa9e3e905; 0xfcefa3f8; 0x676f02d9; 0x8d2a4c8a;
  0xfffa3942; 0x8771f681; 0x6d9d6122; 0xfde5380c;
  0xa4beea44; 0x4bdecfa9; 0xf6bb4b60; 0xbebfbc70;
  0x289b7ec6; 0xeaa127fa; 0xd4ef3085; 0x04881d05;
  0xd9d4d039; 0xe6db99e5; 0x1fa27cf8; 0xc4ac5665;
  0xf4292244; 0x432aff97; 0xab9423a7; 0xfc93a039;
  0x655b59c3; 0x8f0ccc92; 0xffeff47d; 0x85845dd1;
  0x6fa87e4f; 0xfe2ce6e0; 0xa3014314; 0x4e0811a1;
  0xf7537e82; 0xbd3af235; 0x2ad7d2bb; 0xeb86d391].

(** The rotation amount of each of the 64 operations. *)
Definition shifts : list Z :=
  let r1 := [7; 12; 17; 22] in let r2 := [5; 9; 14; 20] in
  let r3 := [4; 11; 16; 23] in let r4 := [6; 10; 15; 21] in
  r1 ++ r1 ++ r1 ++ r1 ++ r2 ++ r2 ++ r2 ++ r2 ++
  r3 ++ r3 ++ r3 ++ r3 ++ r4 ++ r4 ++ r4 ++ r4.

(** The auxiliary function [F], [G], [H] or [I] of operation [i], and the
    index of the message word it adds. *)
Definition round_fn (i : nat) (b c d : Z) : Z * nat :=
  if Nat.ltb i 16 then (Z.lor (Z.land b c) (Z.land (not32 b) d), i)
  else if Nat.ltb i 32 then (Z.lor (Z.land b d) (Z.land c (not32 d)), (5 * i + 1) mod 16)%nat
  else if Nat.ltb i 48 then (Z.lxor b (Z.lxor c d), (3 * i + 5) mod 16)%nat
  else (Z.lxor c (Z.lor b (not32 d)), (7 * i) mod 16)%nat.

(** ** The buffer [(A, B, C, D)] and the compression function *)

Record state := mk { a : Z; b : Z; c : Z; d : Z }.

Definition init : state := mk 0x67452301 0xefcdab89 0x98badcfe 0x10325476.

(** Operation [i] on the message block [M] (16 words). *)
Definition round (M : list Z) (st : state) (i : nat) : state :=
  let '(f, g) := round_fn i (b st) (c st) (d st) in
  let f := add32 (add32 (add32 f (a st)) (nth i K 0)) (nth g M 0) in
  mk (d st) (add32 (b st) (rotl32 f (nth i shifts 0))) (b st) (c st).

(** Bytes as little-endian words. *)
Fixpoint le_combine (l : list byte) : Z :=
  match l with
  | [] => 0
  | x :: l' => Z.lor (Z.of_N (Byte.to_N x)) (Z.shiftl (le_combine l') 8)
  end.

Definition byte_of_Z (z : Z) : byte := byte_of_ascii (ascii_of_N (Z.to_N (z mod 256))).

Fixpoint le_split (n : nat) (w : Z) : list byte :=
  match n with
  | O => []
  | S n' => byte_of_Z w :: le_split n' (Z.shiftr w 8)
  end.

Fixpoint words (n : nat) (bs : list byte) : list Z :=
  match n with
  | O => []
  | S n' => le_combine (take 4 bs) :: words n' (drop 4 bs)
  end.

Definition compress (st : state) (block : list byte) : state :=
  let M := words 16 block in
  let st' := fold_left (round M) (seq 0 64) st in
  mk (add32 (a st) (a st')) (add32 (b st) (b st')) (add32 (c st) (c st')) (add32 (d st) (d st')).

(** ** Padding and the digest *)

(** A [0x80] byte, zeros up to 56 modulo 64, the bit length modulo
    [2^64] in 8 little-endian bytes (RFC 1321, 3.1-3.2). *)
Definition pad (msg : list byte) : list byte :=
  let len := length msg in
  msg ++ [x80] ++ repeat x00 ((119 - len mod 64) mod 64) ++ le_split 8 (8 * Z.of_nat len).

Fixpoint blocks (n : nat) (st : state) (bs : list byte) : state :=
  match n with
  | O => st
  | S n' => blocks n' (compress st (take 64 bs)) (drop 64 bs)
  end.

Definition digest (msg : list byte) : list byte :=
  let p := pad msg in
  let st := blocks (length p / 64) init p in
  le_split 4 (a st) ++ le_split 4 (b st) ++ le_split 4 (c st) ++ le_split 4 (d st).

Definition hex_byte (x : byte) : string :=
  let n := Byte.to_nat x in
  String (hex_digit (n / 16)) (String (hex_digit (n mod 16)) EmptyString).

Fixpoint hexdigest (bs : list byte) : string :=
  match bs with
  | [] => EmptyString
  | x :: bs' => hex_byte x ++ hexdigest bs'
  end.

(** [str.encode()] (UTF-8) on code points below 256. *)
Definition utf8_char (ch : ascii) : list byte :=
  let n := Z.of_N (N_of_ascii ch) in
  if n <? 128 then [byte_of_ascii ch]
  else [byte_of_Z (Z.lor 0xc0 (Z.shiftr n 6)); byte_of_Z (Z.lor 0x80 (Z.land n 0x3f))].

Fixpoint utf8_encode (s : string) : list byte :=
  match s with
  | EmptyString => []
  | String ch s' => utf8_char ch ++ utf8_encode s'
  end.

(** [hashlib.md5(s.encode()).hexdigest()]. *)
Definition md5_hexdigest (s : string) : string := hexdigest (digest (utf8_encode s)).

End Md5.

(** ** Properties *)

Module Md5Facts.
Import Md5.
Local Open Scope Z_scope.
Local Open Scope string_scope.

Lemma length_le_split n w : length (le_split n w) = n.
Proof. revert w. induction n as [|n IH]; intros w; simpl; [done|]. by rewrite IH. Qed.

Lemma length_digest msg : length (digest msg) = 16%nat.
Proof. unfold digest. rewrite !length_app, !length_le_split. done. Qed.

Lemma hexdigest_shape bs :
  String.length (hexdigest bs) = (2 * length bs)%nat /\ all_hex (hexdigest bs) = true.
Proof.
  induction bs as [|x bs [IHl IHh]]; [done|]. cbn [hexdigest].
  pose proof (Byte.to_nat_bounded x).
  rewrite string_length_app, all_hex_app, IHl, IHh. unfold hex_byte, all_hex. cbn [String.length all_chars].
  rewrite !hex_digit_is_hex; [split; [simpl; lia | done] | |].
  - apply Nat.mod_upper_bound; lia.
  - apply Nat.Div0.div_lt_upper_bound; lia.
Qed.

Lemma length_pad msg :
  length (pad msg) = (length msg + 1 + (119 - length msg mod 64) mod 64 + 8)%nat.
Proof. unfold pad. rewrite !length_app, repeat_length, length_le_split. simpl. lia. Qed.

Lemma wrap32_range x : 0 <= wrap32 x < 2 ^ 32.
Proof. unfold wrap32. rewrite Z.land_ones by lia. apply Z.mod_pos_bound. lia. Qed.

Lemma byte_of_Z_to_N z : Z.of_N (Byte.to_N (byte_of_Z z)) = z mod 256.
Proof.
  unfold byte_of_Z. pose proof (Z.mod_pos_bound z 256 ltac:(lia)) as Hb.
  pose proof (byte_of_ascii_via_N (ascii_of_N (Z.to_N (z mod 256)))) as H.
  rewrite N_ascii_embedding in H by lia. symmetry in H.
  apply Byte.to_of_N in H. rewrite H. lia.
Qed.

(** Little-endian bytes are the word modulo [2^(8n)]. *)
Lemma le_combine_split n z : le_combine (le_split n z) = z mod 2 ^ (8 * Z.of_nat n).
Proof.
  revert z. induction n as [|n IH]; intros z; cbn [le_split le_combine].
  - by rewrite Z.mod_1_r.
  - rewrite IH, byte_of_Z_to_N. change 256 with (2 ^ 8). rewrite <- !Z.land_ones by lia.
    replace (8 * Z.of_nat (S n)) with (8 * Z.of_nat n + 8) by lia.
    Z.bitblast.
Qed.

(** Every word of the buffer is a 32-bit value. *)
Definition bounded (st : state) : Prop :=
  Forall (fun w => 0 <= w < 2 ^ 32) [a st; b st; c st; d st].

Lemma compress_bounded st block : bounded (compress st block).
Proof. repeat constructor; apply wrap32_range. Qed.

Lemma blocks_bounded n st bs : bounded st -> bounded (blocks n st bs).
Proof.
  revert st bs. induction n as [|n IH]; intros st bs Hst; simpl; [done|].
  apply IH, compress_bounded.
Qed.

Lemma le_combine_split_32 w : 0 <= w < 2 ^ 32 -> le_combine (le_split 4 w) = w.
Proof. intros Hw. rewrite le_combine_split. by apply Z.mod_small. Qed.

(** [hashlib.md5(s.encode()).hexdigest()] is always 32 lowercase
    hexadecimal digits, whatever the string. *)
Theorem md5_hexdigest_shape s :
  String.length (md5_hexdigest s) = 32%nat /\ all_hex (md5_hexdigest s) = true.
Proof.
  unfold md5_hexdigest. destruct (hexdigest_shape (digest (utf8_encode s))) as [Hl Hh].
  by rewrite Hl, length_digest.
Qed.

(** The padding of a message whose length is [r] modulo 64 ends the
    last block exactly: one block is added when [r <= 55], two otherwise. *)
Lemma pad_zeros r :
  (r < 64)%nat ->
  (r <= 55 /\ r + 1 + (119 - r) mod 64 + 8 = 64 \/ 56 <= r /\ r + 1 + (119 - r) mod 64 + 8 = 128)%nat.
Proof. intros Hr. do 64 (destruct r as [|r]; [simpl; lia|]). lia. Qed.

Lemma pad_length_bounds msg :
  exists nblocks, length (pad msg) = (64 * nblocks)%nat /\
    (length msg + 9 <= length (pad msg) <= length msg + 72)%nat.
Proof.
  rewrite length_pad. pose proof (Nat.div_mod_eq (length msg) 64) as Hq.
  destruct (pad_zeros (length msg mod 64) (Nat.mod_upper_bound _ 64 ltac:(lia))) as [[Hr Hk]|[Hr Hk]].
  - exists (length msg / 64 + 1)%nat. lia.
  - exists (length msg / 64 + 2)%nat. lia.
Qed.

Lemma pad_length_field msg :
  drop (length (pad msg) - 8) (pad msg) = le_split 8 (8 * Z.of_nat (length msg)).
Proof.
  rewrite length_pad. unfold pad. rewrite !app_assoc.
  replace (length msg + 1 + (119 - length msg mod 64) mod 64 + 8 - 8)%nat
    with (length ((msg ++ [x80]) ++ repeat x00 ((119 - length msg mod 64) mod 64)))
    by (rewrite !length_app, repeat_length; simpl; lia).
  by rewrite drop_app_length.
Qed.

(** The padded message starts with the message, is a whole number
    of 64-byte blocks, adds between 9 and 72 bytes, and ends with the
    message's length in bits modulo [2^64], little-endian. *)
Theorem pad_spec msg :
  let p := pad msg in
  (length p mod 64 = 0)%nat /\ take (length msg) p = msg /\
  (length msg + 9 <= length p <= length msg + 72)%nat /\
  le_combine (drop (length p - 8) p) = 8 * Z.of_nat (length msg) mod 2 ^ 64.
Proof.
  cbv zeta. destruct (pad_length_bounds msg) as [n [Hn Hb]].
  split; [|split; [|split]].
  - rewrite Hn, Nat.mul_comm. apply Nat.Div0.mod_mul.
  - unfold pad. by rewrite take_app_length.
  - done.
  - by rewrite pad_length_field, le_combine_split.
Qed.

(** [words] reads back the little-endian words [le_split] writes. *)
Lemma words_le_split w bs n :
  0 <= w < 2 ^ 32 -> words (S n) (le_split 4 w ++ bs) = w :: words n bs.
Proof.
  intros Hw. cbn [words].
  rewrite <- (length_le_split 4 w) at 1 3.
  by rewrite take_app_length, drop_app_length, le_combine_split_32.
Qed.

(** The final buffer [(A, B, C, D)] of a message. *)
Definition final_state (msg : list byte) : state :=
  blocks (length (pad msg) / 64) init (pad msg).

(** The sixteen digest bytes are the final buffer words [A], [B],
    [C], [D], each written little-endian (RFC 1321, 3.5): reading them
    back as 32-bit words gives the buffer exactly. *)
Theorem digest_words msg :
  let st := final_state msg in words 4 (digest msg) = [a st; b st; c st; d st].
Proof.
  cbv zeta. unfold digest. fold (final_state msg).
  assert (Hi : bounded init) by (repeat constructor; simpl; lia).
  pose proof (blocks_bounded (length (pad msg) / 64) init (pad msg) Hi) as Hb.
  unfold final_state. destruct (blocks _ _ _) as [wa wb wc wd]. cbn [a b c d] in *.
  apply Forall_cons in Hb as [Ha Hb]; apply Forall_cons in Hb as [Hb' Hb];
    apply Forall_cons in Hb as [Hc Hb]; apply Forall_cons in Hb as [Hd _].
  rewrite (words_le_split _ _ 3 Ha), (words_le_split _ _ 2 Hb'), (words_le_split _ _ 1 Hc).
  rewrite <- (app_nil_r (le_split 4 wd)). by rewrite (words_le_split _ _ 0 Hd).
Qed.

(** The test suite of RFC 1321 (appendix A.5): the model computes
    the published digests, including the 80-byte input that spans two
    blocks. *)
Example md5_rfc1321_test_suite :
  md5_hexdigest "" = "d41d8cd98f00b204e9800998ecf8427e" /\
  md5_hexdigest "a" = "0cc175b9c0f1b6a831c399e269772661" /\
  md5_hexdigest "abc" = "900150983cd24fb0d6963f7d28e17f72" /\
  md5_hexdigest "message digest" = "f96b697d7cb7938d525a2f31aaf161d0" /\
  md5_hexdigest "abcdefghijklmnopqrstuvwxyz" = "c3fcd3d76192e4007dfb496cca67e13b" /\
  md5_hexdigest "ABCDEFGHIJKLMNOPQRSTUVWXYZabcdefghijklmnopqrstuvwxyz0123456789"
    = "d174ab98d277d9f5a5611c2c9f419d9f" /\
  md5_hexdigest "12345678901234567890123456789012345678901234567890123456789012345678901234567890"
    = "57edf4a22be3c955ac49da2e2107b67a".
Proof. repeat split; vm_compute; reflexivity. Qed.

End Md5Facts.
