(* ===== verification/FloatRepr.v ===== *)
(** * [float.__repr__] and the [:.2f] format

    CPython prints a float with [PyOS_double_to_string]: [repr] asks
    David Gay's [_Py_dg_dtoa] for the shortest decimal digit string that
    reads back as the same float (mode 0; among the shortest, the one
    closest to the float, ties to an even last digit), then lays the
    digits out in [format_float_short]: positional notation when the
    decimal point position [decpt] satisfies [-4 < decpt <= 16], with
    [.0] added to an integral value, otherwise [d.ddde+XX].  The [:.2f]
    format asks for the value correctly rounded (half to even) to two
    decimals (mode 3).  [json.dumps] writes finite floats with [repr];
    [print] writes them inside dicts with [repr] and through [:.2f].

    The digit search works on the exact value [m * 2^e] of the float as
    a fraction of integers.  Reading a decimal back ([decimal_to_float])
    divides with 55 or more quotient bits and a sticky bit, then rounds
    with [SpecFloat.binary_normalize] (round to nearest even): a sticky
    bit below the rounding position keeps the rounding of the exact
    quotient. *)

From Stdlib Require Import ZArith Floats String Ascii.
From stdpp Require Import base list.
From S2P Require Import Prelude.

Module FloatRepr.
Local Open Scope Z_scope.

(** ** Exact values *)

(** [|x| = num / den] for the finite float [m * 2^e]. *)
Definition ratio (m : positive) (e : Z) : Z * Z :=
  if 0 <=? e then (Zpos m * 2 ^ e, 1) else (Zpos m, 2 ^ (- e)).

(** Decimal digits of a positive integer. *)
Definition ndigits (z : Z) : Z := Z.of_nat (Decimal.nb_digits (Pos.to_uint (Z.to_pos z))).

(** [floor(log10(num / den))] for positive [num] and [den]: scaling by
    [10^ndigits den] makes the quotient at least 1 without changing its
    number of digits. *)
Definition dec_exp (num den : Z) : Z :=
  let s := ndigits den in ndigits (num * 10 ^ s / den) - 1 - s.

(** [num / den * 10^p] as a fraction. *)
Definition scale (num den p : Z) : Z * Z :=
  if 0 <=? p then (num * 10 ^ p, den) else (num, den * 10 ^ (- p)).

(** ** Reading a decimal back: [float(c * 10^k)] rounded to nearest even *)

Definition round_ratio (neg : bool) (num den : Z) : float :=
  if num =? 0 then (if neg then (-0)%float else 0%float)
  else
    let s := 56 - (Z.log2 num - Z.log2 den) in
    let '(p, q) := if 0 <=? s then (num * 2 ^ s, den) else (num, den * 2 ^ (- s)) in
    let sticky := if p mod q =? 0 then 0 else 1 in
    let m := 2 * (p / q) + sticky in
    SF2Prim (SpecFloat.binary_normalize 53 1024 (if neg then - m else m) (- s - 1) neg).

Definition decimal_to_float (neg : bool) (c k : Z) : float :=
  if 0 <=? k then round_ratio neg (c * 10 ^ k) 1 else round_ratio neg c (10 ^ (- k)).

(** ** The shortest digit string (mode 0 of [_Py_dg_dtoa]) *)

(** The [n]-digit decimals [c * 10^(-p)] just below and just above the
    value, those that read back as [x], and the closer one (ties to the
    even one). *)
Definition candidate (x : float) (neg : bool) (num den k n : Z) : option (Z * Z) :=
  let p := n - 1 - k in
  let '(a, b) := scale num den p in
  let lo := a / b in
  let r := a mod b in
  let ok c := PrimFloat.eqb (decimal_to_float neg c (- p)) x in
  let lo_ok := ok lo in
  let hi_ok := negb (r =? 0) && ok (lo + 1) in
  if lo_ok && hi_ok then
    if 2 * r <? b then Some (lo, - p)
    else if b <? 2 * r then Some (lo + 1, - p)
    else if Z.even lo then Some (lo, - p) else Some (lo + 1, - p)
  else if lo_ok then Some (lo, - p)
  else if hi_ok then Some (lo + 1, - p)
  else None.

(** The 17-digit decimal nearest the value, which always reads back. *)
Definition nearest17 (num den k : Z) : Z * Z :=
  let p := 16 - k in
  let '(a, b) := scale num den p in
  let lo := a / b in
  let r := a mod b in
  if 2 * r <? b then (lo, - p)
  else if b <? 2 * r then (lo + 1, - p)
  else if Z.even lo then (lo, - p) else (lo + 1, - p).

Fixpoint search (x : float) (neg : bool) (num den k : Z) (ns : list Z) : Z * Z :=
  match ns with
  | [] => nearest17 num den k
  | n :: ns' =>
      match candidate x neg num den k n with
      | Some r => r
      | None => search x neg num den k ns'
      end
  end.

(** Trailing zeros leave the digit string. *)
Fixpoint strip_zeros (fuel : nat) (c k : Z) : Z * Z :=
  match fuel with
  | O => (c, k)
  | S fuel' => if (c mod 10 =? 0) && negb (c =? 0) then strip_zeros fuel' (c / 10) (k + 1) else (c, k)
  end.

(** Digits [c] and exponent [k] with [|x| = c * 10^k], [c] without
    trailing zeros. *)
Definition shortest (x : float) (neg : bool) (m : positive) (e : Z) : Z * Z :=
  let '(num, den) := ratio m e in
  let k := dec_exp num den in
  let '(c, k') := search x neg num den k (map Z.of_nat (seq 1 17)) in
  strip_zeros 17 c k'.

(** ** Layout ([format_float_short] with [Py_DTSF_ADD_DOT_0]) *)

Local Open Scope string_scope.

Fixpoint zeros (n : nat) : string :=
  match n with O => EmptyString | S n' => String "0" (zeros n') end.

(** [%+.02d]. *)
Definition exponent_str (x : Z) : string :=
  (if Z.ltb x 0 then "-" else "+") ++ (if Z.ltb (Z.abs x) 10 then "0" else EmptyString) ++ int_repr (Z.abs x).

Definition layout (neg : bool) (ds : string) (decpt : Z) : string :=
  let len := Z.of_nat (String.length ds) in
  let body :=
    if Z.leb decpt (-4) || Z.ltb 16 decpt then
      let rest := substring 1 (String.length ds - 1) ds in
      substring 0 1 ds ++ (if String.eqb rest EmptyString then EmptyString else "." ++ rest)
        ++ "e" ++ exponent_str (decpt - 1)
    else if Z.leb decpt 0 then "0." ++ zeros (Z.to_nat (- decpt)) ++ ds
    else if Z.ltb decpt len then
      substring 0 (Z.to_nat decpt) ds ++ "." ++ substring (Z.to_nat decpt) (Z.to_nat (len - decpt)) ds
    else ds ++ zeros (Z.to_nat (decpt - len)) ++ ".0" in
  (if neg then "-" else EmptyString) ++ body.

(** [float.__repr__]. *)
Definition repr (x : float) : string :=
  match Prim2SF x with
  | S754_zero s => if s then "-0.0" else "0.0"
  | S754_infinity s => if s then "-inf" else "inf"
  | S754_nan => "nan"
  | S754_finite s m e =>
      let '(c, k) := shortest x s m e in
      layout s (int_repr c) (ndigits c + k)
  end.

(** ** [format(x, '.2f')] *)

(** [round(num / den)], half to even. *)
Definition round_half_even (num den : Z) : Z :=
  let q := num / den in
  let r := num mod den in
  if Z.ltb (2 * r) den then q else if Z.ltb den (2 * r) then q + 1 else if Z.even q then q else q + 1.

Definition fixed2 (x : float) : string :=
  match Prim2SF x with
  | S754_nan => "nan"
  | S754_infinity s => if s then "-inf" else "inf"
  | S754_zero s => if s then "-0.00" else "0.00"
  | S754_finite s m e =>
      let '(num, den) := ratio m e in
      let v := round_half_even (num * 100) den in
      let ds := int_repr v in
      let ds := zeros (3 - String.length ds) ++ ds in
      let len := String.length ds in
      (if s then "-" else EmptyString) ++ substring 0 (len - 2) ds ++ "." ++ substring (len - 2) 2 ds
  end.

End FloatRepr.

(** ** The shape of the printed text *)

Module FloatReprFacts.
Import FloatRepr.
#[local] Set Warnings "-inexact-float".
Local Open Scope string_scope.

Lemma zeros_chars n : all_chars is_int_char (zeros n) = true.
Proof. induction n; simpl; auto. Qed.

Lemma exponent_str_no_comma x : has_char "," (exponent_str x) = false.
Proof.
  unfold exponent_str. rewrite !has_char_app.
  rewrite (all_chars_has_char is_int_char ","%char (int_repr (Z.abs x)) (int_repr_chars _) eq_refl).
  by destruct (Z.ltb x 0), (Z.ltb (Z.abs x) 10).
Qed.

(** The digits laid out by [format_float_short] hold no comma, and a
    decimal point or an exponent. *)
Lemma layout_shape neg ds decpt :
  all_chars is_int_char ds = true ->
  has_char "," (layout neg ds decpt) = false /\
  (has_char "." (layout neg ds decpt) || has_char "e" (layout neg ds decpt)) = true.
Proof.
  intros Hds.
  assert (Hsub : forall n m, has_char "," (substring n m ds) = false)
    by (intros n m; apply (all_chars_has_char is_int_char); [by apply all_chars_substring | done]).
  assert (Hds' : has_char "," ds = false) by (by apply (all_chars_has_char is_int_char)).
  assert (Hz : forall n, has_char "," (zeros n) = false)
    by (intros n; by apply (all_chars_has_char is_int_char); [apply zeros_chars|]).
  unfold layout.
  destruct (Z.leb decpt (-4) || Z.ltb 16 decpt); [|destruct (Z.leb decpt 0); [|destruct (Z.ltb decpt _)]];
    rewrite ?has_char_app, ?Hsub, ?Hds', ?Hz, ?exponent_str_no_comma;
    try destruct (String.eqb _ EmptyString); rewrite ?has_char_app, ?Hsub;
    destruct neg; simpl; rewrite ?orb_true_r; split; auto.
Qed.

(** A finite float is a zero or a finite number of [SpecFloat]. *)
Lemma finite_cases x :
  is_finite x = true ->
  (exists s, Prim2SF x = S754_zero s) \/ (exists s m e, Prim2SF x = S754_finite s m e).
Proof.
  unfold is_finite, is_nan, is_infinity. rewrite !FloatAxioms.eqb_spec, FloatAxioms.abs_spec.
  destruct (Prim2SF x) as [s|s| |s m e]; intros H; [eauto | destruct s; cbv in H; discriminate H | cbv in H; discriminate H | eauto].
Qed.

(** [float.__repr__] never writes a comma, and writes a finite
    float with a decimal point or an exponent, so that in a JSON text or
    a printed dict it never reads as an int and never runs into the next
    field. *)
Lemma repr_shape x :
  has_char "," (repr x) = false /\
  (is_finite x = true -> (has_char "." (repr x) || has_char "e" (repr x)) = true).
Proof.
  unfold repr. destruct (Prim2SF x) as [s|s| |s m e] eqn:Hx.
  - destruct s; split; auto.
  - split; [by destruct s|]. intros Hf. destruct (finite_cases x Hf) as [[? H]|(? & ? & ? & H)]; congruence.
  - split; [done|]. intros Hf. destruct (finite_cases x Hf) as [[? H]|(? & ? & ? & H)]; congruence.
  - destruct (shortest x s m e) as [c k].
    destruct (layout_shape s (int_repr c) (ndigits c + k) (int_repr_chars c)) as [H1 H2]. auto.
Qed.

Lemma repr_shape_witness :
  has_char "," (repr 0.1%float) = false /\
  (is_finite 0.1%float = true -> (has_char "." (repr 0.1%float) || has_char "e" (repr 0.1%float)) = true).
Proof. apply repr_shape. Defined.

(** CPython's outputs at the boundaries of the layout and of the
    digit search: the shortest round-tripping digits ([0.1 + 0.2]), the
    switch to exponent notation above [1e16] and below [1e-4], [.0] on
    integral values, the signed zero, the smallest subnormal and the
    largest float, and [:.2f] rounding half to even on the exact binary
    value. *)
Example repr_fixed2_cases :
  repr (0.1 + 0.2) = "0.30000000000000004" /\ repr 1e16 = "1e+16" /\
  repr 1e15 = "1000000000000000.0" /\ repr 1e-5 = "1e-05" /\ repr 0.0001 = "0.0001" /\
  repr 100 = "100.0" /\ repr (-0) = "-0.0" /\ repr 0x0.0000000000001p-1022 = "5e-324" /\
  repr 0x1.fffffffffffffp+1023 = "1.7976931348623157e+308" /\ repr 28.7041 = "28.7041" /\
  fixed2 2.675 = "2.67" /\ fixed2 0.125 = "0.12" /\ fixed2 0.375 = "0.38" /\
  fixed2 (-0.001) = "-0.00" /\ fixed2 1e20 = "100000000000000000000.00".
Proof. repeat split; vm_compute; reflexivity. Qed.

Section StripZeros.
Local Open Scope Z_scope.

(** The fuel of [strip_zeros] is enough: on digits [0 <= c <= 10^n]
    (the at most seventeen significant digits of the search, or [10^17]
    after a round-up), [n] steps remove every trailing zero, and the
    value [c * 10^k] is kept. *)
Theorem strip_zeros_fuel (n : nat) (c k : Z) :
  (0 <= c <= 10 ^ Z.of_nat n)%Z ->
  let '(c', k') := strip_zeros n c k in
  (c = c' * 10 ^ (k' - k) /\ k <= k' /\ (c' = 0 \/ c' mod 10 <> 0))%Z.
Proof.
  revert c k. induction n as [|n IH]; intros c k Hc; simpl.
  - rewrite Z.sub_diag. simpl in Hc. split_and!; [lia | lia |].
    destruct (Z.eq_dec c 0) as [->|Hne]; [by left | right; by replace c with 1 by lia].
  - destruct ((c mod 10 =? 0) && negb (c =? 0)) eqn:E.
    + apply andb_true_iff in E as [E1 E2]. apply Z.eqb_eq in E1.
      apply negb_true_iff, Z.eqb_neq in E2.
      assert (Hc' : 0 <= c / 10 <= 10 ^ Z.of_nat n).
      { rewrite Nat2Z.inj_succ, Z.pow_succ_r in Hc by lia.
        split; [apply Z.div_pos; lia | apply Z.div_le_upper_bound; lia]. }
      specialize (IH (c / 10) (k + 1) Hc'). destruct (strip_zeros n (c / 10) (k + 1)) as [c' k'].
      destruct IH as (Hv & Hk & Hz). split_and!; [| lia | done].
      rewrite (Z.div_mod c 10) at 1 by lia. rewrite E1, Z.add_0_r, Hv.
      replace (k' - k) with (Z.succ (k' - (k + 1))) by lia. rewrite Z.pow_succ_r by lia. ring.
    + rewrite Z.sub_diag. split_and!; [lia | lia |].
      apply andb_false_iff in E as [E|E]; [right; by apply Z.eqb_neq | left].
      apply negb_false_iff, Z.eqb_eq in E. done.
Qed.

Lemma strip_zeros_fuel_witness :
  (0 <= 10 ^ 17 <= 10 ^ Z.of_nat 17)%Z /\ strip_zeros 17 (10 ^ 17) (-1) = (1%Z, 16%Z) /\
  (let '(c', k') := strip_zeros 17 (10 ^ 17) (-1) in
   (10 ^ 17 = c' * 10 ^ (k' - -1) /\ -1 <= k' /\ (c' = 0 \/ c' mod 10 <> 0))%Z).
Proof.
  split_and!; [lia | lia | vm_compute; reflexivity | apply (strip_zeros_fuel 17 (10 ^ 17) (-1)); lia].
Defined.
End StripZeros.

End FloatReprFacts.
