(* ===== verification/PyRuntime.v ===== *)
(** * Python numbers, exceptions and the library functions the code calls

    A Python number of the program is an [int] ([PInt], unbounded [Z]) or
    a [float] ([PFloat], Rocq's primitive binary64, whose [+ - * / sqrt]
    are the correctly rounded IEEE operations CPython uses).  Each
    operation follows CPython's [floatobject.c] / [mathmodule.c]: an int
    meeting a float is converted first ([int_to_float], round to nearest
    even, [OverflowError] beyond the float range); a float division by
    zero raises [ZeroDivisionError]; [x ** 2] raises [OverflowError] when
    the square overflows; [math.sqrt] and [math.cos] raise [ValueError]
    on a domain error.  [x ** 2] on a float calls libm [pow(x, 2.0)],
    modelled as the correctly rounded [x * x].

    [Runtime] is the interface to the three library functions the
    program calls: libm's [cos], [float.__repr__] on finite floats, and
    [hashlib.md5(s.encode()).hexdigest()].  The protocol is verified for
    every runtime; [Script.cpython_runtime] fills in the executable
    models of [FloatRepr] and [Md5].  [ReprLaws] is what serialization
    needs of [float.__repr__]. *)

From Stdlib Require Import ZArith Ascii Floats String.
From stdpp Require Import base decidable.
From S2P Require Import Prelude FloatRepr.

#[local] Set Warnings "-inexact-float".

(** ** Exceptions raised by the modelled code *)

Inductive PyExc : Type :=
| ZeroDivisionError
| OverflowError
| ValueError
(** A reference that the store does not hold.  It has no Python
    counterpart: in a well-formed store ([Agent.wf]) the dicts that
    drones and logged payloads refer to are allocated, so it arises only
    from a drone reference the caller passes and the store lacks. *)
| DanglingRef.

#[export] Instance PyExc_eq_dec : EqDecision PyExc.
Proof. solve_decision. Defined.

(** ** Numbers *)

Inductive PyNum : Type :=
| PInt (z : Z)
| PFloat (f : float).

Definition float_of_Z_rounded (z : Z) : float :=
  SF2Prim (binary_normalize prec emax z 0 false).

(** [float(n)] for an int: correctly rounded, [OverflowError] when the
    rounded value is out of range ([PyLong_AsDouble]). *)
Definition int_to_float (z : Z) : outcome PyExc float :=
  let f := float_of_Z_rounded z in
  if is_infinity f then Raise OverflowError else Ok f.

(** [PyFloat_AsDouble]: the argument conversion of the [math] functions. *)
Definition as_float (n : PyNum) : outcome PyExc float :=
  match n with
  | PInt z => int_to_float z
  | PFloat f => Ok f
  end.

(** A binary arithmetic operator: exact on two ints, IEEE on floats, the
    int operand converted first when the types are mixed. *)
Definition py_arith (zop : Z -> Z -> Z) (fop : float -> float -> float)
    (a b : PyNum) : outcome PyExc PyNum :=
  match a, b with
  | PInt x, PInt y => Ok (PInt (zop x y))
  | _, _ =>
      obind (as_float a) (fun x =>
      obind (as_float b) (fun y => Ok (PFloat (fop x y))))
  end.

Definition py_add : PyNum -> PyNum -> outcome PyExc PyNum := py_arith Z.add PrimFloat.add.
Definition py_sub : PyNum -> PyNum -> outcome PyExc PyNum := py_arith Z.sub PrimFloat.sub.
Definition py_mul : PyNum -> PyNum -> outcome PyExc PyNum := py_arith Z.mul PrimFloat.mul.

(** [a / b] where [b] is a float ([float_div]): the numerator is
    converted first, then a zero divisor (either sign) raises. *)
Definition py_div_float (a : PyNum) (b : float) : outcome PyExc float :=
  obind (as_float a) (fun x =>
    if PrimFloat.eqb b zero then Raise ZeroDivisionError else Ok (PrimFloat.div x b)).

(** [x ** 2] ([long_pow] on ints; [float_pow] on floats, with its
    special cases before libm [pow] and [OverflowError] on overflow). *)
Definition float_pow2 (v : float) : outcome PyExc float :=
  if is_nan v then Ok v
  else if is_infinity v then Ok infinity
  else if PrimFloat.eqb v zero then Ok zero
  else
    let a := PrimFloat.abs v in
    let r := PrimFloat.mul a a in
    if is_infinity r then Raise OverflowError else Ok r.

Definition py_pow2 (n : PyNum) : outcome PyExc PyNum :=
  match n with
  | PInt z => Ok (PInt (z * z))
  | PFloat v => obind (float_pow2 v) (fun r => Ok (PFloat r))
  end.

(** [math_1] of [mathmodule.c] with [can_overflow = 0]: a NaN result from
    a non-NaN argument, or an infinite result from a finite argument, is
    a [ValueError]. *)
Definition math_1 (func : float -> float) (n : PyNum) : outcome PyExc float :=
  obind (as_float n) (fun x =>
    let r := func x in
    if is_nan r && negb (is_nan x) then Raise ValueError
    else if is_infinity r && is_finite x then Raise ValueError
    else Ok r).

Definition math_sqrt : PyNum -> outcome PyExc float := math_1 PrimFloat.sqrt.

(** [degToRad = Py_MATH_PI / 180.0], a double constant. *)
Definition deg_to_rad : float := PrimFloat.div 0x1.921fb54442d18p+1 180.

Definition math_radians (n : PyNum) : outcome PyExc float :=
  obind (as_float n) (fun x => Ok (PrimFloat.mul x deg_to_rad)).

(** ** The library interface *)

Class Runtime : Type := {
  libm_cos : float -> float;
  float_repr : float -> string;
  md5_hexdigest : string -> string
}.

(** What [json.dumps] relies on from [float.__repr__]: it tells finite
    floats apart, and writes them without a comma and with a decimal
    point or an exponent, so that they never read as ints.  CPython's
    [repr] has the second property by construction
    ([FloatReprFacts.repr_shape]); the first is its round-trip guarantee
    [float(repr(x)) == x]. *)
Class ReprLaws `{Runtime} : Prop := {
  float_repr_inj : forall f f', is_finite f = true -> is_finite f' = true ->
    float_repr f = float_repr f' -> f = f';
  float_repr_shape : forall f, is_finite f = true ->
    has_char ","%char (float_repr f) = false /\
    (has_char "."%char (float_repr f) || has_char "e"%char (float_repr f)) = true
}.

Definition math_cos `{Runtime} (n : PyNum) : outcome PyExc float :=
  math_1 libm_cos n.

(** [format(n, '.2f')] inside an f-string: an int is converted to float
    first and raises [OverflowError] when it is too large. *)
Definition format_2f (n : PyNum) : outcome PyExc string :=
  obind (as_float n) (fun x => Ok (FloatRepr.fixed2 x)).

(** The unique NaN and the infinities of binary64. *)
Lemma is_nan_eq f : is_nan f = true -> f = nan.
Proof.
  intros Hf. rewrite <- (SF2Prim_Prim2SF f), <- (SF2Prim_Prim2SF nan). f_equal.
  unfold is_nan in Hf. rewrite FloatAxioms.eqb_spec in Hf.
  destruct (Prim2SF f) as [s|s| |s m e]; [destruct s; discriminate Hf | destruct s; discriminate Hf | reflexivity |].
  unfold SFeqb, SFcompare in Hf. rewrite Z.compare_refl, Pos.compare_cont_refl in Hf.
  destruct s; discriminate Hf.
Qed.

Lemma eqb_infinity_eq f g :
  (g = infinity \/ g = neg_infinity) -> PrimFloat.eqb f g = true -> f = g.
Proof.
  intros Hg Hf. rewrite <- (SF2Prim_Prim2SF f), <- (SF2Prim_Prim2SF g). f_equal.
  rewrite FloatAxioms.eqb_spec in Hf.
  destruct Hg as [->| ->]; destruct (Prim2SF f) as [[]|[]| |[] m e]; cbv in Hf |- *; congruence.
Qed.

(** A sum with a float operand is a float. *)
Lemma py_add_float a f r : py_add a (PFloat f) = Ok r -> exists x, r = PFloat x.
Proof.
  destruct a as [z|x]; unfold py_add, py_arith; simpl.
  - destruct (int_to_float z); simpl; [intros [= <-] | discriminate]. eauto.
  - intros [= <-]. eauto.
Qed.

(** ** Zeros of the arithmetic

    The facts on binary64 zeros the code meets when a follower sits at
    its leader's position, proved on the [SpecFloat] images of the
    primitive operations ([FloatAxioms]). *)

(** A finite float is a zero or a finite number of [SpecFloat]. *)
Lemma is_finite_SF x :
  is_finite x = true ->
  (exists s, Prim2SF x = S754_zero s) \/ (exists s m e, Prim2SF x = S754_finite s m e).
Proof.
  unfold is_finite, is_nan, is_infinity. rewrite !FloatAxioms.eqb_spec, FloatAxioms.abs_spec.
  destruct (Prim2SF x) as [s|s| |s m e]; [eauto | destruct s; cbv; discriminate | cbv; discriminate | eauto 6].
Qed.

(** [x - x] is [+0.0] for every finite [x]. *)
Lemma sub_diag_finite x : is_finite x = true -> PrimFloat.sub x x = zero.
Proof.
  intros Hx. apply FloatAxioms.Prim2SF_inj. rewrite FloatAxioms.sub_spec.
  destruct (is_finite_SF x Hx) as [[s E]|(s & m & e & E)]; rewrite E; [destruct s; reflexivity|].
  unfold SF64sub, SFsub. rewrite Z.min_id. unfold shl_align. rewrite Z.sub_diag. cbn [fst].
  reflexivity.
Qed.

(** [0.0 * c] is a zero for every finite [c]. *)
Lemma mul_zero_finite c : is_finite c = true -> PrimFloat.mul zero c = zero \/ PrimFloat.mul zero c = neg_zero.
Proof.
  intros Hc. destruct (is_finite_SF c Hc) as [[s E]|(s & m & e & E)];
    destruct s; [right | left | right | left]; apply FloatAxioms.Prim2SF_inj;
    rewrite FloatAxioms.mul_spec, E; reflexivity.
Qed.

(** A number the code's arithmetic handles without error: an int in the
    float range or a finite float. *)
Definition finite_num (n : PyNum) : bool :=
  match n with
  | PInt z => match int_to_float z with Ok _ => true | Raise _ => false end
  | PFloat x => is_finite x
  end.

(** [n - n] is the zero of [n]'s type. *)
Lemma py_sub_diag n : finite_num n = true -> py_sub n n = Ok (PInt 0%Z) \/ py_sub n n = Ok (PFloat 0%float).
Proof.
  destruct n as [z|x]; cbn [finite_num]; intros Hn.
  - left. unfold py_sub, py_arith. rewrite Z.sub_diag; reflexivity.
  - right. unfold py_sub, py_arith. cbn. rewrite (sub_diag_finite x Hn); reflexivity.
Qed.

(** [math.cos] of a point where libm's cosine is finite. *)
Lemma math_cos_finite `{Runtime} rad :
  is_finite (libm_cos rad) = true -> math_cos (PFloat rad) = Ok (libm_cos rad).
Proof.
  intros Hc. unfold math_cos, math_1. cbn [as_float obind].
  unfold is_finite in Hc. apply negb_true_iff, orb_false_iff in Hc as [-> ->]. reflexivity.
Qed.
