(* ===== verification/Json.v ===== *)
(** * JSON values and [json.dumps(obj, sort_keys=True)]

    [Json.t] holds the values the program serializes: dicts (as their
    item lists, in insertion order), lists, strings, numbers, booleans and
    [None].  [dumps] follows the encoder of the Python [json] module with
    its defaults ([ensure_ascii=True], separators [", "] and [": "],
    [allow_nan=True]) and [sort_keys=True]: the items of every dict are
    sorted by key before they are written.  A string is a sequence of code
    points below 256 (one [ascii] each), so Python's code-point order on
    keys is the byte order of [String.compare]. *)

From Stdlib Require Import ZArith Floats String Ascii DecimalString.
From stdpp Require Import base list sorting strings.
From S2P Require Import Prelude PyRuntime.

Module Json.

#[local] Set Warnings "-register-all".
Inductive t : Type :=
| JNull
| JBool (b : bool)
| JNum (n : PyNum)
| JStr (s : string)
| JArr (l : list t)
| JObj (kvs : list (string * t)).

Local Open Scope string_scope.

Definition dquote : ascii := "034"%char.
Definition backslash : ascii := "092"%char.

(** [ascii_escape_unichar]: the short escapes, otherwise [\u00XX] with
    lowercase hex digits. *)
Definition escape_char (c : ascii) : string :=
  let n := nat_of_ascii c in
  if Ascii.eqb c backslash then String backslash (String backslash EmptyString)
  else if Ascii.eqb c dquote then String backslash (String dquote EmptyString)
  else if Nat.leb 32 n && Nat.leb n 126 then String c EmptyString
  else if Nat.eqb n 8 then String backslash "b"
  else if Nat.eqb n 12 then String backslash "f"
  else if Nat.eqb n 10 then String backslash "n"
  else if Nat.eqb n 13 then String backslash "r"
  else if Nat.eqb n 9 then String backslash "t"
  else String backslash ("u00" ++ String (hex_digit (n / 16)) (String (hex_digit (n mod 16)) EmptyString)).

Fixpoint escape (s : string) : string :=
  match s with
  | EmptyString => EmptyString
  | String c s' => escape_char c ++ escape s'
  end.

(** [py_encode_basestring_ascii]. *)
Definition encode_str (s : string) : string :=
  String dquote (escape s ++ String dquote EmptyString).

Fixpoint join (sep : string) (l : list string) : string :=
  match l with
  | [] => EmptyString
  | [x] => x
  | x :: l' => x ++ sep ++ join sep l'
  end.

(** The order [sorted(dct.items())] puts items in: by key. *)
Definition key_le (p q : string * string) : Prop := String.le p.1 q.1.

#[export] Instance key_le_dec : RelDecision key_le.
Proof. intros p q. unfold key_le. apply _. Defined.

#[export] Instance key_le_trans : Transitive key_le.
Proof. intros p q r H1 H2. unfold key_le in *. by trans q.1. Qed.

#[export] Instance key_le_total : Total key_le.
Proof. intros p q. unfold key_le. apply (total String.le). Qed.

Section Dumps.
Context `{Runtime}.

(** [floatstr] of the encoder: the three non-finite spellings, and
    [float.__repr__] otherwise. *)
Definition floatstr (f : float) : string :=
  if is_nan f then "NaN"
  else if PrimFloat.eqb f infinity then "Infinity"
  else if PrimFloat.eqb f neg_infinity then "-Infinity"
  else float_repr f.

Definition num_repr (n : PyNum) : string :=
  match n with
  | PInt z => int_repr z
  | PFloat f => floatstr f
  end.

Definition item_str (kv : string * string) : string :=
  encode_str kv.1 ++ ": " ++ kv.2.

(** The items of a dict, each value already encoded, written in key
    order. *)
Definition dict_str (items : list (string * string)) : string :=
  "{" ++ join ", " (map item_str (merge_sort key_le items)) ++ "}".

Fixpoint dumps (j : t) : string :=
  match j with
  | JNull => "null"
  | JBool b => if b then "true" else "false"
  | JNum n => num_repr n
  | JStr s => encode_str s
  | JArr l => "[" ++ join ", " (map dumps l) ++ "]"
  | JObj kvs => dict_str (map (fun kv => (kv.1, dumps kv.2)) kvs)
  end.

(** ** Canonical serialization *)

Lemma dict_str_perm (items items' : list (string * string)) :
  NoDup items.*1 -> items ≡ₚ items' -> dict_str items = dict_str items'.
Proof.
  intros Hnd Hp. unfold dict_str. do 4 f_equal.
  apply (Sorted_unique_strong key_le).
  - intros x1 x2 Hx1 Hx2 H12 H21.
    rewrite merge_sort_Permutation in Hx1.
    rewrite merge_sort_Permutation, <- Hp in Hx2.
    apply (NoDup_fst_eq items); [done..|].
    unfold key_le in *. exact (anti_symm String.le _ _ H12 H21).
  - apply Sorted_merge_sort, _.
  - apply Sorted_merge_sort, _.
  - by rewrite !merge_sort_Permutation.
Qed.

(** Canonical serialization: with [sort_keys=True] a dict
    serializes to the same text whatever order its items were inserted
    in (the keys of a dict are distinct), so the checksum of a payload
    does not depend on how it was built. *)
Lemma dumps_obj_perm (kvs kvs' : list (string * t)) :
  NoDup kvs.*1 -> kvs ≡ₚ kvs' -> dumps (JObj kvs) = dumps (JObj kvs').
Proof.
  intros Hnd Hp. simpl. apply dict_str_perm.
  - by rewrite <- list_fmap_compose.
  - by apply Permutation_map.
Qed.
End Dumps.

(** ** Numbers are written injectively *)

Lemma not_special_finite f :
  is_nan f = false -> PrimFloat.eqb f infinity = false -> PrimFloat.eqb f neg_infinity = false ->
  is_finite f = true.
Proof.
  intros Hn Hi Hm. unfold is_finite. rewrite Hn. unfold is_infinity.
  rewrite FloatAxioms.eqb_spec, FloatAxioms.abs_spec. rewrite FloatAxioms.eqb_spec in Hi, Hm.
  destruct (Prim2SF f) as [[]|[]| |s m e]; cbv in *; congruence.
Qed.

Section NumRepr.
Context `{ReprLaws}.

Lemma floatstr_cases f :
  (f = nan /\ floatstr f = "NaN") \/ (f = infinity /\ floatstr f = "Infinity") \/
  (f = neg_infinity /\ floatstr f = "-Infinity") \/ (is_finite f = true /\ floatstr f = float_repr f).
Proof.
  unfold floatstr.
  destruct (is_nan f) eqn:Hn; [left; split; [by apply is_nan_eq | done]|].
  destruct (PrimFloat.eqb f infinity) eqn:Hi; [right; left; split; [apply eqb_infinity_eq; auto | done]|].
  destruct (PrimFloat.eqb f neg_infinity) eqn:Hm; [right; right; left; split; [apply eqb_infinity_eq; auto | done]|].
  right; right; right. split; [by apply not_special_finite | done].
Qed.

(** The text of a number holds no comma. *)
Lemma num_repr_no_comma n : has_char ","%char (num_repr n) = false.
Proof.
  destruct n as [z|f]; simpl.
  - by apply (all_chars_has_char is_int_char); [apply int_repr_chars|].
  - destruct (floatstr_cases f) as [[_ ->]|[[_ ->]|[[_ ->]|[Hf ->]]]]; try done.
    apply (float_repr_shape f Hf).
Qed.

(** An int's digits hold neither a decimal point, an exponent nor a
    letter of the non-finite spellings. *)
Lemma int_repr_not_float z s :
  int_repr z = s -> (has_char "."%char s || has_char "e"%char s) = false /\
  s <> "NaN" /\ s <> "Infinity" /\ s <> "-Infinity".
Proof.
  intros <-. pose proof (int_repr_chars z) as Hc.
  rewrite !(all_chars_has_char is_int_char) by done.
  split_and!; [done | intros Heq; rewrite Heq in Hc; discriminate ..].
Qed.

Lemma num_repr_inj a b : num_repr a = num_repr b -> a = b.
Proof.
  destruct a as [z|f], b as [z'|f']; simpl; intros Heq.
  - f_equal. by apply int_repr_inj.
  - destruct (int_repr_not_float z _ Heq) as (Hfe & Hn & Hi & Hm).
    destruct (floatstr_cases f') as [[_ E]|[[_ E]|[[_ E]|[Hf E]]]]; rewrite E in *; try done.
    destruct (float_repr_shape f' Hf) as [_ Hs]. congruence.
  - symmetry in Heq. destruct (int_repr_not_float z' _ Heq) as (Hfe & Hn & Hi & Hm).
    destruct (floatstr_cases f) as [[_ E]|[[_ E]|[[_ E]|[Hf E]]]]; rewrite E in *; try done.
    destruct (float_repr_shape f Hf) as [_ Hs]. congruence.
  - f_equal.
    destruct (floatstr_cases f) as [[-> E]|[[-> E]|[[-> E]|[Hf E]]]];
    destruct (floatstr_cases f') as [[-> E']|[[-> E']|[[-> E']|[Hf' E']]]];
    try rewrite E in Heq; try rewrite E' in Heq; try done.
    all: first [ by apply float_repr_inj
               | destruct (float_repr_shape f' Hf') as [_ Hs]; rewrite <- Heq in Hs; discriminate Hs
               | destruct (float_repr_shape f Hf) as [_ Hs]; rewrite Heq in Hs; discriminate Hs ].
Qed.
End NumRepr.

Lemma dumps_obj_perm_witness :
  @dumps {| libm_cos := fun x => x; float_repr := fun _ => "0.0"; md5_hexdigest := fun s => s |}
    (JObj [("gps_coordinates", JNull); ("altitude", JNum (PInt 100))]) =
  @dumps {| libm_cos := fun x => x; float_repr := fun _ => "0.0"; md5_hexdigest := fun s => s |}
    (JObj [("altitude", JNum (PInt 100)); ("gps_coordinates", JNull)]).
Proof.
  apply dumps_obj_perm; [apply (bool_decide_unpack _); by vm_compute | apply perm_swap].
Defined.

End Json.
