(* ===== verification/PyRepr.v ===== *)
(** * [repr] of the Python objects the program prints

    [print(f"... {message}")] (line 35) and [{self.gps_coordinates}]
    (lines 79 and 118) format a dict with [str], which is [repr] for a
    dict: [{'key': value, ...}] in insertion order, strings quoted by
    [unicode_repr], numbers by [int.__repr__] and [float.__repr__],
    lists as [[a, b]].  The objects are the values of [Json.t], read as
    Python objects (a [JObj] is a dict with its items in insertion
    order).  [str_repr] follows CPython's [unicode_repr] on code points
    below 256: single quotes unless the text holds a single quote and no
    double quote, backslash escapes for the quote, the backslash, tab,
    newline and carriage return, [\xhh] for the other non-printable
    characters. *)

From Stdlib Require Import ZArith Floats String Ascii.
From stdpp Require Import base list.
From S2P Require Import Prelude PyRuntime Json.

Module PyRepr.
Local Open Scope string_scope.

Definition squote : ascii := "039"%char.

(** [Py_UNICODE_ISPRINTABLE] below 256: not the controls, not the
    no-break space [U+00A0], not the soft hyphen [U+00AD]. *)
Definition printable (n : nat) : bool :=
  (Nat.leb 32 n && Nat.ltb n 127) || (Nat.leb 161 n && negb (Nat.eqb n 173) && Nat.ltb n 256).

Definition repr_char (quote c : ascii) : string :=
  let n := nat_of_ascii c in
  if Ascii.eqb c quote || Ascii.eqb c Json.backslash then String Json.backslash (String c EmptyString)
  else if Nat.eqb n 9 then String Json.backslash "t"
  else if Nat.eqb n 10 then String Json.backslash "n"
  else if Nat.eqb n 13 then String Json.backslash "r"
  else if printable n then String c EmptyString
  else String Json.backslash ("x" ++ String (hex_digit (n / 16)) (String (hex_digit (n mod 16)) EmptyString)).

Fixpoint repr_chars (quote : ascii) (s : string) : string :=
  match s with
  | EmptyString => EmptyString
  | String c s' => repr_char quote c ++ repr_chars quote s'
  end.

(** [unicode_repr]. *)
Definition str_repr (s : string) : string :=
  let quote := if has_char squote s && negb (has_char Json.dquote s) then Json.dquote else squote in
  String quote (repr_chars quote s ++ String quote EmptyString).

Section Repr.
Context `{Runtime}.

(** [float.__repr__], with its three non-finite spellings. *)
Definition float_str (f : float) : string :=
  if is_nan f then "nan"
  else if PrimFloat.eqb f infinity then "inf"
  else if PrimFloat.eqb f neg_infinity then "-inf"
  else float_repr f.

Definition num_str (n : PyNum) : string :=
  match n with
  | PInt z => int_repr z
  | PFloat f => float_str f
  end.

Fixpoint repr (v : Json.t) : string :=
  match v with
  | Json.JNull => "None"
  | Json.JBool b => if b then "True" else "False"
  | Json.JNum n => num_str n
  | Json.JStr s => str_repr s
  | Json.JArr l => "[" ++ Json.join ", " (map repr l) ++ "]"
  | Json.JObj kvs => "{" ++ Json.join ", " (map (fun kv => str_repr kv.1 ++ ": " ++ repr kv.2) kvs) ++ "}"
  end.
End Repr.

End PyRepr.
