(* ===== verification/Agent.v ===== *)
(** * Agent state: the objects of the program and the store holding them

    A [Drone] object ([src/code.py], lines 5-14) is a record of the store,
    reached through a reference ([dref]).  Its GPS coordinates are a dict
    object of their own (line 12), reached through a location ([loc]):
    the payload a leader sends holds that location (line 23), so the
    sharing of the dict between the leader and every message it sent is
    part of the model.  The velocity and acceleration dicts are never
    shared nor mutated and are kept inline.  [World.t] is the store: two
    [gmap]s, the next free reference, and the lines printed to standard
    output so far ([print] appends one).

    [drone_init] models [Drone.__init__]; [update_position] (lines
    113-118, its print included) is written with the statement-level
    helpers [gps_iadd] and [altitude_iadd] that [Protocol.adjust_position]
    reuses.  [wf] is the
    store invariant: every reference is allocated and every drone owns its
    GPS dict.  [evolves] is the relation every operation establishes
    between the state before and after it: ids, roles, masses, GPS
    references stay, logs and the output only grow. *)

From Stdlib Require Import ZArith Floats String.
From stdpp Require Import base list gmap strings.
From S2P Require Import Prelude PyRuntime Json PyRepr.

Definition loc := positive.
Definition dref := positive.

Module Gps.
Record t := mk { latitude : PyNum; longitude : PyNum }.

(** The two keys of the dict. *)
Inductive key := Latitude | Longitude.

Definition get (k : key) (g : t) : PyNum :=
  match k with Latitude => latitude g | Longitude => longitude g end.

Definition set (k : key) (v : PyNum) (g : t) : t :=
  match k with
  | Latitude => mk v (longitude g)
  | Longitude => mk (latitude g) v
  end.

(** The dict as a Python object: ["latitude"] inserted first. *)
Definition value (g : t) : Json.t :=
  Json.JObj [("latitude", Json.JNum (latitude g)); ("longitude", Json.JNum (longitude g))].
End Gps.

Module Vec3.
Record t := mk { x : PyNum; y : PyNum; z : PyNum }.
End Vec3.

(** [{"gps_coordinates": self.gps_coordinates, "altitude": self.altitude}]
    (lines 22-25): the dict by reference, the altitude by value. *)
Module Payload.
Record t := mk { gps_coordinates : loc; altitude : PyNum }.
End Payload.

Module Header.
Record t := mk { message_type : string; source_id : string;
                 destination_ids : list string }.
End Header.

Module Message.
Record t := mk { header : Header.t; payload : Payload.t; checksum : string }.
End Message.

Module Drone.
Record t := mk {
  id : string;
  role : string;
  mass : PyNum;
  velocity : Vec3.t;
  acceleration : Vec3.t;
  gps_coordinates : loc;
  altitude : PyNum;
  received_messages : list Message.t
}.

Definition set_altitude (a : PyNum) (d : t) : t :=
  mk (id d) (role d) (mass d) (velocity d) (acceleration d)
     (gps_coordinates d) a (received_messages d).

Definition append_message (m : Message.t) (d : t) : t :=
  mk (id d) (role d) (mass d) (velocity d) (acceleration d)
     (gps_coordinates d) (altitude d) (received_messages d ++ [m]).
End Drone.

(** The store, and the lines written to standard output so far. *)
Module World.
Record t := mk {
  drones : gmap dref Drone.t;
  dicts : gmap loc Gps.t;
  next : positive;
  stdout : list string
}.
End World.

Abbreviation PyM := (stexc World.t PyExc).

Local Open Scope stexc_scope.

(** ** Access to the store *)

Definition load_drone (r : dref) : PyM Drone.t :=
  fun w => match World.drones w !! r with
           | Some d => (w, Ok d)
           | None => (w, Raise DanglingRef)
           end.

Definition load_dict (l : loc) : PyM Gps.t :=
  fun w => match World.dicts w !! l with
           | Some g => (w, Ok g)
           | None => (w, Raise DanglingRef)
           end.

Definition store_drone (r : dref) (d : Drone.t) : PyM unit :=
  modify (fun w => World.mk (<[r:=d]> (World.drones w)) (World.dicts w) (World.next w) (World.stdout w)).

Definition store_dict (l : loc) (g : Gps.t) : PyM unit :=
  modify (fun w => World.mk (World.drones w) (<[l:=g]> (World.dicts w)) (World.next w) (World.stdout w)).

(** [print(line)]. *)
Definition print (line : string) : PyM unit :=
  modify (fun w => World.mk (World.drones w) (World.dicts w) (World.next w) (World.stdout w ++ [line])).

(** ** [Drone.__init__] (lines 6-14) *)

Definition drone_init (id role : string) (mass : PyNum)
    (initial_velocity : PyNum * PyNum * PyNum) (gps : PyNum * PyNum)
    (altitude : PyNum) : PyM dref :=
  fun w =>
    let r := World.next w in
    let '(v0, v1, v2) := initial_velocity in
    let d := Drone.mk id role mass (Vec3.mk v0 v1 v2)
               (Vec3.mk (PInt 0) (PInt 0) (PInt 0)) r altitude [] in
    (World.mk (<[r:=d]> (World.drones w)) (<[r:=Gps.mk gps.1 gps.2]> (World.dicts w))
              (Pos.succ r) (World.stdout w), Ok r).

(** ** Augmented assignments on a drone's position *)

(** [self.gps_coordinates[k] += v]: read the dict, add, write back. *)
Definition gps_iadd (l : loc) (k : Gps.key) (v : PyNum) : PyM unit :=
  let* g := load_dict l in
  let* x := lift (py_add (Gps.get k g) v) in
  store_dict l (Gps.set k x g).

(** [self.altitude += v]. *)
Definition altitude_iadd (r : dref) (v : PyNum) : PyM unit :=
  let* d := load_drone r in
  let* a := lift (py_add (Drone.altitude d) v) in
  store_drone r (Drone.set_altitude a d).

(** ** [update_position] (lines 113-118) *)

Section UpdatePosition.
Context `{Runtime}.

Local Open Scope string_scope.

Definition update_position (self : dref) (delta_latitude delta_longitude delta_altitude : PyNum)
    : PyM unit :=
  let* d := load_drone self in
  let* _ := gps_iadd (Drone.gps_coordinates d) Gps.Latitude delta_latitude in
  let* _ := gps_iadd (Drone.gps_coordinates d) Gps.Longitude delta_longitude in
  let* _ := altitude_iadd self delta_altitude in
  let* d' := load_drone self in
  let* g := load_dict (Drone.gps_coordinates d') in
  let* alt := lift (format_2f (Drone.altitude d')) in
  print ("Drone " ++ Drone.id d' ++ " moved to GPS: " ++ PyRepr.repr (Gps.value g)
         ++ ", Altitude: " ++ alt).
End UpdatePosition.

(** ** The store invariant *)

Record wf (w : World.t) : Prop := {
  wf_gps_alloc : forall r d, World.drones w !! r = Some d ->
    is_Some (World.dicts w !! Drone.gps_coordinates d);
  wf_log_alloc : forall r d m, World.drones w !! r = Some d ->
    m ∈ Drone.received_messages d ->
    is_Some (World.dicts w !! Payload.gps_coordinates (Message.payload m));
  wf_owner : forall r1 r2 d1 d2, World.drones w !! r1 = Some d1 ->
    World.drones w !! r2 = Some d2 ->
    Drone.gps_coordinates d1 = Drone.gps_coordinates d2 -> r1 = r2;
  wf_fresh_drone : forall r, is_Some (World.drones w !! r) -> (r < World.next w)%positive;
  wf_fresh_dict : forall l, is_Some (World.dicts w !! l) -> (l < World.next w)%positive
}.

(** What a drone keeps across every operation. *)
Definition drone_evolves (d d' : Drone.t) : Prop :=
  Drone.id d' = Drone.id d /\ Drone.role d' = Drone.role d /\
  Drone.mass d' = Drone.mass d /\ Drone.velocity d' = Drone.velocity d /\
  Drone.acceleration d' = Drone.acceleration d /\
  Drone.gps_coordinates d' = Drone.gps_coordinates d /\
  Drone.received_messages d `prefix_of` Drone.received_messages d'.

Definition evolves (w w' : World.t) : Prop :=
  (forall r d, World.drones w !! r = Some d ->
     exists d', World.drones w' !! r = Some d' /\ drone_evolves d d') /\
  (forall l, is_Some (World.dicts w !! l) -> is_Some (World.dicts w' !! l)) /\
  (World.next w <= World.next w')%positive /\
  World.stdout w `prefix_of` World.stdout w'.

(** The relation every operation establishes: from a well-formed store
    it reaches a well-formed store that [evolves] from it. *)
Definition safe_step (w w' : World.t) : Prop := wf w -> wf w' /\ evolves w w'.

#[export] Instance drone_evolves_preorder : PreOrder drone_evolves.
Proof.
  split.
  - intros d. repeat split; reflexivity.
  - intros d1 d2 d3 (?&?&?&?&?&?&?) (?&?&?&?&?&?&?).
    repeat split; try congruence. by trans (Drone.received_messages d2).
Qed.

#[export] Instance evolves_preorder : PreOrder evolves.
Proof.
  split.
  - intros w. split_and!; [| done | lia | reflexivity].
    intros r d Hd. exists d. split; [done | reflexivity].
  - intros w1 w2 w3 (H1&H1'&H1''&H1o) (H2&H2'&H2''&H2o). split_and!; [| auto | lia | by trans (World.stdout w2)].
    intros r d Hd. destruct (H1 r d Hd) as (d2 & Hd2 & E2).
    destruct (H2 r d2 Hd2) as (d3 & Hd3 & E3). exists d3. split; [done | by trans d2].
Qed.

#[export] Instance safe_step_preorder : PreOrder safe_step.
Proof.
  split.
  - intros w Hw. split; [done | reflexivity].
  - intros w1 w2 w3 H12 H23 Hw1. destruct (H12 Hw1) as [Hw2 E12].
    destruct (H23 Hw2) as [Hw3 E23]. split; [done | by trans w2].
Qed.

(** ** Writes to the store keep the invariant *)

Lemma wf_store_dict w l g :
  wf w -> is_Some (World.dicts w !! l) ->
  wf (World.mk (World.drones w) (<[l:=g]> (World.dicts w)) (World.next w) (World.stdout w)).
Proof.
  intros [Ha Hl Ho Hfd Hfl] Hl0. split; simpl; eauto.
  - intros r d Hd. rewrite lookup_insert_is_Some'. eauto.
  - intros r d m Hd Hm. rewrite lookup_insert_is_Some'. eauto.
  - intros l' Hl'. apply lookup_insert_is_Some' in Hl' as [<-|]; eauto.
Qed.

Lemma evolves_store_dict w l g :
  evolves w (World.mk (World.drones w) (<[l:=g]> (World.dicts w)) (World.next w) (World.stdout w)).
Proof.
  split_and!; simpl; [| | lia | done].
  - intros r d Hd. exists d. split; [done | reflexivity].
  - intros l' Hl'. rewrite lookup_insert_is_Some'. auto.
Qed.

Lemma wf_store_drone w r d d' :
  wf w -> World.drones w !! r = Some d ->
  Drone.gps_coordinates d' = Drone.gps_coordinates d ->
  (forall m, m ∈ Drone.received_messages d' ->
     is_Some (World.dicts w !! Payload.gps_coordinates (Message.payload m))) ->
  wf (World.mk (<[r:=d']> (World.drones w)) (World.dicts w) (World.next w) (World.stdout w)).
Proof.
  intros [Ha Hl Ho Hfd Hfl] Hd Hg Hm. split; simpl; eauto.
  - intros r' d0. rewrite lookup_insert_Some.
    intros [[<- <-]|[_ Hd0]]; [rewrite Hg|]; eauto.
  - intros r' d0 m. rewrite lookup_insert_Some.
    intros [[<- <-]|[_ Hd0]]; eauto.
  - intros r1 r2 d1 d2. rewrite !lookup_insert_Some.
    intros [[<- <-]|[Hne1 Hd1]] [[<- <-]|[Hne2 Hd2]] Hgg; try done.
    + rewrite Hg in Hgg. eauto.
    + rewrite Hg in Hgg. symmetry. eauto.
    + eauto.
  - intros r' Hr'. apply lookup_insert_is_Some' in Hr' as [<-|]; eauto.
Qed.

Lemma evolves_store_drone w r d d' :
  World.drones w !! r = Some d -> drone_evolves d d' ->
  evolves w (World.mk (<[r:=d']> (World.drones w)) (World.dicts w) (World.next w) (World.stdout w)).
Proof.
  intros Hd Hev. split_and!; simpl; [|done|lia|done].
  intros r' d0 Hd0. destruct (decide (r = r')) as [<-|Hne].
  - rewrite Hd in Hd0. injection Hd0 as <-. exists d'. by rewrite lookup_insert_eq.
  - exists d0. rewrite lookup_insert_ne by done. split; [done | reflexivity].
Qed.

(** ** Every operation of this file is a [safe_step] *)

Lemma load_drone_readonly r : readonly (load_drone r).
Proof. intros w. unfold load_drone. by destruct (_ !! r). Qed.

Lemma load_dict_readonly l : readonly (load_dict l).
Proof. intros w. unfold load_dict. by destruct (_ !! l). Qed.

#[export] Hint Resolve load_drone_readonly load_dict_readonly : swarm.

Lemma load_drone_run w r d : World.drones w !! r = Some d -> load_drone r w = (w, Ok d).
Proof. intros Hd. unfold load_drone. by rewrite Hd. Qed.

Lemma load_dict_run w l g : World.dicts w !! l = Some g -> load_dict l w = (w, Ok g).
Proof. intros Hg. unfold load_dict. by rewrite Hg. Qed.

Lemma safe_gps_iadd l k v : stable safe_step (gps_iadd l k v).
Proof.
  intros w. unfold gps_iadd, bind, load_dict.
  destruct (World.dicts w !! l) as [g|] eqn:Hg; simpl; [|reflexivity].
  destruct (py_add _ _) as [x|e]; simpl; [|reflexivity].
  intros Hw. split; [apply wf_store_dict; eauto | apply evolves_store_dict].
Qed.

Lemma safe_altitude_iadd r v : stable safe_step (altitude_iadd r v).
Proof.
  intros w. unfold altitude_iadd, bind, load_drone.
  destruct (World.drones w !! r) as [d|] eqn:Hd; simpl; [|reflexivity].
  destruct (py_add _ _) as [a|e]; simpl; [|reflexivity].
  intros Hw. split.
  - apply (wf_store_drone w r d); [done..|]. intros m Hm. by eapply wf_log_alloc.
  - apply (evolves_store_drone w r d); [done|]. repeat split; reflexivity.
Qed.

#[export] Hint Resolve safe_gps_iadd safe_altitude_iadd : swarm.

Ltac solve_safe := solve_stable safe_step.

Lemma print_safe line : stable safe_step (print line).
Proof.
  intros w [Ha Hl Ho Hfd Hfl]. split; [split; simpl; eauto|].
  split_and!; simpl; [| done | lia | by apply prefix_app_r].
  intros r d Hd. exists d. split; [done | reflexivity].
Qed.

#[export] Hint Resolve print_safe : swarm.

Section UpdatePositionSafe.
Context `{Runtime}.

Lemma update_position_safe self dlat dlon dalt :
  stable safe_step (update_position self dlat dlon dalt).
Proof. unfold update_position. solve_safe. Qed.
End UpdatePositionSafe.

Lemma wf_next_free w : wf w ->
  World.drones w !! World.next w = None /\ World.dicts w !! World.next w = None.
Proof.
  intros Hw. split; apply eq_None_not_Some; intros Hs.
  - pose proof (wf_fresh_drone _ Hw _ Hs). lia.
  - pose proof (wf_fresh_dict _ Hw _ Hs). lia.
Qed.

Lemma drone_init_safe id role mass vel gps alt :
  stable safe_step (drone_init id role mass vel gps alt).
Proof.
  intros w Hw. destruct vel as [[v0 v1] v2]. simpl.
  destruct (wf_next_free w Hw) as [Hfd Hfl].
  set (d := Drone.mk _ _ _ _ _ _ _ _).
  split; [split|]; simpl.
  - intros r d0. rewrite lookup_insert_Some, lookup_insert_is_Some'.
    intros [[<- <-]|[_ Hd0]]; [by left|right; by eapply wf_gps_alloc].
  - intros r d0 m. rewrite lookup_insert_Some, lookup_insert_is_Some'.
    intros [[<- <-]|[_ Hd0]] Hm; [by apply not_elem_of_nil in Hm|].
    right. by eapply wf_log_alloc.
  - intros r1 r2 d1 d2. rewrite !lookup_insert_Some.
    intros [[<- <-]|[Hne1 Hd1]] [[<- <-]|[Hne2 Hd2]] Hgg; try done; simpl in Hgg.
    + pose proof (wf_fresh_dict _ Hw _ (wf_gps_alloc _ Hw _ _ Hd2)). lia.
    + pose proof (wf_fresh_dict _ Hw _ (wf_gps_alloc _ Hw _ _ Hd1)). lia.
    + by eapply wf_owner.
  - intros r Hr. apply lookup_insert_is_Some' in Hr as [<-|Hr]; [lia|].
    pose proof (wf_fresh_drone _ Hw _ Hr). lia.
  - intros l Hl. apply lookup_insert_is_Some' in Hl as [<-|Hl]; [lia|].
    pose proof (wf_fresh_dict _ Hw _ Hl). lia.
  - split_and!; [| | simpl; lia | done].
    + intros r d0 Hd0. exists d0. simpl. split; [|reflexivity].
      rewrite lookup_insert_ne; [done|]. intros Heq. pose proof (wf_fresh_drone _ Hw r (mk_is_Some _ _ Hd0)). lia.
    + intros l Hl. simpl. rewrite lookup_insert_is_Some'. auto.
Qed.

#[export] Hint Resolve update_position_safe drone_init_safe : swarm.

(** ** What a position update may touch *)

(** [moves_only r l w w']: from [w] to [w'] only drone [r]'s altitude and
    the dict at [l] changed. *)
Definition moves_only (r : dref) (l : loc) (w w' : World.t) : Prop :=
  (forall r', r' <> r -> World.drones w' !! r' = World.drones w !! r') /\
  (forall l', l' <> l -> World.dicts w' !! l' = World.dicts w !! l') /\
  (forall d, World.drones w !! r = Some d ->
     exists a, World.drones w' !! r = Some (Drone.set_altitude a d)) /\
  (World.drones w !! r = None -> World.drones w' !! r = None).

Lemma set_altitude_same d : Drone.set_altitude (Drone.altitude d) d = d.
Proof. by destruct d. Qed.

Lemma set_altitude_twice a b d :
  Drone.set_altitude a (Drone.set_altitude b d) = Drone.set_altitude a d.
Proof. by destruct d. Qed.

#[export] Instance moves_only_preorder r l : PreOrder (moves_only r l).
Proof.
  split.
  - intros w. split_and!; [done | done | | done].
    intros d Hd. exists (Drone.altitude d). by rewrite set_altitude_same.
  - intros w1 w2 w3 (A1 & B1 & C1 & D1) (A2 & B2 & C2 & D2). split_and!.
    + intros r' Hr'. rewrite A2, A1; done.
    + intros l' Hl'. rewrite B2, B1; done.
    + intros d Hd. destruct (C1 d Hd) as [a1 Ha1]. destruct (C2 _ Ha1) as [a2 Ha2].
      exists a2. by rewrite <- set_altitude_twice with (b := a1).
    + auto.
Qed.

Lemma gps_iadd_moves r l k v : stable (moves_only r l) (gps_iadd l k v).
Proof.
  intros w. unfold gps_iadd, bind, load_dict.
  destruct (World.dicts w !! l); simpl; [|reflexivity].
  destruct (py_add _ _); simpl; [|reflexivity].
  split_and!; simpl; [done | | | done].
  - intros l' Hl'. by rewrite lookup_insert_ne.
  - intros d Hd. exists (Drone.altitude d). by rewrite set_altitude_same.
Qed.

Lemma altitude_iadd_moves r l v : stable (moves_only r l) (altitude_iadd r v).
Proof.
  intros w. unfold altitude_iadd, bind, load_drone.
  destruct (World.drones w !! r) as [d|] eqn:Hd; simpl; [|reflexivity].
  destruct (py_add _ _) as [a|]; simpl; [|reflexivity].
  split_and!; simpl.
  - intros r' Hr'. by rewrite lookup_insert_ne.
  - done.
  - intros d' Hd'. rewrite Hd in Hd'. injection Hd' as <-. exists a.
    by rewrite lookup_insert_eq.
  - congruence.
Qed.

Lemma print_moves r l line : stable (moves_only r l) (print line).
Proof.
  intros w. split_and!; simpl; [done | done | | done].
  intros d Hd. exists (Drone.altitude d). by rewrite set_altitude_same.
Qed.

#[export] Hint Resolve gps_iadd_moves altitude_iadd_moves print_moves : swarm.

(** The logs of a store, drone by drone. *)
Definition log_of (w : World.t) (x : dref) : option (list Message.t) :=
  Drone.received_messages <$> World.drones w !! x.

Lemma moves_only_log_of r l w w' x : moves_only r l w w' -> log_of w' x = log_of w x.
Proof.
  intros (A & _ & C & D). unfold log_of. destruct (decide (x = r)) as [->|Hne].
  - destruct (World.drones w !! r) as [d|] eqn:Hd.
    + destruct (C d eq_refl) as [a ->]. by destruct d.
    + by rewrite D.
  - by rewrite A.
Qed.

Lemma gps_iadd_run w l k v g x :
  World.dicts w !! l = Some g -> py_add (Gps.get k g) v = Ok x ->
  gps_iadd l k v w =
    (World.mk (World.drones w) (<[l:=Gps.set k x g]> (World.dicts w)) (World.next w) (World.stdout w), Ok tt).
Proof. intros Hg Hx. unfold gps_iadd, bind. rewrite (load_dict_run w l g Hg). by rewrite Hx. Qed.

Lemma gps_iadd_dangling w l k v :
  World.dicts w !! l = None -> gps_iadd l k v w = (w, Raise DanglingRef).
Proof. intros Hg. unfold gps_iadd, bind, load_dict. by rewrite Hg. Qed.

Lemma gps_iadd_raise w l k v g e :
  World.dicts w !! l = Some g -> py_add (Gps.get k g) v = Raise e -> gps_iadd l k v w = (w, Raise e).
Proof. intros Hg He. unfold gps_iadd, bind. rewrite (load_dict_run w l g Hg). by rewrite He. Qed.

Lemma altitude_iadd_raise w r v d e :
  World.drones w !! r = Some d -> py_add (Drone.altitude d) v = Raise e -> altitude_iadd r v w = (w, Raise e).
Proof. intros Hd He. unfold altitude_iadd, bind. rewrite (load_drone_run w r d Hd). by rewrite He. Qed.

(** The relation of computations that leave every dict alone. *)
Definition same_dicts (w w' : World.t) : Prop := World.dicts w' = World.dicts w.

#[export] Instance same_dicts_preorder : PreOrder same_dicts.
Proof. split; [intros w; done | intros w1 w2 w3 H12 H23; unfold same_dicts in *; congruence]. Qed.

Lemma altitude_iadd_same_dicts r v : stable same_dicts (altitude_iadd r v).
Proof.
  intros w. unfold altitude_iadd, bind, load_drone.
  destruct (World.drones w !! r); simpl; [|done]. by destruct (py_add _ _).
Qed.

Lemma print_same_dicts line : stable same_dicts (print line).
Proof. intros w. done. Qed.

#[export] Hint Resolve altitude_iadd_same_dicts print_same_dicts : swarm.

Section UpdatePositionDict.
Context `{Runtime}.

(** After [update_position] the drone's dict holds the two sums, even
    when the altitude update or the format after it raises. *)
Lemma update_position_dict self dlat dlon dalt w d g lat' lon' :
  World.drones w !! self = Some d ->
  World.dicts w !! Drone.gps_coordinates d = Some g ->
  py_add (Gps.latitude g) dlat = Ok lat' ->
  py_add (Gps.longitude g) dlon = Ok lon' ->
  World.dicts (fst (update_position self dlat dlon dalt w)) !! Drone.gps_coordinates d
    = Some (Gps.mk lat' lon').
Proof.
  intros Hd Hg Hlat Hlon. unfold update_position.
  rewrite bind_readonly by auto with swarm. rewrite (load_drone_run w self d Hd). cbn [snd].
  unfold bind at 1. rewrite (gps_iadd_run w _ Gps.Latitude dlat g lat' Hg Hlat). cbv beta iota.
  unfold bind at 1. rewrite (gps_iadd_run _ _ Gps.Longitude dlon (Gps.mk lat' (Gps.longitude g)) lon')
    by (simpl; first [apply lookup_insert_eq | done]).
  cbv beta iota.
  rewrite (stable_apply same_dicts _ _) by solve_stable same_dicts.
  simpl. apply lookup_insert_eq.
Qed.
End UpdatePositionDict.

(** ** The invariant as a decidable check *)

(** [wf] phrased over the entries of the two maps, so that it can be
    decided on a concrete store by computation. *)
Definition wf_check (w : World.t) : Prop :=
  map_Forall (fun r d =>
      is_Some (World.dicts w !! Drone.gps_coordinates d) /\
      Forall (fun m => is_Some (World.dicts w !! Payload.gps_coordinates (Message.payload m)))
             (Drone.received_messages d) /\
      (r < World.next w)%positive) (World.drones w) /\
  map_Forall (fun l _ => (l < World.next w)%positive) (World.dicts w) /\
  map_Forall (fun r1 d1 => map_Forall (fun r2 d2 =>
      Drone.gps_coordinates d1 = Drone.gps_coordinates d2 -> r1 = r2) (World.drones w))
    (World.drones w).

#[export] Instance wf_check_dec w : Decision (wf_check w).
Proof. unfold wf_check. apply _. Defined.

Lemma wf_check_wf w : wf_check w -> wf w.
Proof.
  intros (Hd & Hl & Ho). split.
  - intros r d Hr. apply (Hd r d Hr).
  - intros r d m Hr Hm. destruct (Hd r d Hr) as (_ & Hlog & _).
    rewrite Forall_forall in Hlog. by apply Hlog.
  - intros r1 r2 d1 d2 H1 H2. apply (Ho r1 d1 H1 r2 d2 H2).
  - intros r [d Hr]. apply (Hd r d Hr).
  - intros l [g Hg]. apply (Hl l g Hg).
Qed.

Lemma altitude_iadd_run w r v d a :
  World.drones w !! r = Some d -> py_add (Drone.altitude d) v = Ok a ->
  altitude_iadd r v w =
    (World.mk (<[r:=Drone.set_altitude a d]> (World.drones w)) (World.dicts w) (World.next w) (World.stdout w), Ok tt).
Proof. intros Hd Ha. unfold altitude_iadd, bind. rewrite (load_drone_run w r d Hd). by rewrite Ha. Qed.

(** The store before any object exists. *)
Definition empty_world : World.t := World.mk ∅ ∅ 1 [].

Lemma empty_world_wf : wf empty_world.
Proof. split; simpl; intros *; rewrite ?lookup_empty; intros H; inversion H; done. Qed.
