(* ===== verification/Script.v ===== *)
(** * The demonstration script's drones and concrete stores

    [create_drones] models lines 121-124 of [src/code.py], the three
    drones of the script; [stacked_world] is a store with a follower
    three metres below its leader.  [cpython_runtime] is CPython's
    runtime with the executable [float.__repr__] of [FloatRepr] and the
    MD5 of [Md5], libm's [cos] given; [cos_at_script_points] tabulates
    libm's correctly rounded cosine at the five radian values the script
    meets, and [script_runtime] uses it.  [colliding_runtime] prints a
    float by its exact binary value (provably injectively) and digests
    every text to ["0"]: it satisfies [ReprLaws] and has collisions.
    [script_world] is the store after the three constructors. *)

From Stdlib Require Import ZArith Ascii Floats String.
From stdpp Require Import base list gmap strings.
From S2P Require Import Prelude Md5 FloatRepr PyRuntime Json Agent.

#[local] Set Warnings "-inexact-float".
Local Open Scope stexc_scope.
Local Open Scope string_scope.

(** Lines 122-124. *)
Definition create_drones : PyM (dref * dref * dref) :=
  let* a := drone_init "A" "leader" (PFloat 1.5) (PInt 0, PInt 0, PInt 0)
              (PFloat 28.7041, PFloat 77.1025) (PInt 100) in
  let* b := drone_init "B" "follower" (PFloat 2.0) (PInt 0, PInt 0, PInt 0)
              (PFloat 28.7040, PFloat 77.1024) (PInt 100) in
  let* c := drone_init "C" "follower" (PFloat 1.8) (PInt 0, PInt 0, PInt 0)
              (PFloat 28.7042, PFloat 77.1026) (PInt 100) in
  ret (a, b, c).

(** A follower three metres below its leader. *)
Definition stacked_world : World.t :=
  fst ((let* a := drone_init "A" "leader" (PFloat 1.5) (PInt 0, PInt 0, PInt 0) (PInt 0, PInt 0) (PInt 3) in
        drone_init "B" "follower" (PFloat 2.0) (PInt 0, PInt 0, PInt 0) (PInt 0, PInt 0) (PInt 0))
         empty_world).

(** A stand-in for [float.__repr__]: [0.] then a sign digit, the
    integer mantissa, [e] and the binary exponent, which determine the
    float. *)
Definition float_bits_repr (f : float) : string :=
  match Prim2SF f with
  | S754_zero s => if s then "-0.0" else "0.0"
  | S754_infinity s => if s then "-inf" else "inf"
  | S754_nan => "nan"
  | S754_finite s m e =>
      "0." ++ (if s then "1" else "0") ++ int_repr (Zpos m) ++ "e" ++ int_repr e
  end.

(** A runtime whose digest is constant: every two texts collide. *)
Definition colliding_runtime : Runtime :=
  {| libm_cos := fun x => x; float_repr := float_bits_repr; md5_hexdigest := fun _ => "0" |}.

Lemma float_bits_repr_shape f :
  is_finite f = true ->
  has_char ","%char (float_bits_repr f) = false /\
  (has_char "."%char (float_bits_repr f) || has_char "e"%char (float_bits_repr f)) = true.
Proof.
  intros Hf. unfold float_bits_repr.
  destruct (FloatReprFacts.finite_cases f Hf) as [[s ->]|(s & m & e & ->)]; [by destruct s; split|].
  rewrite !has_char_app, !int_repr_no_char by reflexivity. by destruct s.
Qed.

Lemma float_bits_repr_inj f f' :
  is_finite f = true -> is_finite f' = true -> float_bits_repr f = float_bits_repr f' -> f = f'.
Proof.
  intros Hf Hf' Heq. rewrite <- (SF2Prim_Prim2SF f), <- (SF2Prim_Prim2SF f'). f_equal.
  unfold float_bits_repr in Heq.
  destruct (FloatReprFacts.finite_cases f Hf) as [[s E]|(s & m & e & E)];
  destruct (FloatReprFacts.finite_cases f' Hf') as [[s' E']|(s' & m' & e' & E')];
  rewrite E, E' in *.
  - by destruct s, s'.
  - exfalso. destruct s, s'; simpl in Heq; try discriminate Heq;
      injection Heq as Heq; destruct (int_repr (Zpos m')); discriminate Heq.
  - exfalso. destruct s, s'; simpl in Heq; try discriminate Heq;
      injection Heq as Heq; destruct (int_repr (Zpos m)); discriminate Heq.
  - apply string_app_inv_head in Heq. destruct s, s'; simpl in Heq; try discriminate Heq;
      injection Heq as Heq;
      apply (string_app_sep "e"%char) in Heq as [Hm He]; try (apply int_repr_no_char; reflexivity);
      apply int_repr_inj in Hm, He; congruence.
Qed.

#[export] Instance colliding_runtime_laws : @ReprLaws colliding_runtime.
Proof. split; [apply float_bits_repr_inj | apply float_bits_repr_shape]. Qed.

(** libm's cosine at the radian values the runs below meet (correctly
    rounded), and [1] elsewhere. *)
Definition cos_at_script_points (x : float) : float :=
  if PrimFloat.eqb x 0x1.00805c23e5432p-1 then 0x1.c114e849fe422p-1
  else if PrimFloat.eqb x 0x1.0080d1446c7d6p-1 then 0x1.c114b008d60f3p-1
  else if PrimFloat.eqb x 0x1.008096b428e04p-1 then 0x1.c114cc296d18bp-1
  else if PrimFloat.eqb x 0x1.4af506e861475p-1 then 0x1.98b52136a2188p-1
  else if PrimFloat.eqb x 0x1.6c18572ce4885p-2 then 0x1.dff99850e282ep-1
  else 1.

(** CPython's runtime: [float.__repr__] and [hashlib.md5] as executable
    models, libm's [cos] given. *)
Definition cpython_runtime (cos : float -> float) : Runtime :=
  {| libm_cos := cos; float_repr := FloatRepr.repr; md5_hexdigest := Md5.md5_hexdigest |}.

Definition script_runtime : Runtime := cpython_runtime cos_at_script_points.

Definition script_world : World.t := fst (create_drones empty_world).

Definition drone_a0 : Drone.t :=
  Drone.mk "A" "leader" (PFloat 1.5) (Vec3.mk (PInt 0) (PInt 0) (PInt 0))
    (Vec3.mk (PInt 0) (PInt 0) (PInt 0)) 1%positive (PInt 100) [].

Definition drone_b0 : Drone.t :=
  Drone.mk "B" "follower" (PFloat 2.0) (Vec3.mk (PInt 0) (PInt 0) (PInt 0))
    (Vec3.mk (PInt 0) (PInt 0) (PInt 0)) 2%positive (PInt 100) [].

Definition gps_a0 : Gps.t := Gps.mk (PFloat 28.7041) (PFloat 77.1025).

Lemma script_world_wf : wf script_world.
Proof. apply wf_check_wf. apply (bool_decide_unpack _). by vm_compute. Qed.
