(* ===== verification/Protocol.v ===== *)
(** * The position-synchronization protocol

    Each definition translates one method of [Drone] ([src/code.py]):
    [create_message] (lines 89-100), [calculate_checksum] (102-105),
    [verify_checksum] (107-111), [calculate_distance] (81-87),
    [adjust_position] (49-79), [process_message] (40-47),
    [receive_message] (31-38) and [send_position_update] (16-29).  The
    arithmetic of the two geometric methods is split into the pure
    [distance_formula] and [unit_vector], which raise as the Python
    expressions do; the methods read the store, call them, and write the
    new position back statement by statement ([gps_iadd],
    [altitude_iadd]), so a raise in the middle leaves the earlier writes in
    place as it does in Python.  Every [print] is a step of the method:
    its f-string is built first (an altitude's [:.2f] can raise), then the
    line is appended to the output.  The loop body of lines 27-29 is
    [send_to]. *)

From Stdlib Require Import ZArith Floats String.
From stdpp Require Import base list gmap strings.
From S2P Require Import Prelude FloatRepr PyRuntime Json PyRepr Agent Script.

#[local] Set Warnings "-inexact-float".
Local Open Scope stexc_scope.

Section Protocol.
Context `{Runtime}.
Local Open Scope string_scope.

(** ** Messages and their checksum *)

(** The payload dict as [json.dumps] sees it: the GPS dict is read
    through its reference when the payload is serialized. *)
Definition payload_json (g : Gps.t) (altitude : PyNum) : Json.t :=
  Json.JObj [("gps_coordinates", Gps.value g); ("altitude", Json.JNum altitude)].

Definition load_payload (p : Payload.t) : PyM Json.t :=
  let* g := load_dict (Payload.gps_coordinates p) in
  ret (payload_json g (Payload.altitude p)).

(** [hashlib.md5(json.dumps(payload, sort_keys=True).encode()).hexdigest()] *)
Definition checksum_of (j : Json.t) : string := md5_hexdigest (Json.dumps j).

Definition calculate_checksum (payload : Payload.t) : PyM string :=
  let* j := load_payload payload in
  ret (checksum_of j).

Definition verify_checksum (message : Message.t) : PyM bool :=
  let* j := load_payload (Message.payload message) in
  ret (String.eqb (checksum_of j) (Message.checksum message)).

Definition create_message (self : dref) (message_type : string) (payload : Payload.t)
    (destination_ids : list string) : PyM Message.t :=
  let* d := load_drone self in
  let* c := calculate_checksum payload in
  ret (Message.mk (Header.mk message_type (Drone.id d) destination_ids) payload c).

(** ** Geometry *)

Definition METERS_PER_DEGREE : PyNum := PInt 111139.
Definition desired_distance : float := 3.0.

(** Lines 83-86, in Python's evaluation order. *)
Definition distance_formula (leader_lat leader_long leader_alt lat long alt : PyNum)
    : outcome PyExc float :=
  let? t := py_sub leader_lat lat in
  let? lat_diff := py_mul t METERS_PER_DEGREE in
  let? t := py_sub leader_long long in
  let? t := py_mul t METERS_PER_DEGREE in
  let? rad := math_radians lat in
  let? c := math_cos (PFloat rad) in
  let? long_diff := py_mul t (PFloat c) in
  let? alt_diff := py_sub leader_alt alt in
  let? s1 := py_pow2 lat_diff in
  let? s2 := py_pow2 long_diff in
  let? s := py_add s1 s2 in
  let? s3 := py_pow2 alt_diff in
  let? s := py_add s s3 in
  math_sqrt s.

Definition calculate_distance (self : dref) (leader_position : Payload.t) : PyM float :=
  let* d := load_drone self in
  let* lg := load_dict (Payload.gps_coordinates leader_position) in
  let* g := load_dict (Drone.gps_coordinates d) in
  lift (distance_formula (Gps.latitude lg) (Gps.longitude lg)
          (Payload.altitude leader_position)
          (Gps.latitude g) (Gps.longitude g) (Drone.altitude d)).

(** Lines 61-71: the raw coordinate differences divided by their
    Euclidean norm. *)
Definition unit_vector (leader_lat leader_long leader_alt lat long alt : PyNum)
    : outcome PyExc (float * float * float) :=
  let? delta_lat := py_sub leader_lat lat in
  let? delta_long := py_sub leader_long long in
  let? delta_alt := py_sub leader_alt alt in
  let? s1 := py_pow2 delta_lat in
  let? s2 := py_pow2 delta_long in
  let? s := py_add s1 s2 in
  let? s3 := py_pow2 delta_alt in
  let? s := py_add s s3 in
  let? vector_length := math_sqrt s in
  let? u_lat := py_div_float delta_lat vector_length in
  let? u_long := py_div_float delta_long vector_length in
  let? u_alt := py_div_float delta_alt vector_length in
  Ok (u_lat, u_long, u_alt).

(** [f"Drone {self.id} current distance to leader: {distance:.2f} meters"]
    (line 52); [distance] is a float. *)
Definition distance_line (id : string) (distance : float) : string :=
  "Drone " ++ id ++ " current distance to leader: " ++ FloatRepr.fixed2 distance ++ " meters".

Definition adjust_position (self : dref) (leader_position : Payload.t) : PyM unit :=
  let* distance := calculate_distance self leader_position in
  let* d := load_drone self in
  let* _ := print (distance_line (Drone.id d) distance) in
  if PrimFloat.eqb distance desired_distance then
    print ("Drone " ++ Drone.id d ++ " is at the desired distance from the leader.")
  else
    let* lg := load_dict (Payload.gps_coordinates leader_position) in
    let* g := load_dict (Drone.gps_coordinates d) in
    let* '(u_lat, u_long, u_alt) :=
      lift (unit_vector (Gps.latitude lg) (Gps.longitude lg)
              (Payload.altitude leader_position)
              (Gps.latitude g) (Gps.longitude g) (Drone.altitude d)) in
    let adjustment := PrimFloat.sub distance desired_distance in
    let* _ := gps_iadd (Drone.gps_coordinates d) Gps.Latitude
                (PFloat (PrimFloat.mul u_lat adjustment)) in
    let* _ := gps_iadd (Drone.gps_coordinates d) Gps.Longitude
                (PFloat (PrimFloat.mul u_long adjustment)) in
    let* _ := altitude_iadd self (PFloat (PrimFloat.mul u_alt adjustment)) in
    let* d' := load_drone self in
    let* g' := load_dict (Drone.gps_coordinates d') in
    let* alt := lift (format_2f (Drone.altitude d')) in
    print ("Drone " ++ Drone.id d' ++ " adjusted position to GPS: " ++ PyRepr.repr (Gps.value g')
           ++ ", Altitude: " ++ alt).

(** ** Receipt and dispatch *)

Definition process_message (self : dref) (message : Message.t) : PyM unit :=
  let* d := load_drone self in
  if String.eqb (Header.message_type (Message.header message)) "Position Update"
     && String.eqb (Drone.role d) "follower"
  then adjust_position self (Message.payload message)
  else ret tt.

(** [self.received_messages.append(message)] *)
Definition log_message (self : dref) (message : Message.t) : PyM unit :=
  let* d := load_drone self in
  store_drone self (Drone.append_message message d).

(** The message dict of lines 91-99 as [print] formats it (line 35):
    the payload's GPS dict is read through its reference. *)
Definition message_value (m : Message.t) (g : Gps.t) : Json.t :=
  let h := Message.header m in
  Json.JObj [("header", Json.JObj [("message_type", Json.JStr (Header.message_type h));
                                   ("source_id", Json.JStr (Header.source_id h));
                                   ("destination_ids", Json.JArr (map Json.JStr (Header.destination_ids h)))]);
             ("payload", payload_json g (Payload.altitude (Message.payload m)));
             ("checksum", Json.JStr (Message.checksum m))].

Definition receive_message (self : dref) (message : Message.t) : PyM unit :=
  let* ok := verify_checksum message in
  if ok then
    let* _ := log_message self message in
    let* d := load_drone self in
    let* g := load_dict (Payload.gps_coordinates (Message.payload message)) in
    let* _ := print ("Drone " ++ Drone.id d ++ " received message: "
                     ++ PyRepr.repr (message_value message g)) in
    process_message self message
  else
    let* d := load_drone self in
    print ("Drone " ++ Drone.id d ++ " received corrupted message").

(** ** Broadcast *)

(** [[f.id for f in followers]] *)
Fixpoint follower_ids (followers : list dref) : PyM (list string) :=
  match followers with
  | [] => ret []
  | f :: fs =>
      let* d := load_drone f in
      let* ids := follower_ids fs in
      ret (Drone.id d :: ids)
  end.

(** The body of the loop of lines 27-29. *)
Definition send_to (self_id : string) (message : Message.t) (follower : dref) : PyM unit :=
  let* df := load_drone follower in
  let* _ := print ("Drone " ++ self_id ++ " sending position update to Drone " ++ Drone.id df) in
  receive_message follower message.

Definition send_position_update (self : dref) (followers : list dref) : PyM unit :=
  let* d := load_drone self in
  if negb (String.eqb (Drone.role d) "leader") then
    print ("Drone " ++ Drone.id d ++ " is not a leader and cannot send position updates.")
  else
    let position_payload := Payload.mk (Drone.gps_coordinates d) (Drone.altitude d) in
    let* ids := follower_ids followers in
    let* message := create_message self "Position Update" position_payload ids in
    for_each (send_to (Drone.id d) message) followers.
End Protocol.

(** ** Read-only steps *)

Section ReadOnly.
Context `{Runtime}.

Lemma load_payload_readonly p : readonly (load_payload p).
Proof. unfold load_payload. solve_readonly. Qed.
#[local] Hint Resolve load_payload_readonly : swarm.

Lemma verify_checksum_readonly m : readonly (verify_checksum m).
Proof. unfold verify_checksum. solve_readonly. Qed.

Lemma calculate_checksum_readonly p : readonly (calculate_checksum p).
Proof. unfold calculate_checksum. solve_readonly. Qed.
#[local] Hint Resolve calculate_checksum_readonly : swarm.

Lemma create_message_readonly self t p ids : readonly (create_message self t p ids).
Proof. unfold create_message. solve_readonly. Qed.

Lemma calculate_distance_readonly self lp : readonly (calculate_distance self lp).
Proof. unfold calculate_distance. solve_readonly. Qed.

Lemma follower_ids_readonly fs : readonly (follower_ids fs).
Proof. induction fs; simpl; solve_readonly. Qed.

Lemma load_payload_run w p g :
  World.dicts w !! Payload.gps_coordinates p = Some g ->
  load_payload p w = (w, Ok (payload_json g (Payload.altitude p))).
Proof. intros Hg. unfold load_payload, bind. by rewrite (load_dict_run w _ g Hg). Qed.

(** A checksum check that returns reads an allocated dict. *)
Lemma verify_checksum_alloc m w b :
  snd (verify_checksum m w) = Ok b ->
  is_Some (World.dicts w !! Payload.gps_coordinates (Message.payload m)).
Proof.
  unfold verify_checksum, load_payload, bind, load_dict.
  destruct (_ !! _); simpl; [eauto | discriminate].
Qed.
End ReadOnly.

#[export] Hint Resolve load_payload_readonly verify_checksum_readonly
  calculate_checksum_readonly create_message_readonly
  calculate_distance_readonly follower_ids_readonly : swarm.

(** ** Every method keeps the store invariant *)

Section Safety.
Context `{Runtime}.

Lemma log_message_safe self m w :
  is_Some (World.dicts w !! Payload.gps_coordinates (Message.payload m)) ->
  safe_step w (fst (log_message self m w)).
Proof.
  intros Hl Hw. unfold log_message, bind, load_drone.
  destruct (World.drones w !! self) as [d|] eqn:Hd; simpl; [|split; [done | reflexivity]].
  split.
  - apply (wf_store_drone w self d); [done..|]. intros m' Hm'. simpl in Hm'.
    apply elem_of_app in Hm' as [Hm'|Hm']; [by eapply wf_log_alloc|].
    apply list_elem_of_singleton in Hm' as ->. done.
  - apply (evolves_store_drone w self d); [done|].
    repeat split; simpl; try reflexivity. by apply prefix_app_r.
Qed.

Lemma adjust_position_safe self lp : stable safe_step (adjust_position self lp).
Proof. unfold adjust_position. solve_stable safe_step. Qed.
#[local] Hint Resolve adjust_position_safe : swarm.

Lemma process_message_safe self m : stable safe_step (process_message self m).
Proof. unfold process_message. solve_stable safe_step. Qed.
#[local] Hint Resolve process_message_safe : swarm.

Lemma receive_message_safe self m : stable safe_step (receive_message self m).
Proof.
  intros w. unfold receive_message.
  rewrite bind_readonly by apply verify_checksum_readonly.
  destruct (snd (verify_checksum m w)) as [b|e] eqn:Hv; simpl; [|reflexivity].
  destruct b; [|apply stable_apply; solve_safe].
  pose proof (log_message_safe self m w (verify_checksum_alloc m w _ Hv)) as Hl.
  unfold bind at 1. destruct (log_message self m w) as [w1 [u|e]]; simpl in *; [|done].
  trans w1; [done | apply stable_apply; solve_safe].
Qed.
#[local] Hint Resolve receive_message_safe : swarm.

Lemma send_position_update_safe self fs : stable safe_step (send_position_update self fs).
Proof. unfold send_position_update. solve_stable safe_step. Qed.
End Safety.

#[export] Hint Resolve adjust_position_safe process_message_safe
  receive_message_safe send_position_update_safe : swarm.

(** ** What each method touches *)

Section Frame.
Context `{Runtime}.

Lemma log_message_run self m w d :
  World.drones w !! self = Some d ->
  log_message self m w =
    (World.mk (<[self:=Drone.append_message m d]> (World.drones w))
              (World.dicts w) (World.next w) (World.stdout w), Ok tt).
Proof. intros Hd. unfold log_message, bind. by rewrite (load_drone_run w self d Hd). Qed.

Lemma log_message_dangling self m w :
  World.drones w !! self = None -> log_message self m w = (w, Raise DanglingRef).
Proof. intros Hd. unfold log_message, bind, load_drone. by rewrite Hd. Qed.

(** [adjust_position] changes the follower's altitude and its own GPS
    dict, nothing else. *)
Lemma adjust_position_moves self lp w d :
  World.drones w !! self = Some d ->
  moves_only self (Drone.gps_coordinates d) w (fst (adjust_position self lp w)).
Proof.
  intros Hd. unfold adjust_position.
  rewrite bind_readonly by auto with swarm.
  destruct (snd (calculate_distance self lp w)) as [dist|e]; cbn [fst snd]; [|reflexivity].
  rewrite bind_readonly by auto with swarm.
  rewrite (load_drone_run w self d Hd). cbn [snd].
  apply stable_apply. solve_stable (moves_only self (Drone.gps_coordinates d)).
Qed.

Lemma process_message_run self m w d :
  World.drones w !! self = Some d ->
  process_message self m w =
    if String.eqb (Header.message_type (Message.header m)) "Position Update"
       && String.eqb (Drone.role d) "follower"
    then adjust_position self (Message.payload m) w else (w, Ok tt).
Proof.
  intros Hd. unfold process_message.
  rewrite bind_readonly by auto with swarm. rewrite (load_drone_run w self d Hd).
  cbn [snd]. by case_match.
Qed.

Lemma process_message_moves self m w d :
  World.drones w !! self = Some d ->
  moves_only self (Drone.gps_coordinates d) w (fst (process_message self m w)).
Proof.
  intros Hd. rewrite (process_message_run self m w d Hd).
  case_match; [by apply adjust_position_moves | reflexivity].
Qed.
End Frame.

(** ** The broadcast *)

(** The number of times [x] occurs in [fs]. *)
Definition occurrences (x : dref) (fs : list dref) : nat :=
  length (filter (fun y => x = y) fs).

(** The leader's position and dict as they were when it built its
    message. *)
Definition leader_state (self : dref) (L : loc) (a : PyNum) (g : Gps.t) (w : World.t) : Prop :=
  wf w /\ World.dicts w !! L = Some g /\
  exists d, World.drones w !! self = Some d /\ Drone.role d = "leader" /\
            Drone.gps_coordinates d = L /\ Drone.altitude d = a.

(** [keeps_leader]: a step that keeps the [leader_state]. *)
Definition keeps_leader (self : dref) (L : loc) (a : PyNum) (g : Gps.t) : relation World.t :=
  fun w w' => leader_state self L a g w -> leader_state self L a g w'.

(** The logs of every drone are the same. *)
Definition same_logs (w w' : World.t) : Prop := forall x, log_of w' x = log_of w x.

#[export] Instance same_logs_preorder : PreOrder same_logs.
Proof. split; [intros w x; done | intros w1 w2 w3 H12 H23 x; by rewrite H23, H12]. Qed.

Lemma print_keeps_leader self L a g line : stable (keeps_leader self L a g) (print line).
Proof.
  intros w (Hw & Hg & dl & Hdl). split_and!; [apply (print_safe line w Hw) | done | by exists dl].
Qed.

Lemma print_same_logs line : stable same_logs (print line).
Proof. intros w x. done. Qed.

#[export] Hint Resolve print_keeps_leader print_same_logs : swarm.

Section Broadcast.
Context `{Runtime}.

Lemma create_message_run self t p ids w d g :
  World.drones w !! self = Some d ->
  World.dicts w !! Payload.gps_coordinates p = Some g ->
  create_message self t p ids w =
    (w, Ok (Message.mk (Header.mk t (Drone.id d) ids) p
              (checksum_of (payload_json g (Payload.altitude p))))).
Proof.
  intros Hd Hg. unfold create_message, calculate_checksum, bind.
  rewrite (load_drone_run w self d Hd). by rewrite (load_payload_run w p g Hg).
Qed.

Lemma follower_ids_spec fs w ids :
  snd (follower_ids fs w) = Ok ids ->
  Forall2 (fun f i => exists df, World.drones w !! f = Some df /\ Drone.id df = i) fs ids.
Proof.
  revert ids. induction fs as [|f fs IH]; intros ids; simpl.
  - intros [= <-]. constructor.
  - rewrite bind_readonly by auto with swarm. unfold load_drone.
    destruct (World.drones w !! f) as [df|] eqn:Hf; cbn [snd]; [|discriminate].
    rewrite bind_readonly by auto with swarm.
    destruct (snd (follower_ids fs w)) as [ids'|]; cbn [snd]; [|discriminate].
    intros [= <-]. constructor; eauto.
Qed.

Lemma process_message_same_logs f m : stable same_logs (process_message f m).
Proof.
  intros w x. destruct (World.drones w !! f) as [d|] eqn:Hd.
  - exact (moves_only_log_of _ _ _ _ x (process_message_moves f m w d Hd)).
  - unfold process_message, bind, load_drone. by rewrite Hd.
Qed.

(** [process_message] never changes the leader: the leader ignores its
    own message, any other drone moves only its own dict. *)
Lemma process_message_keeps_leader self L a g f msg :
  stable (keeps_leader self L a g) (process_message f msg).
Proof.
  intros w (Hw & Hg & dl & Hdl & Hrole & HL & Ha).
  destruct (World.drones w !! f) as [df|] eqn:Hf.
  2:{ unfold process_message, bind, load_drone. rewrite Hf. split_and!; eauto 6. }
  destruct (decide (f = self)) as [->|Hne].
  - rewrite Hdl in Hf. injection Hf as <-.
    rewrite (process_message_run self msg w dl Hdl), Hrole, andb_false_r. split_and!; eauto 6.
  - pose proof (process_message_safe f msg w Hw) as [Hw2 _].
    pose proof (process_message_moves f msg w _ Hf) as (A & B & _ & _).
    assert (HgL : Drone.gps_coordinates df <> L).
    { intros HgL. apply Hne. apply (wf_owner w Hw f self df dl); congruence. }
    split_and!; [done | by rewrite B | ]. exists dl. rewrite A by congruence. done.
Qed.

#[local] Hint Resolve process_message_same_logs process_message_keeps_leader : swarm.

(** A message received while the leader is in [leader_state]: whatever
    happens, normally or by a raise, the leader's state stays. *)
Lemma receive_message_keeps_leader self L a g f msg :
  stable (keeps_leader self L a g) (receive_message f msg).
Proof.
  intros w Hls. pose proof Hls as (Hw & Hg & dl & Hdl & Hrole & HL & Ha).
  unfold receive_message. rewrite bind_readonly by auto with swarm.
  destruct (snd (verify_checksum msg w)) as [[|]|e] eqn:Hv; cbn [fst]; [| |done].
  2: refine (stable_apply (keeps_leader self L a g) _ w _ Hls); solve_stable (keeps_leader self L a g).
  unfold bind at 1. destruct (World.drones w !! f) as [df|] eqn:Hf; [|by rewrite log_message_dangling].
  pose proof (log_message_safe f msg w (verify_checksum_alloc msg w _ Hv) Hw) as Hw1.
  rewrite (log_message_run f msg w df Hf) in Hw1 |- *. destruct Hw1 as [Hw1 _].
  cbv beta iota. refine (stable_apply (keeps_leader self L a g) _ _ _ _);
    [solve_stable (keeps_leader self L a g)|].
  split_and!; [done | done |].
  destruct (decide (f = self)) as [->|Hne].
  - rewrite Hdl in Hf. injection Hf as <-. exists (Drone.append_message msg dl).
    cbn [World.drones]. rewrite lookup_insert_eq. by destruct dl.
  - exists dl. cbn [World.drones]. rewrite lookup_insert_ne by congruence. done.
Qed.

#[local] Hint Resolve receive_message_keeps_leader : swarm.

Lemma send_to_keeps_leader self L a g i msg f : stable (keeps_leader self L a g) (send_to i msg f).
Proof. unfold send_to. solve_stable (keeps_leader self L a g). Qed.

(** A follower that receives the untampered message logs it once. *)
Lemma receive_message_logs self L a g f msg w w' o df :
  leader_state self L a g w ->
  Message.payload msg = Payload.mk L a ->
  Message.checksum msg = checksum_of (payload_json g a) ->
  World.drones w !! f = Some df ->
  receive_message f msg w = (w', o) ->
  forall x, log_of w' x =
    (fun l => l ++ if decide (x = f) then [msg] else []) <$> log_of w x.
Proof.
  intros (Hw & Hg & _) Hp Hc Hf Hr x.
  unfold receive_message in Hr. rewrite bind_readonly in Hr by auto with swarm.
  unfold verify_checksum in Hr. rewrite bind_readonly in Hr by auto with swarm.
  rewrite (load_payload_run w _ g) in Hr by (rewrite Hp; done).
  rewrite Hp, Hc in Hr. cbn [snd Payload.altitude ret] in Hr.
  rewrite String.eqb_refl in Hr. cbn [snd] in Hr.
  unfold bind at 1 in Hr. rewrite (log_message_run f msg w df Hf) in Hr.
  set (w1 := World.mk _ _ _ _) in Hr. cbv beta iota in Hr.
  match type of Hr with ?m w1 = _ =>
    assert (Hs : same_logs w1 (fst (m w1))) by (apply stable_apply; solve_stable same_logs) end.
  rewrite Hr in Hs. cbn [fst] in Hs. rewrite (Hs x). unfold log_of. simpl.
  destruct (decide (x = f)) as [->|Hne].
  - by rewrite lookup_insert_eq, Hf.
  - rewrite lookup_insert_ne by congruence. by destruct (World.drones w !! x); simpl; rewrite ?app_nil_r.
Qed.

(** One delivery logs the message at [f], whether the follower then
    raises or not; a dangling [f] has no log to change. *)
Lemma send_to_logs self L a g i f msg w w' o :
  leader_state self L a g w ->
  Message.payload msg = Payload.mk L a ->
  Message.checksum msg = checksum_of (payload_json g a) ->
  send_to i msg f w = (w', o) ->
  forall x, log_of w' x =
    (fun l => l ++ if decide (x = f) then [msg] else []) <$> log_of w x.
Proof.
  intros Hl Hp Hc Hrun x. unfold send_to in Hrun.
  rewrite bind_readonly in Hrun by auto with swarm. unfold load_drone in Hrun at 1.
  destruct (World.drones w !! f) as [df|] eqn:Hf; cbn [snd] in Hrun.
  2:{ injection Hrun as <- _. unfold log_of.
      destruct (decide (x = f)) as [->|]; [by rewrite Hf|].
      by destruct (World.drones w !! x); simpl; rewrite ?app_nil_r. }
  unfold bind at 1 in Hrun. cbn [print modify] in Hrun.
  set (w1 := World.mk _ _ _ _) in Hrun.
  assert (Hl1 : leader_state self L a g w1) by exact (print_keeps_leader self L a g _ w Hl).
  rewrite (receive_message_logs self L a g f msg w1 w' o df Hl1 Hp Hc Hf Hrun x). done.
Qed.

(** A broadcast loop, however it ends, has logged the message at a
    prefix of the follower list: the whole list when it returns. *)
Lemma for_each_send_to_prefix self L a g i msg fs w w' o :
  leader_state self L a g w ->
  Message.payload msg = Payload.mk L a ->
  Message.checksum msg = checksum_of (payload_json g a) ->
  for_each (send_to i msg) fs w = (w', o) ->
  exists fs', fs' `prefix_of` fs /\ (o = Ok tt -> fs' = fs) /\
    forall x, log_of w' x = (fun l => l ++ replicate (occurrences x fs') msg) <$> log_of w x.
Proof.
  revert w. induction fs as [|f fs IH]; intros w Hl Hp Hc Hrun; simpl in Hrun.
  - injection Hrun as <- <-. exists []. split_and!; [done | done |].
    intros x. unfold log_of. by destruct (World.drones w !! x); simpl; rewrite ?app_nil_r.
  - unfold bind in Hrun. destruct (send_to i msg f w) as [w1 [[]|e]] eqn:Hr.
    + pose proof (send_to_keeps_leader self L a g i msg f w Hl) as Hl1. rewrite Hr in Hl1. cbn [fst] in Hl1.
      destruct (IH w1 Hl1 Hp Hc Hrun) as (fs' & Hpre & Hok & Hlog).
      exists (f :: fs'). split_and!; [by apply prefix_cons | intros Ho; by rewrite Hok |].
      intros x. rewrite Hlog, (send_to_logs self L a g i f msg w w1 _ Hl Hp Hc Hr x).
      unfold occurrences. rewrite filter_cons.
      destruct (log_of w x); simpl; [|done]. f_equal.
      destruct (decide (x = f)); simpl; by rewrite <- app_assoc.
    + injection Hrun as <- <-. exists [f]. split_and!; [apply prefix_cons, prefix_nil | discriminate |].
      intros x. rewrite (send_to_logs self L a g i f msg w _ _ Hl Hp Hc Hr x).
      unfold occurrences. rewrite filter_cons. by destruct (decide (x = f)).
Qed.

Lemma for_each_send_to_logs self L a g i msg fs w w' :
  leader_state self L a g w ->
  Message.payload msg = Payload.mk L a ->
  Message.checksum msg = checksum_of (payload_json g a) ->
  for_each (send_to i msg) fs w = (w', Ok tt) ->
  forall x, log_of w' x = (fun l => l ++ replicate (occurrences x fs) msg) <$> log_of w x.
Proof.
  intros Hl Hp Hc Hrun.
  destruct (for_each_send_to_prefix self L a g i msg fs w w' _ Hl Hp Hc Hrun) as (fs' & _ & Hok & Hlog).
  by rewrite <- (Hok eq_refl).
Qed.
End Broadcast.

#[export] Hint Resolve process_message_same_logs process_message_keeps_leader
  receive_message_keeps_leader send_to_keeps_leader : swarm.

(** ** The program's operations as a transition system *)

(** The calls a script can make on the drones. *)
Inductive op : Type :=
| OpInit (id role : string) (mass : PyNum) (velocity : PyNum * PyNum * PyNum)
         (gps : PyNum * PyNum) (altitude : PyNum)
| OpUpdatePosition (self : dref) (dlat dlon dalt : PyNum)
| OpSendPositionUpdate (self : dref) (followers : list dref)
| OpReceiveMessage (self : dref) (message : Message.t).

Section Transitions.
Context `{Runtime}.

Definition run_op (o : op) : PyM unit :=
  match o with
  | OpInit id role mass vel gps alt =>
      let* _ := drone_init id role mass vel gps alt in ret tt
  | OpUpdatePosition self dlat dlon dalt => update_position self dlat dlon dalt
  | OpSendPositionUpdate self fs => send_position_update self fs
  | OpReceiveMessage self m => receive_message self m
  end.

(** The stores a run of the program can reach: an operation that
    raises still leaves its writes behind. *)
Inductive reachable : World.t -> Prop :=
| reachable_empty : reachable empty_world
| reachable_step w o : reachable w -> reachable (fst (run_op o w)).

Lemma run_op_safe o : stable safe_step (run_op o).
Proof. destruct o; simpl; solve_stable safe_step. Qed.
End Transitions.


(** * Properties of the protocol *)

Section Properties.
Context `{Runtime}.

(** C1. Round-trip integrity of a broadcast: when a leader's
    [send_position_update] returns normally, every drone of the
    follower list has accepted (checksum verified) and logged the one
    message the leader built, once per occurrence in the list: header
    ["Position Update"], the leader's id and the followers' ids, a
    payload holding the leader's GPS dict and altitude, and the digest
    of that payload as it was when sent.  No other log changes. *)
Theorem send_position_update_delivers self fs w w' d g :
  wf w ->
  World.drones w !! self = Some d ->
  Drone.role d = "leader" ->
  World.dicts w !! Drone.gps_coordinates d = Some g ->
  send_position_update self fs w = (w', Ok tt) ->
  exists ids,
    Forall2 (fun f i => exists df, World.drones w !! f = Some df /\ Drone.id df = i) fs ids /\
    forall x, log_of w' x =
      (fun l => l ++ replicate (occurrences x fs)
         (Message.mk (Header.mk "Position Update" (Drone.id d) ids)
            (Payload.mk (Drone.gps_coordinates d) (Drone.altitude d))
            (checksum_of (payload_json g (Drone.altitude d))))) <$> log_of w x.
Proof.
  intros Hw Hd Hrole Hg Hrun. unfold send_position_update in Hrun.
  rewrite bind_readonly, (load_drone_run w self d Hd) in Hrun by auto with swarm.
  cbn [snd] in Hrun. rewrite Hrole, String.eqb_refl in Hrun.
  cbv beta iota delta [negb] in Hrun.
  rewrite bind_readonly in Hrun by auto with swarm.
  destruct (snd (follower_ids fs w)) as [ids|e] eqn:Hids; [|discriminate].
  cbv beta iota in Hrun. rewrite bind_readonly in Hrun by auto with swarm.
  rewrite (create_message_run self _ (Payload.mk (Drone.gps_coordinates d) (Drone.altitude d)) ids w d g Hd Hg) in Hrun.
  cbn [snd Payload.altitude] in Hrun. cbv beta iota in Hrun.
  exists ids. split; [by apply follower_ids_spec|].
  apply (for_each_send_to_logs self (Drone.gps_coordinates d) (Drone.altitude d) g (Drone.id d) _ fs w w');
    [split_and!; eauto 6 | done..].
Qed.

(** C2. A broadcast never moves its leader: whatever the followers do,
    and even when one of them raises, the leader keeps its role, its
    GPS dict reference, its altitude and the contents of its GPS dict,
    and the store stays well formed. *)
Theorem send_position_update_keeps_leader self fs w d g :
  wf w ->
  World.drones w !! self = Some d ->
  Drone.role d = "leader" ->
  World.dicts w !! Drone.gps_coordinates d = Some g ->
  leader_state self (Drone.gps_coordinates d) (Drone.altitude d) g
    (fst (send_position_update self fs w)).
Proof.
  intros Hw Hd Hrole Hg.
  set (R := keeps_leader self (Drone.gps_coordinates d) (Drone.altitude d) g).
  refine (stable_apply R _ w _ _); [|split_and!; eauto 6].
  unfold send_position_update. solve_stable R.
Qed.

(** C6. Role gating: a drone whose role is not ['leader'] that calls
    [send_position_update] only prints its refusal (line 19) and returns
    normally: no message is built or delivered, nothing else changes,
    and no error is surfaced. *)
Theorem send_position_update_not_leader self fs w d :
  World.drones w !! self = Some d ->
  Drone.role d <> "leader" ->
  send_position_update self fs w =
    print ("Drone " ++ Drone.id d ++ " is not a leader and cannot send position updates.")%string w.
Proof.
  intros Hd Hrole. unfold send_position_update, bind at 1. rewrite (load_drone_run w self d Hd).
  apply String.eqb_neq in Hrole. by rewrite Hrole.
Qed.


(** C8. Terminal case: when the computed distance equals [3.0]
    exactly, [adjust_position] prints the distance and that the drone is
    at the desired distance (lines 52 and 57), returns normally, and
    moves nothing. *)
Theorem adjust_position_at_desired_distance self lp w d distance :
  World.drones w !! self = Some d ->
  calculate_distance self lp w = (w, Ok distance) ->
  PrimFloat.eqb distance desired_distance = true ->
  adjust_position self lp w =
    (World.mk (World.drones w) (World.dicts w) (World.next w)
       (World.stdout w ++ [distance_line (Drone.id d) distance;
                           ("Drone " ++ Drone.id d ++ " is at the desired distance from the leader.")%string]),
     Ok tt).
Proof.
  intros Hd Hdist Heq. unfold adjust_position, bind at 1. rewrite Hdist.
  unfold bind at 1. rewrite (load_drone_run w self d Hd). rewrite Heq.
  unfold print, modify. cbn. by rewrite <- app_assoc.
Qed.

(** C9. Dispatch: a message that is not a ["Position Update"], or one
    received by a drone whose role is not ['follower'], is a no-op in
    [process_message]. *)
Theorem process_message_ignores self m w d :
  World.drones w !! self = Some d ->
  (Header.message_type (Message.header m) <> "Position Update" \/
   Drone.role d <> "follower") ->
  process_message self m w = (w, Ok tt).
Proof.
  intros Hd Hcase. rewrite (process_message_run self m w d Hd).
  destruct Hcase as [Hne|Hne]; apply String.eqb_neq in Hne; rewrite Hne;
    [done | by rewrite andb_false_r].
Qed.


(** C10. Invariant: every store a run of the program reaches is well
    formed: each drone's GPS dict and each logged payload's dict is
    allocated, no two drones share a GPS dict, and every reference is
    below the allocation counter. *)
Theorem reachable_wf w : reachable w -> wf w.
Proof.
  induction 1 as [|w o _ IH]; [apply empty_world_wf|].
  apply (run_op_safe o w IH).
Qed.

(** C11. Every operation keeps each existing drone's id, role, mass,
    velocity, acceleration and GPS dict reference, keeps every dict
    allocated, and only appends to message logs. *)
Theorem run_op_evolves o w : wf w -> evolves w (fst (run_op o w)).
Proof. intros Hw. apply (run_op_safe o w Hw). Qed.
End Properties.

(** ** A payload's text determines the payload *)

Section PayloadText.
Context `{ReprLaws}.

Lemma dumps_payload_text g a :
  Json.dumps (payload_json g a) =
  ("{" ++ Json.encode_str "altitude" ++ ": " ++ Json.num_repr a ++ ", " ++
   Json.encode_str "gps_coordinates" ++ ": {" ++ Json.encode_str "latitude" ++ ": " ++
   Json.num_repr (Gps.latitude g) ++ ", " ++ Json.encode_str "longitude" ++ ": " ++
   Json.num_repr (Gps.longitude g) ++ "}}")%string.
Proof. cbv -[Json.num_repr append]. rewrite !string_app_assoc. reflexivity. Qed.

(** [json.dumps(payload, sort_keys=True)] is injective on payloads: the
    numbers are written injectively and without commas, so the text
    splits back into its fields. *)
Lemma dumps_payload_inj g a g' a' :
  Json.dumps (payload_json g a) = Json.dumps (payload_json g' a') -> g = g' /\ a = a'.
Proof.
  rewrite !dumps_payload_text. intros Ht.
  do 3 apply string_app_inv_head in Ht.
  apply string_app_sep_lit in Ht as [Ha Ht]; [|apply Json.num_repr_no_comma ..].
  do 4 apply string_app_inv_head in Ht.
  apply string_app_sep_lit in Ht as [Hlat Ht]; [|apply Json.num_repr_no_comma ..].
  do 2 apply string_app_inv_head in Ht. apply string_app_inv_tail in Ht.
  apply Json.num_repr_inj in Ha, Hlat, Ht. destruct g, g'; simpl in *; subst. done.
Qed.
(** C12. Tamper evidence: a message whose payload (read through the
    store at receipt) differs from the payload its checksum was computed
    on passes [verify_checksum] only through an MD5 collision: the two
    JSON texts differ and have the same digest.  It holds for every
    runtime whose [float.__repr__] tells finite floats apart. *)
Theorem verify_checksum_tamper m w g0 a0 g :
  Message.checksum m = checksum_of (payload_json g0 a0) ->
  World.dicts w !! Payload.gps_coordinates (Message.payload m) = Some g ->
  (g, Payload.altitude (Message.payload m)) <> (g0, a0) ->
  snd (verify_checksum m w) = Ok true ->
  Json.dumps (payload_json g (Payload.altitude (Message.payload m))) <> Json.dumps (payload_json g0 a0) /\
  md5_hexdigest (Json.dumps (payload_json g (Payload.altitude (Message.payload m)))) =
    md5_hexdigest (Json.dumps (payload_json g0 a0)).
Proof.
  intros Hc Hg Hne Hv. unfold verify_checksum in Hv.
  rewrite bind_readonly, (load_payload_run w _ g Hg) in Hv by auto with swarm.
  cbn in Hv. injection Hv as Hv. apply String.eqb_eq in Hv. rewrite Hc in Hv.
  split; [|exact Hv].
  intros Ht. apply dumps_payload_inj in Ht as [E1 E2]. apply Hne. by rewrite E1, E2.
Qed.
End PayloadText.

(** ** Runs of the methods on a given store *)

Section Runs.
Context `{Runtime}.

Lemma calculate_distance_run self lp w d lg g :
  World.drones w !! self = Some d ->
  World.dicts w !! Payload.gps_coordinates lp = Some lg ->
  World.dicts w !! Drone.gps_coordinates d = Some g ->
  calculate_distance self lp w =
    (w, distance_formula (Gps.latitude lg) (Gps.longitude lg) (Payload.altitude lp)
          (Gps.latitude g) (Gps.longitude g) (Drone.altitude d)).
Proof.
  intros Hd Hlg Hg. unfold calculate_distance, bind.
  by rewrite (load_drone_run w self d Hd), (load_dict_run w _ lg Hlg), (load_dict_run w _ g Hg).
Qed.

(** [adjust_position] up to the test of line 56: the distance computed
    and printed. *)
Lemma adjust_position_prefix self lp w d lg g dist :
  World.drones w !! self = Some d ->
  World.dicts w !! Payload.gps_coordinates lp = Some lg ->
  World.dicts w !! Drone.gps_coordinates d = Some g ->
  distance_formula (Gps.latitude lg) (Gps.longitude lg) (Payload.altitude lp)
    (Gps.latitude g) (Gps.longitude g) (Drone.altitude d) = Ok dist ->
  PrimFloat.eqb dist desired_distance = false ->
  adjust_position self lp w =
    (let* '(u_lat, u_long, u_alt) :=
       lift (unit_vector (Gps.latitude lg) (Gps.longitude lg) (Payload.altitude lp)
               (Gps.latitude g) (Gps.longitude g) (Drone.altitude d)) in
     let adjustment := PrimFloat.sub dist desired_distance in
     let* _ := gps_iadd (Drone.gps_coordinates d) Gps.Latitude (PFloat (PrimFloat.mul u_lat adjustment)) in
     let* _ := gps_iadd (Drone.gps_coordinates d) Gps.Longitude (PFloat (PrimFloat.mul u_long adjustment)) in
     let* _ := altitude_iadd self (PFloat (PrimFloat.mul u_alt adjustment)) in
     let* d' := load_drone self in
     let* g' := load_dict (Drone.gps_coordinates d') in
     let* alt := lift (format_2f (Drone.altitude d')) in
     print ("Drone " ++ Drone.id d' ++ " adjusted position to GPS: " ++ PyRepr.repr (Gps.value g')
            ++ ", Altitude: " ++ alt))
    (World.mk (World.drones w) (World.dicts w) (World.next w)
       (World.stdout w ++ [distance_line (Drone.id d) dist])).
Proof.
  intros Hd Hlg Hg Hdist Heq. unfold adjust_position.
  rewrite bind_readonly by auto with swarm.
  rewrite (calculate_distance_run self lp w d lg g Hd Hlg Hg), Hdist. cbn [snd].
  rewrite bind_readonly by auto with swarm. rewrite (load_drone_run w self d Hd). cbn [snd].
  unfold bind at 1. cbn [print modify]. rewrite Heq.
  set (w0 := World.mk _ _ _ _).
  rewrite bind_readonly by auto with swarm. rewrite (load_dict_run w0 _ lg Hlg). cbn [snd].
  rewrite bind_readonly by auto with swarm. rewrite (load_dict_run w0 _ g Hg). done.
Qed.

(** The main branch of [adjust_position]: the follower moves by
    [unit_vector * (distance - 3.0)], latitude and longitude in its
    dict, altitude in its record, and prints the distance and its new
    position. *)
Lemma adjust_position_run self lp w d lg g dist u_lat u_long u_alt lat' long' alt' s :
  World.drones w !! self = Some d ->
  World.dicts w !! Payload.gps_coordinates lp = Some lg ->
  World.dicts w !! Drone.gps_coordinates d = Some g ->
  distance_formula (Gps.latitude lg) (Gps.longitude lg) (Payload.altitude lp)
    (Gps.latitude g) (Gps.longitude g) (Drone.altitude d) = Ok dist ->
  PrimFloat.eqb dist desired_distance = false ->
  unit_vector (Gps.latitude lg) (Gps.longitude lg) (Payload.altitude lp)
    (Gps.latitude g) (Gps.longitude g) (Drone.altitude d) = Ok (u_lat, u_long, u_alt) ->
  py_add (Gps.latitude g) (PFloat (PrimFloat.mul u_lat (PrimFloat.sub dist desired_distance))) = Ok lat' ->
  py_add (Gps.longitude g) (PFloat (PrimFloat.mul u_long (PrimFloat.sub dist desired_distance))) = Ok long' ->
  py_add (Drone.altitude d) (PFloat (PrimFloat.mul u_alt (PrimFloat.sub dist desired_distance))) = Ok alt' ->
  format_2f alt' = Ok s ->
  adjust_position self lp w =
    (World.mk (<[self:=Drone.set_altitude alt' d]> (World.drones w))
              (<[Drone.gps_coordinates d:=Gps.mk lat' long']> (World.dicts w)) (World.next w)
              (World.stdout w ++ [distance_line (Drone.id d) dist;
                                  ("Drone " ++ Drone.id d ++ " adjusted position to GPS: "
                                    ++ PyRepr.repr (Gps.value (Gps.mk lat' long')) ++ ", Altitude: " ++ s)%string]),
     Ok tt).
Proof.
  intros Hd Hlg Hg Hdist Heq Hu Hlat Hlong Halt Hs.
  rewrite (adjust_position_prefix self lp w d lg g dist Hd Hlg Hg Hdist Heq).
  set (w0 := World.mk _ _ _ _).
  unfold bind at 1. cbn [lift]. rewrite Hu. cbv beta iota.
  unfold bind at 1. rewrite (gps_iadd_run w0 _ Gps.Latitude _ g lat' Hg Hlat). cbv beta iota.
  unfold bind at 1.
  rewrite (gps_iadd_run _ _ Gps.Longitude _ (Gps.mk lat' (Gps.longitude g)) long')
    by (simpl; first [apply lookup_insert_eq | done]).
  cbv beta iota. unfold bind at 1.
  rewrite (altitude_iadd_run _ self _ d alt') by done. cbv beta iota.
  rewrite bind_readonly by auto with swarm.
  rewrite (load_drone_run _ self (Drone.set_altitude alt' d)) by apply lookup_insert_eq.
  cbn [snd]. rewrite bind_readonly by auto with swarm.
  rewrite (load_dict_run _ _ (Gps.mk lat' long')) by (cbn; rewrite insert_insert_eq; apply lookup_insert_eq).
  cbn [snd]. unfold bind at 1. cbn [lift].
  assert (Drone.altitude (Drone.set_altitude alt' d) = alt') as -> by (by destruct d).
  rewrite Hs. unfold print, modify. cbn. rewrite insert_insert_eq, <- app_assoc. by destruct d.
Qed.

(** When the unit vector cannot be formed, [adjust_position] raises
    after printing the distance and before moving. *)
Lemma adjust_position_run_raise self lp w d lg g dist e :
  World.drones w !! self = Some d ->
  World.dicts w !! Payload.gps_coordinates lp = Some lg ->
  World.dicts w !! Drone.gps_coordinates d = Some g ->
  distance_formula (Gps.latitude lg) (Gps.longitude lg) (Payload.altitude lp)
    (Gps.latitude g) (Gps.longitude g) (Drone.altitude d) = Ok dist ->
  PrimFloat.eqb dist desired_distance = false ->
  unit_vector (Gps.latitude lg) (Gps.longitude lg) (Payload.altitude lp)
    (Gps.latitude g) (Gps.longitude g) (Drone.altitude d) = Raise e ->
  adjust_position self lp w =
    (World.mk (World.drones w) (World.dicts w) (World.next w)
       (World.stdout w ++ [distance_line (Drone.id d) dist]), Raise e).
Proof.
  intros Hd Hlg Hg Hdist Heq Hu.
  rewrite (adjust_position_prefix self lp w d lg g dist Hd Hlg Hg Hdist Heq).
  unfold bind at 1. cbn [lift]. by rewrite Hu.
Qed.

(** An untampered message is logged, printed (line 35), then
    processed. *)
Lemma receive_message_accept self m w d g :
  World.drones w !! self = Some d ->
  World.dicts w !! Payload.gps_coordinates (Message.payload m) = Some g ->
  Message.checksum m = checksum_of (payload_json g (Payload.altitude (Message.payload m))) ->
  receive_message self m w =
    process_message self m
      (World.mk (<[self:=Drone.append_message m d]> (World.drones w)) (World.dicts w) (World.next w)
         (World.stdout w ++ [("Drone " ++ Drone.id d ++ " received message: "
                              ++ PyRepr.repr (message_value m g))%string])).
Proof.
  intros Hd Hg Hc. unfold receive_message.
  rewrite bind_readonly by auto with swarm. unfold verify_checksum.
  rewrite bind_readonly by auto with swarm. rewrite (load_payload_run w _ g Hg).
  cbn [snd ret]. rewrite Hc, String.eqb_refl. unfold bind at 1.
  rewrite (log_message_run self m w d Hd). cbv beta iota.
  rewrite bind_readonly by auto with swarm.
  rewrite (load_drone_run _ self (Drone.append_message m d)) by apply lookup_insert_eq.
  cbn [snd]. rewrite bind_readonly by auto with swarm. rewrite (load_dict_run _ _ g) by exact Hg.
  cbn [snd]. unfold bind at 1. cbn [print modify]. by destruct d.
Qed.
End Runs.

(** The distance depends on the runtime only through libm's cosine of
    the follower's latitude in radians. *)
Lemma distance_formula_cos (R1 R2 : Runtime) la lo al lat long alt :
  (forall rad, math_radians lat = Ok rad -> @libm_cos R1 rad = @libm_cos R2 rad) ->
  @distance_formula R1 la lo al lat long alt = @distance_formula R2 la lo al lat long alt.
Proof.
  intros Hc. unfold distance_formula, math_cos, math_1.
  destruct (math_radians lat) as [rad|e] eqn:E; cbn [obind as_float]; [|reflexivity].
  by rewrite (Hc rad eq_refl).
Qed.

(** ** Witnesses: the properties at concrete inputs *)

#[local] Existing Instance script_runtime.

Lemma send_position_update_delivers_witness :
  exists ids,
    Forall2 (fun f i => exists df, World.drones script_world !! f = Some df /\ Drone.id df = i)
      [2%positive; 3%positive] ids /\
    forall x, log_of (fst (send_position_update 1%positive [2%positive; 3%positive] script_world)) x =
      (fun l => (l ++ replicate (occurrences x [2%positive; 3%positive])
         (Message.mk (Header.mk "Position Update" (Drone.id drone_a0) ids)
            (Payload.mk (Drone.gps_coordinates drone_a0) (Drone.altitude drone_a0))
            (checksum_of (payload_json gps_a0 (Drone.altitude drone_a0)))))%list) <$> log_of script_world x.
Proof.
  apply (send_position_update_delivers 1%positive [2%positive; 3%positive] script_world _
           drone_a0 gps_a0 script_world_wf); [vm_compute; reflexivity .. |].
  vm_compute. reflexivity.
Defined.

Lemma send_position_update_keeps_leader_witness :
  leader_state 1%positive 1%positive (PInt 100) gps_a0
    (fst (send_position_update 1%positive [2%positive; 3%positive] script_world)).
Proof.
  apply (send_position_update_keeps_leader 1%positive [2%positive; 3%positive] script_world
           drone_a0 gps_a0 script_world_wf); vm_compute; reflexivity.
Defined.


Lemma send_position_update_not_leader_witness :
  send_position_update 2%positive [3%positive] script_world =
    print "Drone B is not a leader and cannot send position updates." script_world.
Proof.
  apply (send_position_update_not_leader 2%positive [3%positive] script_world drone_b0);
    [vm_compute; reflexivity | discriminate].
Defined.


Lemma adjust_position_at_desired_distance_witness :
  adjust_position 2%positive (Payload.mk 1%positive (PInt 3)) stacked_world =
    (World.mk (World.drones stacked_world) (World.dicts stacked_world) (World.next stacked_world)
       ["Drone B current distance to leader: 3.00 meters";
        "Drone B is at the desired distance from the leader."], Ok tt).
Proof.
  apply (adjust_position_at_desired_distance _ _ stacked_world
           (Drone.mk "B" "follower" (PFloat 2.0) (Vec3.mk (PInt 0) (PInt 0) (PInt 0))
              (Vec3.mk (PInt 0) (PInt 0) (PInt 0)) 2%positive (PInt 0) []) 3%float);
    vm_compute; reflexivity.
Defined.

Lemma process_message_ignores_witness :
  process_message 1%positive
    (Message.mk (Header.mk "Position Update" "A" ["A"]) (Payload.mk 1%positive (PInt 100)) "c")
    script_world = (script_world, Ok tt).
Proof.
  apply (process_message_ignores _ _ script_world drone_a0);
    [vm_compute; reflexivity | right; discriminate].
Defined.

Lemma verify_checksum_tamper_witness :
  @Json.dumps colliding_runtime (payload_json gps_a0 (PInt 100)) <>
    @Json.dumps colliding_runtime (payload_json (Gps.mk (PInt 0) (PInt 0)) (PInt 100)) /\
  @md5_hexdigest colliding_runtime (@Json.dumps colliding_runtime (payload_json gps_a0 (PInt 100))) =
    @md5_hexdigest colliding_runtime
      (@Json.dumps colliding_runtime (payload_json (Gps.mk (PInt 0) (PInt 0)) (PInt 100))).
Proof.
  apply (@verify_checksum_tamper colliding_runtime _
           (Message.mk (Header.mk "Position Update" "A" ["B"; "C"]) (Payload.mk 1%positive (PInt 100)) "0")
           script_world (Gps.mk (PInt 0) (PInt 0)) (PInt 100) gps_a0);
    [reflexivity | vm_compute; reflexivity | discriminate | vm_compute; reflexivity].
Defined.

Lemma reachable_wf_witness :
  wf (fst (run_op (OpInit "A" "leader" (PFloat 1.5) (PInt 0, PInt 0, PInt 0) (PInt 0, PInt 0) (PInt 0))
             empty_world)).
Proof. apply reachable_wf. apply reachable_step, reachable_empty. Defined.

Lemma run_op_evolves_witness :
  evolves empty_world
    (fst (run_op (OpInit "A" "leader" (PFloat 1.5) (PInt 0, PInt 0, PInt 0) (PInt 0, PInt 0) (PInt 0))
            empty_world)).
Proof.
  apply run_op_evolves. apply wf_check_wf. apply (bool_decide_unpack _). by vm_compute.
Defined.
