(* ===== verification/Liveness.v ===== *)
(** * Progress of a broadcast

    [send_position_update] (lines 16-29) delivers to its followers one
    after the other, and the first exception stops the loop; what raises
    is a follower's [adjust_position] (lines 49-79).  This file shows
    that this is the only obstacle: from a well-formed store, a leader's
    broadcast to distinct existing drones returns normally, every one of
    them having logged the message, as soon as each follower among them
    could adjust to the leader's payload from the store the broadcast
    starts in.

    The condition is checked on the starting store because
    [adjust_position] reads only a footprint of the store: the
    follower's id, GPS reference and altitude, its GPS dict and the
    payload's dict ([adjust_position_local], proved with the relational
    runs [related] of the prelude).  The deliveries before a follower's
    own change only the logs, the output, and the positions of other
    followers, which own other dicts ([send_to_touches]), so the footprint
    a follower sees when its turn comes is the one of the starting
    store.

    The same argument shows the converse for the obstacle the spec
    names: a follower at its leader's position ([x - x] is [+0.0] for a
    finite float, so the norm of line 66 is [0.0]) raises
    [ZeroDivisionError], and a broadcast listing it never returns
    normally ([coincident_follower_blocks_broadcast]). *)

From Stdlib Require Import ZArith Floats String.
From stdpp Require Import base list gmap strings.
From S2P Require Import Prelude PyRuntime Agent Script Protocol.

Local Open Scope stexc_scope.

(** ** The footprint of [adjust_position] *)

(** The fields of a drone [adjust_position] reads: id and altitude, with
    its GPS dict at [G]. *)
Definition same_view (G : loc) (d1 d2 : Drone.t) : Prop :=
  Drone.gps_coordinates d1 = G /\ Drone.gps_coordinates d2 = G /\
  Drone.id d1 = Drone.id d2 /\ Drone.altitude d1 = Drone.altitude d2.

(** Two stores agree on the footprint of drone [f] (GPS dict at [G])
    adjusting to a payload whose dict is at [P]. *)
Definition agree (f : dref) (G P : loc) (w1 w2 : World.t) : Prop :=
  (exists d1 d2, World.drones w1 !! f = Some d1 /\ World.drones w2 !! f = Some d2 /\ same_view G d1 d2) /\
  World.dicts w1 !! G = World.dicts w2 !! G /\ World.dicts w1 !! P = World.dicts w2 !! P.

(** The store's maps are keyed by [loc] and [dref]: [lookup_insert] at
    those key types. *)
Lemma dicts_insert_eq (m : gmap loc Gps.t) l g : <[l:=g]> m !! l = Some g.
Proof. apply lookup_insert_eq. Qed.

Lemma dicts_insert_ne (m : gmap loc Gps.t) l l' g : l <> l' -> <[l:=g]> m !! l' = m !! l'.
Proof. apply lookup_insert_ne. Qed.

Lemma drones_insert_eq (m : gmap dref Drone.t) r d : <[r:=d]> m !! r = Some d.
Proof. apply lookup_insert_eq. Qed.

Lemma drones_insert_ne (m : gmap dref Drone.t) r r' d : r <> r' -> <[r:=d]> m !! r' = m !! r'.
Proof. apply lookup_insert_ne. Qed.

Section Footprint.
Context `{Runtime}.
Variables (f : dref) (G P : loc).

Lemma agree_load_drone : related (agree f G P) (same_view G) (load_drone f) (load_drone f).
Proof.
  intros w1 w2 Hs. pose proof Hs as [(d1 & d2 & H1 & H2 & Hv) _].
  unfold load_drone. rewrite H1, H2. by split.
Qed.

Lemma agree_load_dict l : l = G \/ l = P -> related (agree f G P) eq (load_dict l) (load_dict l).
Proof.
  intros Hl w1 w2 Hs. pose proof Hs as (_ & HG & HP). unfold load_dict.
  destruct Hl as [->| ->]; [rewrite HG | rewrite HP]; case_match; by split.
Qed.

Lemma agree_print line : related (agree f G P) eq (print line) (print line).
Proof. intros w1 w2 Hs. split; [exact Hs | done]. Qed.

Lemma agree_store_dict g : related (agree f G P) eq (store_dict G g) (store_dict G g).
Proof.
  intros w1 w2 (Hd & HG & HP). split; [|done]. unfold agree; simpl.
  split_and!; [done | by rewrite !dicts_insert_eq |].
  destruct (decide (P = G)) as [->|Hne]; [by rewrite !dicts_insert_eq | by rewrite !dicts_insert_ne].
Qed.

Lemma agree_gps_iadd k v : related (agree f G P) eq (gps_iadd G k v) (gps_iadd G k v).
Proof.
  unfold gps_iadd. apply related_bind_eq; [apply agree_load_dict; by left | intros g].
  apply related_bind_eq; [apply related_lift | intros x]. apply agree_store_dict.
Qed.

Lemma agree_altitude_iadd v : related (agree f G P) eq (altitude_iadd f v) (altitude_iadd f v).
Proof.
  unfold altitude_iadd. apply (related_bind _ (same_view G)); [apply agree_load_drone|].
  intros d1 d2 (Hg1 & Hg2 & Hid & Ha). rewrite Ha.
  apply related_bind_eq; [apply related_lift | intros a].
  intros w1 w2 ((e1 & e2 & H1 & H2 & _) & HG & HP). split; [|done]. unfold agree; simpl.
  split_and!; [| done | done]. exists (Drone.set_altitude a d1), (Drone.set_altitude a d2).
  rewrite !drones_insert_eq. destruct d1, d2; cbn in *. by split_and!.
Qed.
End Footprint.

#[export] Hint Resolve agree_load_drone agree_print agree_gps_iadd agree_altitude_iadd related_lift : swarm.

(** Rewrite the fields of two drones with the same view to those of the
    first. *)
Ltac same_view_subst :=
  match goal with
  | H : same_view _ ?d1 ?d2 |- _ =>
      let Hg1 := fresh in let Hg2 := fresh in let Hid := fresh in let Ha := fresh in
      destruct H as (Hg1 & Hg2 & Hid & Ha); rewrite ?Hg1, ?Hg2, ?Hid, ?Ha; clear Hg1 Hg2 Hid Ha
  end.

(** Prove that a computation agrees with itself on a footprint. *)
Ltac solve_agree :=
  first
    [ solve [eauto with swarm]
    | apply agree_load_dict; by (left + right)
    | eapply (related_bind _ (same_view _)); [apply agree_load_drone | intros ? ? ?; same_view_subst; solve_agree]
    | apply related_bind_eq; [solve_agree | intros ?; solve_agree]
    | match goal with |- related _ _ (if ?b then _ else _) _ => destruct b; solve_agree end
    | match goal with |- related _ _ (match ?x with _ => _ end) _ => destruct x; solve_agree end ].

Section Local.
Context `{Runtime}.

Lemma adjust_position_related f G lp :
  related (agree f G (Payload.gps_coordinates lp)) eq (adjust_position f lp) (adjust_position f lp).
Proof. unfold adjust_position, calculate_distance. solve_agree. Qed.

(** [adjust_position] returns the same outcome from two stores that agree
    on its footprint. *)
Lemma adjust_position_local f lp w1 w2 d1 d2 :
  World.drones w1 !! f = Some d1 -> World.drones w2 !! f = Some d2 ->
  Drone.gps_coordinates d1 = Drone.gps_coordinates d2 ->
  Drone.id d1 = Drone.id d2 -> Drone.altitude d1 = Drone.altitude d2 ->
  World.dicts w1 !! Drone.gps_coordinates d1 = World.dicts w2 !! Drone.gps_coordinates d1 ->
  World.dicts w1 !! Payload.gps_coordinates lp = World.dicts w2 !! Payload.gps_coordinates lp ->
  snd (adjust_position f lp w1) = snd (adjust_position f lp w2).
Proof.
  intros H1 H2 Hg Hid Ha HG HP. apply (related_outcome _ _ _ _ _ (adjust_position_related f (Drone.gps_coordinates d1) lp)).
  split_and!; [exists d1, d2; by split_and! | done | done].
Qed.
End Local.

(** ** What one delivery touches *)

(** [touches f G w w']: from [w] to [w'] no drone but [f] and no dict but
    the one at [G] changed. *)
Definition touches (f : dref) (G : loc) (w w' : World.t) : Prop :=
  (forall r, r <> f -> World.drones w' !! r = World.drones w !! r) /\
  (forall l, l <> G -> World.dicts w' !! l = World.dicts w !! l).

#[export] Instance touches_preorder f G : PreOrder (touches f G).
Proof.
  split; [by intros w | intros w1 w2 w3 [A1 B1] [A2 B2]].
  split; [intros r Hr; by rewrite A2, A1 | intros l Hl; by rewrite B2, B1].
Qed.

Lemma print_touches f G line : stable (touches f G) (print line).
Proof. by intros w. Qed.

#[export] Hint Resolve print_touches : swarm.

Lemma moves_only_touches f G w w' : moves_only f G w w' -> touches f G w w'.
Proof. intros (A & B & _). by split. Qed.

Section Delivery.
Context `{Runtime}.

Lemma receive_message_touches f msg w df :
  World.drones w !! f = Some df ->
  touches f (Drone.gps_coordinates df) w (fst (receive_message f msg w)).
Proof.
  intros Hf. unfold receive_message. rewrite bind_readonly by auto with swarm.
  destruct (snd (verify_checksum msg w)) as [[|]|e]; cbn [fst]; [| |reflexivity].
  - unfold bind at 1. rewrite (log_message_run f msg w df Hf). cbv beta iota.
    set (w1 := World.mk _ _ _ _).
    assert (H1 : World.drones w1 !! f = Some (Drone.append_message msg df)) by apply drones_insert_eq.
    transitivity w1; [split; [intros r Hr; apply drones_insert_ne; congruence | done]|].
    rewrite bind_readonly by auto with swarm. rewrite (load_drone_run w1 f _ H1). cbn [snd].
    rewrite bind_readonly by auto with swarm.
    destruct (snd (load_dict _ w1)); cbn [fst]; [|reflexivity].
    unfold bind at 1. cbn [print modify]. set (w2 := World.mk _ _ _ _).
    transitivity w2; [done|]. apply moves_only_touches.
    replace (Drone.gps_coordinates df) with (Drone.gps_coordinates (Drone.append_message msg df)) by (by destruct df).
    by apply process_message_moves.
  - apply stable_apply. solve_stable (touches f (Drone.gps_coordinates df)).
Qed.

Lemma send_to_touches i msg f w df :
  World.drones w !! f = Some df ->
  touches f (Drone.gps_coordinates df) w (fst (send_to i msg f w)).
Proof.
  intros Hf. unfold send_to. rewrite bind_readonly by auto with swarm.
  rewrite (load_drone_run w f df Hf). cbn [snd]. unfold bind at 1. cbn [print modify].
  set (w1 := World.mk _ _ _ _). transitivity w1; [done|].
  by apply receive_message_touches.
Qed.
End Delivery.

(** ** Progress of the broadcast loop *)

Section Progress.
Context `{Runtime}.
Local Open Scope string_scope.


Variables (self : dref) (L : loc) (a : PyNum) (g : Gps.t) (i : string) (msg : Message.t) (w0 : World.t).
Hypotheses (Hl0 : leader_state self L a g w0)
  (Htype : Header.message_type (Message.header msg) = "Position Update")
  (Hp : Message.payload msg = Payload.mk L a)
  (Hc : Message.checksum msg = checksum_of (payload_json g a)).

(** [w] has not touched the drone [f] (GPS dict at [G]) of [w0]. *)
Definition untouched (w : World.t) (f : dref) : Prop :=
  forall df, World.drones w0 !! f = Some df ->
  World.drones w !! f = Some df /\
  World.dicts w !! Drone.gps_coordinates df = World.dicts w0 !! Drone.gps_coordinates df.

(** One delivery to a drone [f] untouched since [w0]: it returns
    what [f]'s [adjust_position] returns from [w0] if [f] is a follower,
    and normally otherwise. *)
Lemma send_to_outcome w f df :
  leader_state self L a g w -> World.drones w0 !! f = Some df -> untouched w f ->
  snd (send_to i msg f w) =
    if String.eqb (Drone.role df) "follower" then snd (adjust_position f (Payload.mk L a) w0) else Ok tt.
Proof.
  intros (Hw & Hg & _) Hf0 Hu. destruct (Hu df Hf0) as [Hf HG].
  unfold send_to. rewrite bind_readonly by auto with swarm.
  rewrite (load_drone_run w f df Hf). cbn [snd]. unfold bind at 1. cbn [print modify].
  set (w1 := World.mk _ _ _ _).
  rewrite (receive_message_accept f msg w1 df g) by (rewrite ?Hp; done).
  set (w2 := World.mk _ _ _ _).
  rewrite (process_message_run f msg w2 (Drone.append_message msg df)) by apply drones_insert_eq.
  rewrite Htype, String.eqb_refl. cbn [andb Drone.role Drone.append_message].
  destruct (String.eqb (Drone.role df) "follower"); [|done].
  rewrite Hp. destruct Hl0 as (_ & Hg0 & _).
  apply (adjust_position_local f _ w2 w0 (Drone.append_message msg df) df);
    [apply drones_insert_eq | done | by destruct df .. | by destruct df | cbn; by rewrite Hg, Hg0].
Qed.


(** A delivery to [f] that returns normally leaves every other drone
    [f'] untouched, since [f] owns a dict of its own. *)
Lemma send_to_untouched w f f' w1 :
  leader_state self L a g w -> f' <> f -> untouched w f' ->
  send_to i msg f w = (w1, Ok tt) -> untouched w1 f'.
Proof.
  intros (Hw & _) Hne Hu Hs df' Hdf'. destruct (Hu df' Hdf') as [Hf'w HG'].
  destruct (World.drones w !! f) as [df|] eqn:Hfw.
  2:{ unfold send_to, bind, load_drone in Hs. rewrite Hfw in Hs. discriminate. }
  pose proof (send_to_touches i msg f w df Hfw) as [A B]. rewrite Hs in A, B. cbn [fst] in A, B.
  assert (HGne : Drone.gps_coordinates df' <> Drone.gps_coordinates df).
  { intros E. apply Hne. exact (wf_owner w Hw f' f df' df Hf'w Hfw E). }
  rewrite A, B by done. done.
Qed.


(** A broadcast loop that reaches a follower [f], untouched since [w0],
    whose [adjust_position] raises from [w0], does not return normally:
    it raises at [f] or at a delivery before it. *)
Lemma for_each_send_to_blocked fs w f df e :
  leader_state self L a g w -> World.drones w0 !! f = Some df -> Drone.role df = "follower" ->
  snd (adjust_position f (Payload.mk L a) w0) = Raise e ->
  f ∈ fs -> untouched w f ->
  snd (for_each (send_to i msg) fs w) <> Ok tt.
Proof.
  intros Hl Hf0 Hrole Ha. revert w Hl. induction fs as [|f' fs IH]; intros w Hl Hin Hu;
    [by apply elem_of_nil in Hin|].
  cbn [for_each]. unfold bind.
  destruct (decide (f' = f)) as [->|Hne].
  - pose proof (send_to_outcome w f df Hl Hf0 Hu) as Ho. rewrite Hrole, String.eqb_refl, Ha in Ho.
    destruct (send_to i msg f w) as [w1 [[]|e']]; cbn [snd] in Ho |- *; [discriminate | done].
  - apply elem_of_cons in Hin as [->|Hin]; [done|].
    pose proof (send_to_keeps_leader self L a g i msg f' w Hl) as Hl1.
    destruct (send_to i msg f' w) as [w1 [[]|e']] eqn:Hs; cbn [snd fst] in Hl1 |- *; [|discriminate].
    apply (IH w1 Hl1 Hin). by apply (send_to_untouched w f' f w1 Hl).
Qed.
End Progress.



Section Liveness.
Context `{Runtime}.
Local Open Scope string_scope.

(** The run of a leader's [send_position_update]: the ids of the
    followers, then the loop over one message. *)
Lemma send_position_update_leader_run self fs w d g :
  World.drones w !! self = Some d -> Drone.role d = "leader" ->
  World.dicts w !! Drone.gps_coordinates d = Some g ->
  send_position_update self fs w =
    match snd (follower_ids fs w) with
    | Ok ids =>
        for_each (send_to (Drone.id d)
          (Message.mk (Header.mk "Position Update" (Drone.id d) ids)
             (Payload.mk (Drone.gps_coordinates d) (Drone.altitude d))
             (checksum_of (payload_json g (Drone.altitude d))))) fs w
    | Raise e => (w, Raise e)
    end.
Proof.
  intros Hd Hrole Hg. unfold send_position_update. rewrite bind_readonly by auto with swarm.
  rewrite (load_drone_run w self d Hd). cbn [snd]. rewrite Hrole, String.eqb_refl.
  cbv beta iota delta [negb]. rewrite bind_readonly by auto with swarm.
  destruct (snd (follower_ids fs w)) as [ids|e]; [|done].
  cbv beta iota. rewrite bind_readonly by auto with swarm.
  by rewrite (create_message_run self _ (Payload.mk (Drone.gps_coordinates d) (Drone.altitude d)) ids w d g Hd Hg).
Qed.

End Liveness.

(** ** A follower at its leader's position *)

Section Coincident.
Context `{Runtime}.
Local Open Scope string_scope.

(** All differences are zeros ([x - x] is [+0.0] for a finite float),
    so the distance is [0.0]; the only library value met is the cosine
    of the latitude, a finite number. *)
Lemma distance_formula_coincident la lo al rad :
  finite_num la = true -> finite_num lo = true -> finite_num al = true ->
  math_radians la = Ok rad -> is_finite (libm_cos rad) = true ->
  distance_formula la lo al la lo al = Ok 0%float.
Proof.
  intros Hla Hlo Hal Hr Hc.
  assert (E : (0 * libm_cos rad)%float = 0%float \/ (0 * libm_cos rad)%float = (-0)%float)
    by exact (mul_zero_finite _ Hc).
  assert (M1 : py_mul (PInt 0) METERS_PER_DEGREE = Ok (PInt 0)) by reflexivity.
  assert (M2 : py_mul (PFloat 0) METERS_PER_DEGREE = Ok (PFloat 0)) by reflexivity.
  assert (C1 : py_mul (PInt 0) (PFloat (libm_cos rad)) = Ok (PFloat (0 * libm_cos rad)%float)) by reflexivity.
  assert (C2 : py_mul (PFloat 0) (PFloat (libm_cos rad)) = Ok (PFloat (0 * libm_cos rad)%float)) by reflexivity.
  unfold distance_formula.
  destruct (py_sub_diag la Hla) as [E1|E1], (py_sub_diag lo Hlo) as [E2|E2], (py_sub_diag al Hal) as [E3|E3];
    rewrite E1, E2, E3, Hr; cbn [obind]; rewrite (math_cos_finite rad Hc), ?M1, ?M2; cbn [obind];
    rewrite ?C1, ?C2; cbn [obind]; destruct E as [E|E]; rewrite E; vm_compute; reflexivity.
Qed.

(** C5. A follower at its leader's position blocks the broadcast.  Let
    follower [f] of a well-formed store have the same coordinates
    (ints in the float range or finite floats) and altitude as the
    leader, and let libm's cosine of the latitude be finite.  Then
    [adjust_position] toward the leader's payload prints a distance of
    [0.00] and raises [ZeroDivisionError] on line 68, before moving
    anything; and a broadcast of the leader whose follower list contains
    [f] anywhere never returns normally: the exception at [f], or an
    earlier one, ends it. *)
Theorem coincident_follower_blocks_broadcast self fs w d g f df rad :
  wf w ->
  World.drones w !! self = Some d ->
  Drone.role d = "leader" ->
  World.dicts w !! Drone.gps_coordinates d = Some g ->
  f ∈ fs ->
  World.drones w !! f = Some df ->
  Drone.role df = "follower" ->
  World.dicts w !! Drone.gps_coordinates df = Some g ->
  Drone.altitude df = Drone.altitude d ->
  finite_num (Gps.latitude g) = true -> finite_num (Gps.longitude g) = true ->
  finite_num (Drone.altitude d) = true ->
  math_radians (Gps.latitude g) = Ok rad -> is_finite (libm_cos rad) = true ->
  adjust_position f (Payload.mk (Drone.gps_coordinates d) (Drone.altitude d)) w =
    (World.mk (World.drones w) (World.dicts w) (World.next w)
       (World.stdout w ++ ["Drone " ++ Drone.id df ++ " current distance to leader: 0.00 meters"]),
     Raise ZeroDivisionError) /\
  snd (send_position_update self fs w) <> Ok tt.
Proof.
  intros Hw Hd Hrole Hg Hin Hf Hfrole Hgf Halt Hla Hlo Hal Hr Hc.
  assert (Hadj : adjust_position f (Payload.mk (Drone.gps_coordinates d) (Drone.altitude d)) w =
    (World.mk (World.drones w) (World.dicts w) (World.next w)
       (World.stdout w ++ [distance_line (Drone.id df) 0%float]), Raise ZeroDivisionError)).
  { apply (adjust_position_run_raise f _ w df g g 0%float); [done | done | done | | reflexivity |];
      cbn [Payload.altitude]; rewrite Halt;
      [exact (distance_formula_coincident _ _ _ rad Hla Hlo Hal Hr Hc)|].
    (* The norm of the zero vector is [0.0]: line 68 divides by zero. *)
    unfold unit_vector.
    destruct (py_sub_diag _ Hla) as [E1|E1], (py_sub_diag _ Hlo) as [E2|E2], (py_sub_diag _ Hal) as [E3|E3];
      rewrite E1, E2, E3; vm_compute; reflexivity. }
  split; [by rewrite Hadj|].
  rewrite (send_position_update_leader_run self fs w d g Hd Hrole Hg).
  destruct (snd (follower_ids fs w)) as [ids|e]; [|discriminate].
  assert (Hl : leader_state self (Drone.gps_coordinates d) (Drone.altitude d) g w) by (split_and!; eauto 6).
  set (msg := Message.mk (Header.mk "Position Update" (Drone.id d) ids)
                (Payload.mk (Drone.gps_coordinates d) (Drone.altitude d))
                (checksum_of (payload_json g (Drone.altitude d)))).
  apply (for_each_send_to_blocked self _ _ g (Drone.id d) msg w Hl eq_refl eq_refl eq_refl fs w f df ZeroDivisionError Hl Hf Hfrole);
    [by rewrite Hadj | done | intros df' Hdf'; by split].
Qed.
End Coincident.

(** ** Witness *)

#[local] Existing Instance script_runtime.
#[local] Set Warnings "-inexact-float".


(** A store where follower B was created at leader A's position
    (28.7041, 77.1025), altitude 100. *)
Definition create_coincident_drones : PyM (dref * dref * dref) :=
  let* a := drone_init "A" "leader" (PFloat 1.5) (PInt 0, PInt 0, PInt 0) (PFloat 28.7041, PFloat 77.1025) (PInt 100) in
  let* b := drone_init "B" "follower" (PFloat 2.0) (PInt 0, PInt 0, PInt 0) (PFloat 28.7041, PFloat 77.1025) (PInt 100) in
  let* c := drone_init "C" "follower" (PFloat 1.8) (PInt 0, PInt 0, PInt 0) (PFloat 28.7042, PFloat 77.1026) (PInt 100) in
  ret (a, b, c).

Definition coincident_world : World.t := fst (create_coincident_drones empty_world).

Definition coincident_b : Drone.t :=
  Drone.mk "B" "follower" (PFloat 2.0) (Vec3.mk (PInt 0) (PInt 0) (PInt 0))
    (Vec3.mk (PInt 0) (PInt 0) (PInt 0)) 2%positive (PInt 100) [].

Lemma coincident_follower_blocks_broadcast_witness :
  adjust_position 2%positive (Payload.mk (Drone.gps_coordinates drone_a0) (Drone.altitude drone_a0)) coincident_world =
    (World.mk (World.drones coincident_world) (World.dicts coincident_world) (World.next coincident_world)
       (World.stdout coincident_world ++ ["Drone " ++ Drone.id coincident_b ++ " current distance to leader: 0.00 meters"]%string),
     Raise ZeroDivisionError) /\
  snd (send_position_update 1%positive [3%positive; 2%positive] coincident_world) <> Ok tt.
Proof.
  apply (coincident_follower_blocks_broadcast 1%positive [3%positive; 2%positive] coincident_world drone_a0 gps_a0
           2%positive coincident_b (PrimFloat.mul 28.7041 deg_to_rad)).
  - apply wf_check_wf. apply (bool_decide_unpack _). by vm_compute.
  - vm_compute. reflexivity.
  - reflexivity.
  - vm_compute. reflexivity.
  - right. left.
  - vm_compute. reflexivity.
  - reflexivity.
  - vm_compute. reflexivity.
  - reflexivity.
  - vm_compute. reflexivity.
  - vm_compute. reflexivity.
  - vm_compute. reflexivity.
  - vm_compute. reflexivity.
  - vm_compute. reflexivity.
Defined.
