(* ===== verification/Refinement.v ===== *)
(** * Refinement of the spec's value semantics

    The spec describes drones that own their position and keep logs of
    messages whose payload is an immutable value (sections 3, 4.2 and 5).
    [ADrone.t] and [AMsg.t] are those drones and messages; an [aworld]
    maps each drone reference to one.  [abs] reads a store of [Agent] as
    an [aworld]: each drone with its GPS dict read through its reference,
    each logged message with its payload's dict read the same way.

    [a_step] is the spec of each operation on the abstract drones:
    [a_init] adds a drone with an empty log, [a_update] moves one drone
    and touches no log, [a_send] delivers one message built from the
    leader's current position to a prefix of the follower list (all of
    it when the call returns) and moves only followers.  A message from
    outside the program is no step of the protocol.

    [run_op_refines] shows that each operation of the program, from a
    store satisfying [inv], does what [a_step] allows, provided a drone
    that moves is not one whose dict a logged payload holds: the payload
    keeps the leader's dict by reference (line 23), so such a move
    rewrites the messages already delivered, which no abstract step
    does.  Runs of such operations ([preach]) are runs of the spec
    ([a_reach]); in the spec every logged message verifies, so in such
    runs every logged message passes [verify_checksum].
    [move_of_heard_dict_not_refined] shows the restriction on moves is
    needed: a move that changes a dict some logged payload holds is no
    [a_update] step. *)

From Stdlib Require Import ZArith Floats String.
From stdpp Require Import base list gmap strings.
From S2P Require Import Prelude PyRuntime Json Agent Script Protocol.

Local Open Scope stexc_scope.

(** ** Abstract drones and messages *)

Module AMsg.
Record t := mk { header : Header.t; gps : Gps.t; altitude : PyNum; checksum : string }.
End AMsg.

Module ADrone.
Record t := mk { id : string; role : string; gps : Gps.t; altitude : PyNum; log : list AMsg.t }.

Definition append (m : AMsg.t) (d : t) : t :=
  mk (id d) (role d) (gps d) (altitude d) (log d ++ [m]).
End ADrone.

Abbreviation aworld := (gmap dref ADrone.t).

(** ** The abstraction of a store *)

Definition abs_msg (dicts : gmap loc Gps.t) (m : Message.t) : option AMsg.t :=
  (fun g => AMsg.mk (Message.header m) g (Payload.altitude (Message.payload m)) (Message.checksum m))
    <$> dicts !! Payload.gps_coordinates (Message.payload m).

Definition abs_drone (dicts : gmap loc Gps.t) (d : Drone.t) : option ADrone.t :=
  g ← dicts !! Drone.gps_coordinates d;
  l ← mapM (abs_msg dicts) (Drone.received_messages d);
  Some (ADrone.mk (Drone.id d) (Drone.role d) g (Drone.altitude d) l).

Definition abs (w : World.t) : aworld := omap (abs_drone (World.dicts w)) (World.drones w).

(** ** The spec of each operation *)

(** [aw'] is [aw] but for the positions of the drones [may_move]
    admits by reference and role: the same drones, ids, roles and
    logs. *)
Definition moved (may_move : dref -> string -> Prop) (aw aw' : aworld) : Prop :=
  (forall x, is_Some (aw !! x) <-> is_Some (aw' !! x)) /\
  forall x d d', aw !! x = Some d -> aw' !! x = Some d' ->
    ADrone.id d' = ADrone.id d /\ ADrone.role d' = ADrone.role d /\ ADrone.log d' = ADrone.log d /\
    (~ may_move x (ADrone.role d) -> ADrone.gps d' = ADrone.gps d /\ ADrone.altitude d' = ADrone.altitude d).

Definition is_follower (_ : dref) (role : string) : Prop := role = "follower"%string.

(** Delivery of [m] to each of [fs], in order. *)
Definition a_deliver (m : AMsg.t) (fs : list dref) (aw : aworld) : aworld :=
  foldl (fun aw f => alter (ADrone.append m) f aw) aw fs.

Definition returned {E A} (o : outcome E A) : bool :=
  match o with Ok _ => true | Raise _ => false end.

Section Spec.
Context `{Runtime}.
Local Open Scope string_scope.

(** [verifyChecksum] on a message whose payload is a value. *)
Definition a_verify (m : AMsg.t) : bool :=
  String.eqb (checksum_of (payload_json (AMsg.gps m) (AMsg.altitude m))) (AMsg.checksum m).

(** The message a leader builds from its current position. *)
Definition a_message (l : ADrone.t) (ids : list string) : AMsg.t :=
  AMsg.mk (Header.mk "Position Update" (ADrone.id l) ids) (ADrone.gps l) (ADrone.altitude l)
    (checksum_of (payload_json (ADrone.gps l) (ADrone.altitude l))).

Definition a_init (id role : string) (gps : PyNum * PyNum) (alt : PyNum) (aw aw' : aworld) : Prop :=
  exists r, aw !! r = None /\ aw' = <[r := ADrone.mk id role (Gps.mk gps.1 gps.2) alt []]> aw.

(** [updatePosition] (section 4.1): only [self] moves, by the three
    sums when the call returns. *)
Definition a_update (self : dref) (dlat dlon dalt : PyNum) (aw aw' : aworld) (ok : bool) : Prop :=
  moved (fun x _ => x = self) aw aw' /\
  (ok = true -> exists d lat lon alt,
     aw !! self = Some d /\
     py_add (Gps.latitude (ADrone.gps d)) dlat = Ok lat /\
     py_add (Gps.longitude (ADrone.gps d)) dlon = Ok lon /\
     py_add (ADrone.altitude d) dalt = Ok alt /\
     aw' !! self = Some (ADrone.mk (ADrone.id d) (ADrone.role d) (Gps.mk lat lon) alt (ADrone.log d))).

(** The broadcast (section 4.2): a non-leader changes nothing; a leader
    builds one message from its current position, addressed to its
    followers' ids, and delivers it to a prefix of the followers in list
    order, all of them when the call returns; only followers move. *)
Definition a_send (self : dref) (fs : list dref) (aw aw' : aworld) (ok : bool) : Prop :=
  match aw !! self with
  | Some l =>
      if String.eqb (ADrone.role l) "leader" then
        exists fs' ids, fs' `prefix_of` fs /\ (ok = true -> fs' = fs) /\
          (fs' <> [] -> mapM (fun f => ADrone.id <$> aw !! f) fs = Some ids) /\
          moved is_follower (a_deliver (a_message l ids) fs' aw) aw'
      else aw' = aw
  | None => aw' = aw
  end.

Definition a_step (o : op) (aw aw' : aworld) (ok : bool) : Prop :=
  match o with
  | OpInit id role _ _ gps alt => a_init id role gps alt aw aw'
  | OpUpdatePosition self dlat dlon dalt => a_update self dlat dlon dalt aw aw' ok
  | OpSendPositionUpdate self fs => a_send self fs aw aw' ok
  | OpReceiveMessage _ _ => False
  end.

Inductive a_reach : aworld -> Prop :=
| a_reach_empty : a_reach ∅
| a_reach_step o aw aw' ok : a_reach aw -> a_step o aw aw' ok -> a_reach aw'.

(** Every logged message verifies. *)
Definition a_verified (aw : aworld) : Prop :=
  map_Forall (fun _ d => Forall (fun m => a_verify m = true) (ADrone.log d)) aw.
End Spec.

(** ** The concrete side: who holds which dict *)

Definition leader_loc (w : World.t) (l : loc) : Prop :=
  exists y dl, World.drones w !! y = Some dl /\ Drone.role dl = "leader"%string /\
               Drone.gps_coordinates dl = l.

(** Every logged payload holds the GPS dict of a leader. *)
Definition heard_from_leaders (w : World.t) : Prop :=
  forall x d m, World.drones w !! x = Some d -> m ∈ Drone.received_messages d ->
    leader_loc w (Payload.gps_coordinates (Message.payload m)).

Definition inv (w : World.t) : Prop := wf w /\ heard_from_leaders w.

(** No logged payload holds the dict [l]. *)
Definition unheard (w : World.t) (l : loc) : Prop :=
  forall x d m, World.drones w !! x = Some d -> m ∈ Drone.received_messages d ->
    Payload.gps_coordinates (Message.payload m) <> l.

(** The operations of the protocol: the constructor, a move of a drone
    whose dict no logged payload holds, and a broadcast. *)
Definition protocol_op (w : World.t) (o : op) : Prop :=
  match o with
  | OpInit _ _ _ _ _ _ => True
  | OpUpdatePosition self _ _ _ =>
      forall d, World.drones w !! self = Some d -> unheard w (Drone.gps_coordinates d)
  | OpSendPositionUpdate _ _ => True
  | OpReceiveMessage _ _ => False
  end.

(** ** Reading a store through [abs] *)

Lemma abs_lookup w x : abs w !! x = World.drones w !! x ≫= abs_drone (World.dicts w).
Proof. unfold abs. by rewrite lookup_omap. Qed.

Lemma abs_drone_Some dicts d ad :
  abs_drone dicts d = Some ad <->
  dicts !! Drone.gps_coordinates d = Some (ADrone.gps ad) /\
  mapM (abs_msg dicts) (Drone.received_messages d) = Some (ADrone.log ad) /\
  ADrone.id ad = Drone.id d /\ ADrone.role ad = Drone.role d /\ ADrone.altitude ad = Drone.altitude d.
Proof.
  unfold abs_drone. split.
  - intros Had. apply bind_Some in Had as (g & Hg & Had). apply bind_Some in Had as (l & Hl & Had).
    injection Had as <-. done.
  - destruct ad as [i r g a l]; simpl. intros (-> & -> & -> & -> & ->). simpl. by destruct d.
Qed.

Lemma abs_msg_alloc w x d m :
  wf w -> World.drones w !! x = Some d -> m ∈ Drone.received_messages d ->
  is_Some (abs_msg (World.dicts w) m).
Proof. intros Hw Hx Hm. unfold abs_msg. destruct (wf_log_alloc _ Hw _ _ _ Hx Hm) as [g ->]. by eexists. Qed.

Lemma abs_drone_alloc w x d :
  wf w -> World.drones w !! x = Some d -> is_Some (abs_drone (World.dicts w) d).
Proof.
  intros Hw Hx. unfold abs_drone. destruct (wf_gps_alloc _ Hw _ _ Hx) as [g ->]. simpl.
  destruct (mapM_is_Some_2 (abs_msg (World.dicts w)) (Drone.received_messages d)) as [l ->];
    [|by eexists].
  apply Forall_forall. intros m Hm. exact (abs_msg_alloc w x d m Hw Hx Hm).
Qed.

Lemma abs_is_Some w x : wf w -> is_Some (abs w !! x) <-> is_Some (World.drones w !! x).
Proof.
  intros Hw. rewrite abs_lookup. destruct (World.drones w !! x) as [d|] eqn:Hx; simpl.
  - split; [by eexists|]. intros _. exact (abs_drone_alloc w x d Hw Hx).
  - split; intros [? ?]; discriminate.
Qed.

(** Two dict maps that agree on what a drone reads give it the same
    abstraction. *)
Lemma abs_drone_agree dicts dicts' d :
  dicts' !! Drone.gps_coordinates d = dicts !! Drone.gps_coordinates d ->
  (forall m, m ∈ Drone.received_messages d ->
     dicts' !! Payload.gps_coordinates (Message.payload m) =
     dicts !! Payload.gps_coordinates (Message.payload m)) ->
  abs_drone dicts' d = abs_drone dicts d.
Proof.
  intros Hg Hm. unfold abs_drone. rewrite Hg.
  destruct (dicts !! _); simpl; [|done].
  rewrite (mapM_ext_in (abs_msg dicts') (abs_msg dicts)); [done|].
  intros m Hin. unfold abs_msg. by rewrite (Hm m Hin).
Qed.

Lemma a_deliver_lookup m fs aw x :
  a_deliver m fs aw !! x =
    (fun d => ADrone.mk (ADrone.id d) (ADrone.role d) (ADrone.gps d) (ADrone.altitude d)
                (ADrone.log d ++ replicate (occurrences x fs) m)) <$> aw !! x.
Proof.
  revert aw. induction fs as [|f fs IH]; intros aw.
  - unfold a_deliver; simpl. destruct (aw !! x) as [[]|]; simpl; by rewrite ?app_nil_r.
  - change (a_deliver m (f :: fs) aw) with (a_deliver m fs (alter (ADrone.append m) f aw)).
    rewrite IH. unfold occurrences. rewrite filter_cons.
    destruct (decide (x = f)) as [->|Hne].
    + rewrite lookup_alter_eq. destruct (aw !! f) as [[]|]; simpl; [|done]. by rewrite <- app_assoc.
    + by rewrite lookup_alter_ne by congruence.
Qed.

#[export] Instance moved_preorder P : PreOrder (moved P).
Proof.
  split.
  - intros aw. split; [done|]. intros x d d' Hd Hd'. rewrite Hd in Hd'. injection Hd' as <-. done.
  - intros a1 a2 a3 [D12 H12] [D23 H23]. split; [intros x; by rewrite D12, D23|].
    intros x d1 d3 Hd1 Hd3. destruct (proj1 (D12 x) (mk_is_Some _ _ Hd1)) as [d2 Hd2].
    destruct (H12 x d1 d2 Hd1 Hd2) as (? & ? & ? & Hp12).
    destruct (H23 x d2 d3 Hd2 Hd3) as (? & ? & ? & Hp23).
    split_and!; try congruence. intros Hm.
    destruct (Hp12 Hm) as [? ?]. destruct Hp23 as [? ?]; [congruence | split; congruence].
Qed.

Lemma leader_loc_evolves w w' l : evolves w w' -> leader_loc w l -> leader_loc w' l.
Proof.
  intros [E _] (y & dl & Hy & Hr & Hl). destruct (E y dl Hy) as (dl' & Hy' & (_ & Hr' & _ & _ & _ & Hg' & _)).
  exists y, dl'. split_and!; congruence.
Qed.

(** ** A broadcast moves only followers *)

(** From [w] to [w']: the same drones, and every drone that is not a
    follower keeps its altitude and the contents of its GPS dict. *)
Definition followers_only (w w' : World.t) : Prop :=
  wf w -> wf w' /\ evolves w w' /\
  (forall x, World.drones w !! x = None -> World.drones w' !! x = None) /\
  (forall x d, World.drones w !! x = Some d -> Drone.role d <> "follower"%string ->
     World.dicts w' !! Drone.gps_coordinates d = World.dicts w !! Drone.gps_coordinates d /\
     exists d', World.drones w' !! x = Some d' /\ Drone.altitude d' = Drone.altitude d).

#[export] Instance followers_only_preorder : PreOrder followers_only.
Proof.
  split.
  - intros w Hw. split_and!; [done | reflexivity | done |]. intros x d Hd _. eauto.
  - intros w1 w2 w3 H12 H23 Hw1.
    destruct (H12 Hw1) as (Hw2 & E12 & D12 & N12). destruct (H23 Hw2) as (Hw3 & E23 & D23 & N23).
    split_and!; [done | by trans w2 | auto |].
    intros x d1 Hd1 Hr1. destruct (N12 x d1 Hd1 Hr1) as [G12 (d2 & Hd2 & A12)].
    destruct (proj1 E12 x d1 Hd1) as (d2' & Hd2' & (_ & Hr & _ & _ & _ & Hg & _)).
    rewrite Hd2 in Hd2'. injection Hd2' as <-.
    destruct (N23 x d2 Hd2 ltac:(congruence)) as [G23 (d3 & Hd3 & A23)].
    split; [congruence | exists d3; split; [done | congruence]].
Qed.

(** A step that moves only a follower [f] and its own dict. *)
Lemma moves_only_followers_only w w' f df :
  World.drones w !! f = Some df -> Drone.role df = "follower"%string ->
  moves_only f (Drone.gps_coordinates df) w w' -> safe_step w w' -> followers_only w w'.
Proof.
  intros Hf Hr (A & B & C & D) Hs Hw. destruct (Hs Hw) as [Hw' Hev].
  split_and!; [done | done | |].
  - intros x Hx. destruct (decide (x = f)) as [->|Hne]; [congruence | by rewrite A].
  - intros x d Hd Hrd. assert (Hne : x <> f) by (intros ->; congruence).
    split; [|exists d; split; [by rewrite A | done]].
    apply B. intros Hg. apply Hne. by apply (wf_owner w Hw x f d df).
Qed.

Lemma print_followers_only line : stable followers_only (print line).
Proof.
  intros w Hw. destruct (print_safe line w Hw) as [Hw' Hev].
  split_and!; [done | done | done |]. intros x d Hd _. eauto.
Qed.

Lemma log_message_followers_only f m w :
  is_Some (World.dicts w !! Payload.gps_coordinates (Message.payload m)) ->
  followers_only w (fst (log_message f m w)).
Proof.
  intros Hl Hw. destruct (log_message_safe f m w Hl Hw) as [Hw' Hev].
  split_and!; [done | done | |].
  - intros x Hx. destruct (World.drones w !! f) as [df|] eqn:Hf.
    + rewrite (log_message_run f m w df Hf). simpl. rewrite lookup_insert_ne; [done | congruence].
    + by rewrite log_message_dangling.
  - intros x d Hd _. destruct (World.drones w !! f) as [df|] eqn:Hf; [|rewrite log_message_dangling; eauto].
    rewrite (log_message_run f m w df Hf). simpl. split; [done|].
    destruct (decide (x = f)) as [->|Hne].
    + rewrite lookup_insert_eq. rewrite Hd in Hf. injection Hf as <-. by eexists.
    + rewrite lookup_insert_ne by congruence. eauto.
Qed.

#[local] Hint Resolve print_followers_only : swarm.

Section Followers.
Context `{Runtime}.

Lemma process_message_followers_only f m : stable followers_only (process_message f m).
Proof.
  intros w. destruct (World.drones w !! f) as [df|] eqn:Hf.
  - pose proof (process_message_moves f m w df Hf) as Hmv.
    pose proof (process_message_safe f m w) as Hs.
    rewrite (process_message_run f m w df Hf) in Hmv, Hs |- *.
    destruct (String.eqb _ _ && String.eqb (Drone.role df) "follower") eqn:Hc; [|reflexivity].
    apply andb_true_iff in Hc as [_ Hr]. apply String.eqb_eq in Hr.
    exact (moves_only_followers_only w _ f df Hf Hr Hmv Hs).
  - unfold process_message, bind, load_drone. rewrite Hf. reflexivity.
Qed.
#[local] Hint Resolve process_message_followers_only : swarm.

Lemma receive_message_followers_only f m : stable followers_only (receive_message f m).
Proof.
  intros w. unfold receive_message. rewrite bind_readonly by auto with swarm.
  destruct (snd (verify_checksum m w)) as [[|]|e] eqn:Hv; cbn [fst]; [| |reflexivity].
  2: apply stable_apply; solve_stable followers_only.
  unfold bind at 1. pose proof (log_message_followers_only f m w (verify_checksum_alloc m w _ Hv)) as Hl.
  destruct (log_message f m w) as [w1 [[]|e]]; cbn [fst] in *; [|done].
  trans w1; [done | apply stable_apply; solve_stable followers_only].
Qed.
#[local] Hint Resolve receive_message_followers_only : swarm.

Lemma send_position_update_followers_only self fs :
  stable followers_only (send_position_update self fs).
Proof. unfold send_position_update, send_to. solve_stable followers_only. Qed.
End Followers.

#[local] Hint Resolve receive_message_followers_only : swarm.

(** ** The broadcast refines [a_send] *)

(** A leader's dict, and so every dict a logged payload holds, is one
    a [followers_only] step leaves alone. *)
Lemma followers_only_leader_dict w w' l :
  wf w -> followers_only w w' -> leader_loc w l -> World.dicts w' !! l = World.dicts w !! l.
Proof.
  intros Hw Hf (y & dl & Hy & Hr & <-). destruct (Hf Hw) as (_ & _ & _ & N).
  apply (N y dl Hy). by rewrite Hr.
Qed.

(** The abstraction after a [followers_only] step that logged the
    message [msg] of a leader [dl] at the followers [fs']. *)
Lemma abs_followers_only w w' dl self g hdr c fs' :
  inv w -> followers_only w w' ->
  World.drones w !! self = Some dl -> Drone.role dl = "leader"%string ->
  World.dicts w !! Drone.gps_coordinates dl = Some g ->
  (forall x, log_of w' x =
     (fun l => l ++ replicate (occurrences x fs')
                 (Message.mk hdr (Payload.mk (Drone.gps_coordinates dl) (Drone.altitude dl)) c))
       <$> log_of w x) ->
  moved is_follower (a_deliver (AMsg.mk hdr g (Drone.altitude dl) c) fs' (abs w)) (abs w').
Proof.
  intros [Hw Hh] Hf Hdl Hr Hg Hlog. pose proof (Hf Hw) as (Hw' & Hev & D & N).
  assert (Hleader : World.dicts w' !! Drone.gps_coordinates dl = Some g).
  { rewrite (followers_only_leader_dict w w') by (done || by exists self, dl). done. }
  split.
  - intros x. rewrite a_deliver_lookup, fmap_is_Some, !abs_is_Some by done.
    destruct (World.drones w !! x) as [d|] eqn:Hx.
    + destruct (proj1 Hev x d Hx) as (d' & Hx' & _). rewrite Hx'. split; eauto.
    + rewrite (D x Hx). done.
  - intros x ad ad' Had Had'. rewrite a_deliver_lookup in Had.
    apply fmap_Some in Had as (ad0 & Had0 & ->). rewrite abs_lookup in Had0, Had'.
    apply bind_Some in Had0 as (d & Hd & Had0). apply bind_Some in Had' as (d' & Hd' & Had').
    destruct (proj1 Hev x d Hd) as (d'' & Hd'' & (Hid & Hrole & _ & _ & _ & Hgps & _)).
    rewrite Hd' in Hd''. injection Hd'' as <-.
    apply abs_drone_Some in Had0 as (Hg0 & Hl0 & Hi0 & Hr0 & Ha0).
    apply abs_drone_Some in Had' as (Hg' & Hl' & Hi' & Hr' & Ha'). simpl.
    split_and!; [congruence | congruence | |].
    + specialize (Hlog x). unfold log_of in Hlog. rewrite Hd, Hd' in Hlog. injection Hlog as Hlog.
      rewrite Hlog, mapM_app in Hl'.
      rewrite (mapM_ext_in (abs_msg (World.dicts w')) (abs_msg (World.dicts w)) (Drone.received_messages d)), Hl0 in Hl'.
      2:{ intros m Hm. unfold abs_msg.
          by rewrite (followers_only_leader_dict w w') by (done || eapply Hh; eauto). }
      rewrite (mapM_replicate _ _ _ (AMsg.mk hdr g (Drone.altitude dl) c)) in Hl'.
      2:{ unfold abs_msg. simpl. by rewrite Hleader. }
      simpl in Hl'. by injection Hl' as <-.
    + intros Hnf. simpl in Hnf. destruct (N x d Hd ltac:(congruence)) as [Gd (d0 & Hd0 & A0)].
      rewrite Hd' in Hd0. injection Hd0 as <-.
      split; [|congruence]. rewrite Hgps, Gd, Hg0 in Hg'. by injection Hg' as <-.
Qed.

Lemma follower_ids_abs w fs ids :
  wf w ->
  Forall2 (fun f i => exists df, World.drones w !! f = Some df /\ Drone.id df = i) fs ids ->
  mapM (fun f => ADrone.id <$> abs w !! f) fs = Some ids.
Proof.
  intros Hw Hids. apply mapM_Some_2. refine (Forall2_impl _ _ _ _ Hids _).
  intros f i (df & Hf & <-). rewrite abs_lookup, Hf. simpl.
  destruct (abs_drone_alloc w f df Hw Hf) as [ad Had]. rewrite Had. simpl.
  apply abs_drone_Some in Had as (_ & _ & -> & _). done.
Qed.

Lemma heard_followers_only w w' dl self fs' msg :
  inv w -> followers_only w w' ->
  World.drones w !! self = Some dl -> Drone.role dl = "leader"%string ->
  Payload.gps_coordinates (Message.payload msg) = Drone.gps_coordinates dl ->
  (forall x, log_of w' x = (fun l => l ++ replicate (occurrences x fs') msg) <$> log_of w x) ->
  heard_from_leaders w'.
Proof.
  intros [Hw Hh] Hf Hdl Hr Hp Hlog x d' m Hd' Hm.
  destruct (Hf Hw) as (_ & Hev & _ & _).
  specialize (Hlog x). unfold log_of in Hlog. rewrite Hd' in Hlog.
  destruct (World.drones w !! x) as [d|] eqn:Hd; [|discriminate]. injection Hlog as Hlog.
  rewrite Hlog in Hm. apply elem_of_app in Hm as [Hm|Hm].
  - apply (leader_loc_evolves w w' _ Hev). by apply (Hh x d m).
  - apply elem_of_replicate in Hm as [-> _]. rewrite Hp.
    apply (leader_loc_evolves w w' _ Hev). by exists self, dl.
Qed.

Section Send.
Context `{Runtime}.

Lemma print_abs line w : abs (fst (print line w)) = abs w.
Proof. done. Qed.

Lemma send_position_update_refines self fs w :
  inv w ->
  inv (fst (send_position_update self fs w)) /\
  a_send self fs (abs w) (abs (fst (send_position_update self fs w)))
    (returned (snd (send_position_update self fs w))).
Proof.
  intros Hinv. pose proof Hinv as [Hw Hh]. unfold send_position_update, a_send.
  rewrite bind_readonly by auto with swarm. rewrite abs_lookup. unfold load_drone.
  destruct (World.drones w !! self) as [dl|] eqn:Hdl; cbn [snd fst].
  2:{ split; [done | reflexivity]. }
  destruct (abs_drone_alloc w self dl Hw Hdl) as [ad Had]. simpl. rewrite Had.
  pose proof Had as (Hgad & _ & Hiad & Hrad & Haad)%abs_drone_Some.
  rewrite Hrad. destruct (String.eqb (Drone.role dl) "leader") eqn:Hr; cbn [negb].
  2:{ split; [split; [apply (print_safe _ w Hw) | exact Hh] | apply print_abs]. }
  apply String.eqb_eq in Hr.
  rewrite bind_readonly by auto with swarm.
  destruct (snd (follower_ids fs w)) as [ids|e] eqn:Hids; cbn [fst snd].
  2:{ split; [done|]. exists [], []. split_and!; [apply prefix_nil | discriminate | done | reflexivity]. }
  rewrite bind_readonly by auto with swarm.
  rewrite (create_message_run self _ (Payload.mk (Drone.gps_coordinates dl) (Drone.altitude dl)) ids w dl (ADrone.gps ad) Hdl Hgad). cbn [snd].
  set (msg := Message.mk _ _ _).
  destruct (for_each (send_to (Drone.id dl) msg) fs w) as [w' o] eqn:Hrun. cbn [fst snd].
  assert (Hfo : followers_only w w').
  { change w' with (fst (w', o)). rewrite <- Hrun. apply stable_apply.
    unfold send_to. solve_stable followers_only. }
  assert (Hls : leader_state self (Drone.gps_coordinates dl) (Drone.altitude dl) (ADrone.gps ad) w)
    by (split_and!; eauto).
  destruct (for_each_send_to_prefix self _ _ _ _ msg fs w w' o Hls eq_refl eq_refl Hrun)
    as (fs' & Hpre & Hok & Hlog).
  split.
  - split; [by apply Hfo | by apply (heard_followers_only w w' dl self fs' msg)].
  - exists fs', ids. split_and!; [done | destruct o as [[]|e]; simpl; [intros _; by apply Hok | discriminate] | |].
    + intros _. apply (follower_ids_abs w fs ids Hw). by apply follower_ids_spec.
    + unfold a_message. rewrite Hiad, Haad.
      exact (abs_followers_only w w' dl self (ADrone.gps ad) _ _ fs' Hinv Hfo Hdl Hr Hgad Hlog).
Qed.
End Send.

(** ** A move refines [a_update] *)

(** A step that moves only [self] and its dict, which no logged payload
    holds, moves only [self] in the abstraction. *)
Lemma abs_moves_only w w' self d :
  inv w -> wf w' -> World.drones w !! self = Some d -> unheard w (Drone.gps_coordinates d) ->
  moves_only self (Drone.gps_coordinates d) w w' ->
  moved (fun x _ => x = self) (abs w) (abs w').
Proof.
  intros [Hw Hh] Hw' Hd Hu (A & B & C & D).
  assert (Hlog : forall x dx m, World.drones w !! x = Some dx -> m ∈ Drone.received_messages dx ->
            World.dicts w' !! Payload.gps_coordinates (Message.payload m) =
            World.dicts w !! Payload.gps_coordinates (Message.payload m))
    by (intros x dx m Hx Hm; apply B; exact (Hu x dx m Hx Hm)).
  split.
  - intros x. rewrite !abs_is_Some by done. destruct (decide (x = self)) as [->|Hne].
    + destruct (C d Hd) as [a ->]. rewrite Hd. split; eauto.
    + by rewrite A.
  - intros x ad ad' Had Had'. rewrite abs_lookup in Had, Had'.
    apply bind_Some in Had as (dx & Hx & Had). apply bind_Some in Had' as (dx' & Hx' & Had').
    destruct (decide (x = self)) as [->|Hne].
    + rewrite Hd in Hx. injection Hx as <-. destruct (C d Hd) as [a Ha]. rewrite Ha in Hx'.
      injection Hx' as <-.
      apply abs_drone_Some in Had as (_ & Hl & Hi & Hr & _).
      apply abs_drone_Some in Had' as (_ & Hl' & Hi' & Hr' & _). destruct d; simpl in *.
      split_and!; [congruence | congruence | | done].
      rewrite (mapM_ext_in _ (abs_msg (World.dicts w))), Hl in Hl'; [by injection Hl'|].
      intros m Hm. unfold abs_msg. by rewrite (Hlog self _ m Hd Hm).
    + rewrite A in Hx' by done. rewrite Hx in Hx'. injection Hx' as <-.
      rewrite (abs_drone_agree (World.dicts w) (World.dicts w') dx) in Had'.
      * rewrite Had in Had'. injection Had' as <-. done.
      * apply B. intros Hg. apply Hne. exact (wf_owner w Hw x self dx d Hx Hd Hg).
      * intros m Hm. exact (Hlog x dx m Hx Hm).
Qed.

(** The store relation of steps that write neither drones nor dicts. *)
Definition same_store (w w' : World.t) : Prop :=
  World.drones w' = World.drones w /\ World.dicts w' = World.dicts w.

#[export] Instance same_store_preorder : PreOrder same_store.
Proof. split; [done | intros w1 w2 w3 [? ?] [? ?]; split; congruence]. Qed.

Lemma print_same_store line : stable same_store (print line).
Proof. done. Qed.
#[local] Hint Resolve print_same_store : swarm.

Section Update.
Context `{Runtime}.

Lemma update_position_moves self dlat dlon dalt w d :
  World.drones w !! self = Some d ->
  moves_only self (Drone.gps_coordinates d) w (fst (update_position self dlat dlon dalt w)).
Proof.
  intros Hd. unfold update_position.
  rewrite bind_readonly by auto with swarm. rewrite (load_drone_run w self d Hd). cbn [snd].
  apply stable_apply. solve_stable (moves_only self (Drone.gps_coordinates d)).
Qed.

(** When [update_position] returns, its three sums did, and they are
    what the drone and its dict hold. *)
Lemma update_position_returns self dlat dlon dalt w u :
  snd (update_position self dlat dlon dalt w) = Ok u ->
  exists d g lat lon a,
    World.drones w !! self = Some d /\ World.dicts w !! Drone.gps_coordinates d = Some g /\
    py_add (Gps.latitude g) dlat = Ok lat /\ py_add (Gps.longitude g) dlon = Ok lon /\
    py_add (Drone.altitude d) dalt = Ok a /\
    World.drones (fst (update_position self dlat dlon dalt w)) !! self = Some (Drone.set_altitude a d) /\
    World.dicts (fst (update_position self dlat dlon dalt w)) !! Drone.gps_coordinates d =
      Some (Gps.mk lat lon).
Proof.
  remember (update_position self dlat dlon dalt w) as r eqn:Er. intros Hr.
  unfold update_position in Er. rewrite bind_readonly in Er by auto with swarm.
  unfold load_drone at 1 in Er.
  destruct (World.drones w !! self) as [d|] eqn:Hd; cbn [snd] in Er; [|by subst r].
  destruct (World.dicts w !! Drone.gps_coordinates d) as [g|] eqn:Hg.
  2:{ rewrite (bind_run_raise _ _ _ _ _ (gps_iadd_dangling w _ Gps.Latitude dlat Hg)) in Er. by subst r. }
  destruct (py_add (Gps.latitude g) dlat) as [lat|e] eqn:Hlat.
  2:{ rewrite (bind_run_raise _ _ _ _ _ (gps_iadd_raise w _ Gps.Latitude dlat g e Hg Hlat)) in Er. by subst r. }
  rewrite (bind_run_ok _ _ _ _ _ (gps_iadd_run w _ Gps.Latitude dlat g lat Hg Hlat)) in Er.
  set (w1 := World.mk _ _ _ _) in Er.
  assert (Hg1 : World.dicts w1 !! Drone.gps_coordinates d = Some (Gps.set Gps.Latitude lat g))
    by apply lookup_insert_eq.
  destruct (py_add (Gps.longitude g) dlon) as [lon|e] eqn:Hlon.
  2:{ rewrite (bind_run_raise _ _ _ _ _ (gps_iadd_raise w1 _ Gps.Longitude dlon _ e Hg1 Hlon)) in Er.
      by subst r. }
  rewrite (bind_run_ok _ _ _ _ _ (gps_iadd_run w1 _ Gps.Longitude dlon _ lon Hg1 Hlon)) in Er.
  set (w2 := World.mk _ _ _ _) in Er.
  assert (Hd2 : World.drones w2 !! self = Some d) by exact Hd.
  destruct (py_add (Drone.altitude d) dalt) as [a|e] eqn:Ha.
  2:{ rewrite (bind_run_raise _ _ _ _ _ (altitude_iadd_raise w2 self dalt d e Hd2 Ha)) in Er. by subst r. }
  rewrite (bind_run_ok _ _ _ _ _ (altitude_iadd_run w2 self dalt d a Hd2 Ha)) in Er.
  set (w3 := World.mk _ _ _ _) in Er.
  match type of Er with r = ?m w3 =>
    assert (Hs : same_store w3 (fst (m w3))) by (apply stable_apply; solve_stable same_store) end.
  rewrite <- Er in Hs. destruct Hs as [Hs1 Hs2].
  exists d, g, lat, lon, a. split_and!; try done.
  - rewrite Hs1. apply lookup_insert_eq.
  - rewrite Hs2. simpl. by rewrite lookup_insert_eq.
Qed.

Lemma update_position_refines self dlat dlon dalt w :
  inv w ->
  (forall d, World.drones w !! self = Some d -> unheard w (Drone.gps_coordinates d)) ->
  inv (fst (update_position self dlat dlon dalt w)) /\
  a_update self dlat dlon dalt (abs w) (abs (fst (update_position self dlat dlon dalt w)))
    (returned (snd (update_position self dlat dlon dalt w))).
Proof.
  intros Hinv Hu. pose proof Hinv as [Hw Hh].
  destruct (update_position_safe self dlat dlon dalt w Hw) as [Hw' Hev].
  split; [split; [done | intros x d m Hx Hm] |].
  { (* the logs and the leaders stay *)
    apply (leader_loc_evolves w _ _ Hev).
    destruct (World.drones w !! self) as [d0|] eqn:Hd0.
    - pose proof (moves_only_log_of _ _ _ _ x (update_position_moves self dlat dlon dalt w d0 Hd0)) as Hl.
      unfold log_of in Hl. rewrite Hx in Hl.
      destruct (World.drones w !! x) as [dx|] eqn:Hx0; [|discriminate]. injection Hl as Hl.
      apply (Hh x dx m Hx0). by rewrite <- Hl.
    - unfold update_position, bind at 1, load_drone at 1 in Hx. rewrite Hd0 in Hx.
      exact (Hh x d m Hx Hm). }
  destruct (World.drones w !! self) as [d|] eqn:Hd.
  2:{ assert (E : update_position self dlat dlon dalt w = (w, Raise DanglingRef))
        by (unfold update_position, bind at 1, load_drone at 1; by rewrite Hd).
      rewrite E. split; [reflexivity | discriminate]. }
  split.
  - exact (abs_moves_only w _ self d Hinv Hw' Hd (Hu d eq_refl) (update_position_moves self dlat dlon dalt w d Hd)).
  - destruct (snd (update_position self dlat dlon dalt w)) as [u|e] eqn:Hr; [intros _ | discriminate].
    destruct (update_position_returns self dlat dlon dalt w u Hr)
      as (d' & g & lat & lon & a & Hd' & Hg & Hlat & Hlon & Ha & Hd1 & Hg1).
    rewrite Hd in Hd'. injection Hd' as <-.
    destruct (abs_drone_alloc w self d Hw Hd) as [ad Had].
    pose proof Had as (Hgad & Hlad & Hiad & Hrad & Haad)%abs_drone_Some.
    rewrite Hg in Hgad. injection Hgad as Hgad.
    exists ad, lat, lon, a. rewrite <- Hgad, Haad. split_and!; try done.
    + by rewrite abs_lookup, Hd.
    + rewrite abs_lookup, Hd1. simpl. apply abs_drone_Some. destruct d; simpl in *.
      split_and!; try done. rewrite <- Hlad. apply mapM_ext_in. intros m Hm. unfold abs_msg.
      destruct (update_position_moves self dlat dlon dalt w _ Hd) as (_ & B & _).
      rewrite B; [done|]. exact (Hu _ eq_refl self _ m Hd Hm).
Qed.
End Update.

(** ** The constructor refines [a_init] *)

Lemma inv_empty : inv empty_world.
Proof. split; [apply empty_world_wf | intros x d m Hx; cbn in Hx; by rewrite lookup_empty in Hx]. Qed.

Lemma abs_empty : abs empty_world = ∅.
Proof. apply map_eq. intros x. by rewrite abs_lookup, !lookup_empty. Qed.

Lemma drone_init_refines id role mass vel gps alt w :
  inv w ->
  inv (fst (drone_init id role mass vel gps alt w)) /\
  a_init id role gps alt (abs w) (abs (fst (drone_init id role mass vel gps alt w))).
Proof.
  intros Hinv. pose proof Hinv as [Hw Hh].
  destruct (drone_init_safe id role mass vel gps alt w Hw) as [Hw' Hev].
  destruct (wf_next_free w Hw) as [Hfd Hfl].
  destruct vel as [[v0 v1] v2]. unfold drone_init in *. cbn [fst] in *.
  split.
  - split; [done|]. intros x d m Hx Hm. apply (leader_loc_evolves w _ _ Hev).
    cbn [World.drones] in Hx. apply lookup_insert_Some in Hx as [[<- <-]|[Hne Hx]];
      [by apply not_elem_of_nil in Hm | exact (Hh x d m Hx Hm)].
  - exists (World.next w). split.
    { assert (E : @lookup dref _ _ _ (World.next w) (World.drones w) = None) by exact Hfd.
      by rewrite abs_lookup, E. }
    apply map_eq. intros x. rewrite abs_lookup. cbn [World.drones World.dicts].
    destruct (decide (x = World.next w)) as [->|Hne].
    + rewrite !lookup_insert_eq. simpl. unfold abs_drone. simpl. by rewrite lookup_insert_eq.
    + rewrite !lookup_insert_ne by congruence. rewrite abs_lookup.
      destruct (World.drones w !! x) as [dx|] eqn:Hx; simpl; [|done].
      apply abs_drone_agree.
      * apply lookup_insert_ne. intros Heq.
        pose proof (wf_fresh_dict _ Hw _ (wf_gps_alloc _ Hw _ _ Hx)) as Hlt. rewrite <- Heq in Hlt. lia.
      * intros m Hm. apply lookup_insert_ne. intros Heq.
        pose proof (wf_fresh_dict _ Hw _ (wf_log_alloc _ Hw _ _ _ Hx Hm)) as Hlt. rewrite <- Heq in Hlt. lia.
Qed.

(** ** Every logged message of the spec verifies *)

Section Verified.
Context `{Runtime}.

Lemma moved_verified P aw aw' : a_verified aw -> moved P aw aw' -> a_verified aw'.
Proof.
  intros Hv [D M] x d' Hd'. destruct (proj2 (D x) (mk_is_Some _ _ Hd')) as [d Hd].
  destruct (M x d d' Hd Hd') as (_ & _ & -> & _). exact (Hv x d Hd).
Qed.

Lemma a_deliver_verified l ids fs aw :
  a_verified aw -> a_verified (a_deliver (a_message l ids) fs aw).
Proof.
  intros Hv x d Hd. rewrite a_deliver_lookup in Hd. apply fmap_Some in Hd as (d0 & Hd0 & ->).
  simpl. apply Forall_app. split; [exact (Hv x d0 Hd0)|].
  apply Forall_replicate. apply String.eqb_refl.
Qed.

Lemma a_reach_verified aw : a_reach aw -> a_verified aw.
Proof.
  induction 1 as [|o aw aw' ok _ IH Hs]; [apply map_Forall_empty|].
  destruct o as [id role mass vel gps alt|self dlat dlon dalt|self fs|self m]; simpl in Hs.
  - destruct Hs as (r & _ & ->). apply map_Forall_insert_2; [constructor | done].
  - exact (moved_verified _ aw aw' IH (proj1 Hs)).
  - unfold a_send in Hs. destruct (aw !! self) as [l|]; [|by subst].
    destruct (String.eqb _ _); [|by subst].
    destruct Hs as (fs' & ids & _ & _ & _ & Hm).
    exact (moved_verified _ _ aw' (a_deliver_verified l ids fs' aw IH) Hm).
  - done.
Qed.
End Verified.

(** ** The program refines the spec *)

Section Runs.
Context `{Runtime}.

Inductive preach : World.t -> Prop :=
| preach_empty : preach empty_world
| preach_step w o : preach w -> protocol_op w o -> preach (fst (run_op o w)).

(** C13. Refinement: from a store where every logged payload holds a
    leader's dict, each operation of the protocol (the constructor, a
    move of a drone whose dict no logged payload holds, a broadcast)
    keeps that invariant and changes the abstract drones as the spec's
    value semantics allows, raising or not: the constructor adds a drone
    with an empty log; a move changes only that drone's position, by the
    three sums when it returns; a broadcast by a non-leader changes
    nothing, and by a leader delivers the one message built from its
    current position to a prefix of the followers (all of them when it
    returns) and moves only followers. *)
Theorem run_op_refines o w :
  inv w -> protocol_op w o ->
  inv (fst (run_op o w)) /\ a_step o (abs w) (abs (fst (run_op o w))) (returned (snd (run_op o w))).
Proof.
  intros Hinv Hop. destruct o as [id role mass vel gps alt|self dlat dlon dalt|self fs|self m];
    simpl in Hop |- *.
  - destruct vel as [[v0 v1] v2]. exact (drone_init_refines id role mass (v0, v1, v2) gps alt w Hinv).
  - exact (update_position_refines self dlat dlon dalt w Hinv Hop).
  - exact (send_position_update_refines self fs w Hinv).
  - done.
Qed.

Lemma preach_abs w : preach w -> inv w /\ a_reach (abs w).
Proof.
  induction 1 as [|w o _ [Hinv Ha] Hop].
  - rewrite abs_empty. split; [apply inv_empty | constructor].
  - enough (Hs : inv (fst (run_op o w)) /\
                 a_step o (abs w) (abs (fst (run_op o w))) (returned (snd (run_op o w))))
      by (split; [apply Hs | eapply a_reach_step; [exact Ha | apply Hs]]).
    destruct o as [id role mass [[v0 v1] v2] gps alt|self dlat dlon dalt|self fs|self m];
      simpl in Hop |- *.
    + exact (drone_init_refines id role mass (v0, v1, v2) gps alt w Hinv).
    + exact (update_position_refines self dlat dlon dalt w Hinv Hop).
    + exact (send_position_update_refines self fs w Hinv).
    + done.
Qed.

(** C14. Integrity of the logs: in every run of the protocol's
    operations in which no drone moves once a logged payload holds its
    dict, every message in every drone's log still passes
    [verify_checksum]. *)
Theorem logged_messages_verify w x d m :
  preach w -> World.drones w !! x = Some d -> m ∈ Drone.received_messages d ->
  snd (verify_checksum m w) = Ok true.
Proof.
  intros Hp Hx Hm. destruct (preach_abs w Hp) as [[Hw _] Ha].
  destruct (abs_drone_alloc w x d Hw Hx) as [ad Had].
  pose proof Had as (_ & Hl & _)%abs_drone_Some.
  destruct (mapM_Some_elem _ _ _ m Hl Hm) as (am & Ham & Hin).
  unfold abs_msg in Ham. apply fmap_Some in Ham as (g & Hg & ->).
  assert (Hv : a_verified (abs w)) by exact (a_reach_verified _ Ha).
  assert (Hax : abs w !! x = Some ad) by (rewrite abs_lookup, Hx; exact Had).
  pose proof (proj1 (Forall_forall _ _) (Hv x ad Hax) _ Hin) as Hok.
  unfold verify_checksum. rewrite bind_readonly by auto with swarm.
  rewrite (load_payload_run w _ g Hg). unfold a_verify in Hok. simpl in *. by rewrite Hok.
Qed.


End Runs.

(** ** Witnesses *)

#[local] Set Warnings "-inexact-float".
#[local] Existing Instance script_runtime.

(** Leader A and follower B of the script, and A's broadcast to B. *)
Definition demo_init_a : op :=
  OpInit "A" "leader" (PFloat 1.5) (PInt 0, PInt 0, PInt 0) (PFloat 28.7041, PFloat 77.1025) (PInt 100).
Definition demo_init_b : op :=
  OpInit "B" "follower" (PFloat 2.0) (PInt 0, PInt 0, PInt 0) (PFloat 28.7040, PFloat 77.1024) (PInt 100).
Definition demo_send : op := OpSendPositionUpdate 1%positive [2%positive].

Definition demo_world2 : World.t := fst (run_op demo_init_b (fst (run_op demo_init_a empty_world))).
Definition demo_world3 : World.t := fst (run_op demo_send demo_world2).

Lemma demo_world2_preach : preach demo_world2.
Proof. apply preach_step; [apply preach_step; [apply preach_empty | exact I] | exact I]. Qed.

Lemma run_op_refines_witness :
  inv demo_world2 /\ protocol_op demo_world2 demo_send /\
  inv demo_world3 /\
  a_step demo_send (abs demo_world2) (abs demo_world3) (returned (snd (run_op demo_send demo_world2))).
Proof.
  assert (Hinv : inv demo_world2) by exact (proj1 (preach_abs _ demo_world2_preach)).
  destruct (run_op_refines demo_send demo_world2 Hinv I) as [H1 H2].
  split_and!; [exact Hinv | exact I | exact H1 | exact H2].
Defined.

Lemma logged_messages_verify_witness :
  preach demo_world3 /\
  (fun d => length (Drone.received_messages d)) <$> World.drones demo_world3 !! 2%positive = Some 1%nat /\
  Forall (fun m => snd (verify_checksum m demo_world3) = Ok true)
    (default [] (Drone.received_messages <$> World.drones demo_world3 !! 2%positive)).
Proof.
  assert (Hp : preach demo_world3) by (apply preach_step; [exact demo_world2_preach | exact I]).
  split_and!; [exact Hp | vm_compute; reflexivity |].
  destruct (World.drones demo_world3 !! 2%positive) as [d|] eqn:E; simpl; [|constructor].
  apply Forall_forall. intros m Hm. exact (logged_messages_verify demo_world3 2%positive d m Hp E Hm).
Defined.




