(* ===== verification/Scenario.v ===== *)
(** * The demonstration script and concrete runs

    [script] models lines 126-136 of [src/code.py]: a broadcast, a move
    of the leader and a second broadcast over the drones of
    [Script.create_drones].  C4 runs the first correction of the script
    for every runtime whose libm [cos] has the correctly rounded value at
    the one point the run meets; C17 puts a leader [1e160] degrees from
    its follower, where the square of the latitude difference overflows,
    for every runtime with [cos 0 = 1].  The examples, with CPython's
    runtime, give the whole output of the script, check its first
    checksum against MD5 and the staleness of the first logged message,
    and run a broadcast to a follower [1e-170] degrees from its leader,
    whose distance underflows to zero. *)

From Stdlib Require Import ZArith Floats String.
From stdpp Require Import base list gmap strings.
From S2P Require Import Prelude PyRuntime Json Agent Script Protocol.

#[local] Set Warnings "-inexact-float".
Local Open Scope stexc_scope.
Local Open Scope string_scope.

Section Script.
Context `{Runtime}.

(** Lines 127-136. *)
Definition script : PyM unit :=
  let* '(a, b, c) := create_drones in
  let followers := [b; c] in
  let* _ := send_position_update a followers in
  let* _ := update_position a (PFloat 0.00001) (PFloat 0.00001) (PInt 0) in
  send_position_update a followers.
End Script.

(** The payload of the leader's first broadcast in [script]: the
    leader's dict (reference 1) and its altitude [100]. *)
Definition first_payload : Payload.t := Payload.mk 1%positive (PInt 100).

(** A leader at latitude [1e160] and a follower at the origin. *)
Definition create_far_drones : PyM (dref * dref) :=
  let* a := drone_init "A" "leader" (PFloat 1.5) (PInt 0, PInt 0, PInt 0) (PFloat 1e160, PInt 0) (PInt 0) in
  let* b := drone_init "B" "follower" (PFloat 2.0) (PInt 0, PInt 0, PInt 0) (PInt 0, PInt 0) (PInt 0) in
  ret (a, b).

Definition far_world : World.t := fst (create_far_drones empty_world).

Definition far_b : Drone.t :=
  Drone.mk "B" "follower" (PFloat 2.0) (Vec3.mk (PInt 0) (PInt 0) (PInt 0))
    (Vec3.mk (PInt 0) (PInt 0) (PInt 0)) 2%positive (PInt 0) [].

Section Runs.
Context `{Runtime}.

(** C4. The correction overshoots by five orders of magnitude.  In the
    script's store, follower B (28.7040, 77.1024) receiving the
    leader's first position (28.7041, 77.1025, altitude 100) computes a
    distance of 14.78 m; [adjust_position] then adds the degree-space
    unit vector times 11.78 to its coordinates, moving B to latitude
    37.036 and longitude 85.434, hundreds of kilometres past the
    leader, instead of 11.78 m towards it.  The only library value the
    run uses is libm's cosine of B's latitude in radians, assumed to be
    the correctly rounded one. *)
Theorem first_correction_overshoots :
  libm_cos (PrimFloat.mul 28.7040 deg_to_rad) = 0x1.c114e849fe422p-1%float ->
  calculate_distance 2%positive first_payload (fst (create_drones empty_world)) =
    (fst (create_drones empty_world), Ok 14.783269192987836%float) /\
  World.dicts (fst (adjust_position 2%positive first_payload (fst (create_drones empty_world)))) !! 2%positive =
    Some (Gps.mk (PFloat 37.036029550760233) (PFloat 85.43442955105624)).
Proof.
  intros Hc.
  set (w := fst (create_drones empty_world)).
  set (dB := Drone.mk "B" "follower" (PFloat 2.0) (Vec3.mk (PInt 0) (PInt 0) (PInt 0))
               (Vec3.mk (PInt 0) (PInt 0) (PInt 0)) 2%positive (PInt 100) []).
  assert (Hd : World.drones w !! 2%positive = Some dB) by (vm_compute; reflexivity).
  assert (Hl : World.dicts w !! 1%positive = Some (Gps.mk (PFloat 28.7041) (PFloat 77.1025)))
    by (vm_compute; reflexivity).
  assert (Hg : World.dicts w !! 2%positive = Some (Gps.mk (PFloat 28.7040) (PFloat 77.1024)))
    by (vm_compute; reflexivity).
  assert (Hdist : distance_formula (PFloat 28.7041) (PFloat 77.1025) (PInt 100)
            (PFloat 28.7040) (PFloat 77.1024) (PInt 100) = Ok 14.783269192987836%float).
  { rewrite (distance_formula_cos _ script_runtime); [vm_compute; reflexivity|].
    intros rad Hr. assert (rad = PrimFloat.mul 28.7040 deg_to_rad) as -> by (revert Hr; vm_compute; congruence).
    rewrite Hc. vm_compute. reflexivity. }
  split.
  - rewrite (calculate_distance_run 2%positive first_payload w dB _ _ Hd Hl Hg). by rewrite <- Hdist.
  - rewrite (adjust_position_run 2%positive first_payload w dB _ _ _ 0.70710678117398673%float 0.7071067811991083%float 0%float
               (PFloat 37.036029550760233) (PFloat 85.43442955105624) (PFloat 100) "100.00" Hd Hl Hg Hdist);
      [apply lookup_insert_eq | vm_compute; reflexivity ..].
Qed.

(** C17. A follower far from its leader makes the distance raise
    [OverflowError] before anything is printed: with the leader at
    latitude [1e160] and the follower at [0], [lat_diff] is about
    [1.1e165] and [lat_diff**2] on line 86 overflows, which CPython's
    [float_pow] reports as [OverflowError] (a product [lat_diff *
    lat_diff] would give [inf] instead).  [adjust_position] stops on
    line 51 and leaves the store as it was.  The only library value used
    is [cos 0 = 1]. *)
Theorem far_follower_overflows :
  libm_cos 0%float = 1%float ->
  adjust_position 2%positive (Payload.mk 1%positive (PInt 0)) far_world = (far_world, Raise OverflowError).
Proof.
  intros Hc. unfold adjust_position. rewrite bind_readonly by auto with swarm.
  rewrite (calculate_distance_run 2%positive _ far_world far_b (Gps.mk (PFloat 1e160) (PInt 0)) (Gps.mk (PInt 0) (PInt 0)))
    by (vm_compute; reflexivity).
  rewrite (distance_formula_cos _ script_runtime); [vm_compute; reflexivity|].
  intros rad Hr. assert (rad = 0%float) as -> by (revert Hr; vm_compute; congruence).
  rewrite Hc. vm_compute. reflexivity.
Qed.
End Runs.

(** ** Concrete runs *)

(** The checksum of the script's first message is the MD5 digest of
    [{"altitude": 100, "gps_coordinates": {"latitude": 28.7041,
    "longitude": 77.1025}}], whatever libm's cosine. *)
Example script_first_checksum cos :
  @calculate_checksum (cpython_runtime cos) first_payload script_world =
    (script_world, Ok "31b0d7b3e81721635432edbce7813427").
Proof. vm_compute. reflexivity. Qed.

#[local] Existing Instance script_runtime.

(** The console output of the whole script (lines 121-136), with
    libm's correctly rounded cosine at the five latitudes the run meets:
    both followers overshoot to latitudes 37.04 and 20.37 after the
    first broadcast, and to about -837778 and +897528 "degrees" after
    the second; the second broadcast's message carries the checksum of
    the moved leader's payload.  The script ends normally. *)
Example script_output :
  World.stdout (fst (script empty_world)) =
    ["Drone A sending position update to Drone B";
     "Drone B received message: {'header': {'message_type': 'Position Update', 'source_id': 'A', 'destination_ids': ['B', 'C']}, 'payload': {'gps_coordinates': {'latitude': 28.7041, 'longitude': 77.1025}, 'altitude': 100}, 'checksum': '31b0d7b3e81721635432edbce7813427'}";
     "Drone B current distance to leader: 14.78 meters";
     "Drone B adjusted position to GPS: {'latitude': 37.03602955076023, 'longitude': 85.43442955105624}, Altitude: 100.00";
     "Drone A sending position update to Drone C";
     "Drone C received message: {'header': {'message_type': 'Position Update', 'source_id': 'A', 'destination_ids': ['B', 'C']}, 'payload': {'gps_coordinates': {'latitude': 28.7041, 'longitude': 77.1025}, 'altitude': 100}, 'checksum': '31b0d7b3e81721635432edbce7813427'}";
     "Drone C current distance to leader: 14.78 meters";
     "Drone C adjusted position to GPS: {'latitude': 20.37217913710034, 'longitude': 68.77057913798838}, Altitude: 100.00";
     "Drone A moved to GPS: {'latitude': 28.70411, 'longitude': 77.10251000000001}, Altitude: 100.00";
     "Drone A sending position update to Drone B";
     "Drone B received message: {'header': {'message_type': 'Position Update', 'source_id': 'A', 'destination_ids': ['B', 'C']}, 'payload': {'gps_coordinates': {'latitude': 28.70411, 'longitude': 77.10251000000001}, 'altitude': 100}, 'checksum': '1d7ce9cc2ea598f9e737d9f4ae01a75e'}";
     "Drone B current distance to leader: 1184852.50 meters";
     "Drone B adjusted position to GPS: {'latitude': -837778.0818887423, 'longitude': -837729.6835185061}, Altitude: 100.00";
     "Drone A sending position update to Drone C";
     "Drone C received message: {'header': {'message_type': 'Position Update', 'source_id': 'A', 'destination_ids': ['B', 'C']}, 'payload': {'gps_coordinates': {'latitude': 28.70411, 'longitude': 77.10251000000001}, 'altitude': 100}, 'checksum': '1d7ce9cc2ea598f9e737d9f4ae01a75e'}";
     "Drone C current distance to leader: 1269270.27 meters";
     "Drone C adjusted position to GPS: {'latitude': 897527.8681171822, 'longitude': 897576.2664215253}, Altitude: 100.00"] /\
  snd (script empty_world) = Ok tt.
Proof. split; vm_compute; reflexivity. Qed.

(** The message B logged first in the script. *)
Definition first_logged_message : option Message.t :=
  match log_of (fst (script empty_world)) 2%positive with
  | Some (m :: _) => Some m
  | _ => None
  end.

(** After the whole script the first message in B's log no longer
    verifies: its payload now reads the leader's moved coordinates. *)
Example script_first_message_goes_stale :
  option_map (fun m => snd (verify_checksum m (fst (script empty_world)))) first_logged_message
    = Some (Ok false).
Proof. vm_compute. reflexivity. Qed.

(** A leader with the constructor's default position [(0, 0)] at
    altitude [0], and a follower [1e-170] degrees north of it. *)
Definition create_close_drones : PyM (dref * dref) :=
  let* a := drone_init "A" "leader" (PFloat 1.5) (PInt 0, PInt 0, PInt 0) (PInt 0, PInt 0) (PInt 0) in
  let* b := drone_init "B" "follower" (PFloat 2.0) (PInt 0, PInt 0, PInt 0) (PFloat 1e-170, PInt 0) (PInt 0) in
  ret (a, b).

Definition close_world : World.t := fst (create_close_drones empty_world).

(** Distinct positions can still divide by zero.  The follower is
    not at the leader's position, but the squares of the differences
    underflow to [0.0] (line 66, as in line 86), so the distance is
    [0.0], the norm is [0.0] and line 68 raises [ZeroDivisionError]
    after the distance line is printed; the broadcast stops with it. *)
Example underflow_aborts_broadcast :
  World.dicts close_world !! 1%positive <> World.dicts close_world !! 2%positive /\
  snd (send_position_update 1%positive [2%positive] close_world) = Raise ZeroDivisionError /\
  last (World.stdout (fst (send_position_update 1%positive [2%positive] close_world))) =
    Some "Drone B current distance to leader: 0.00 meters".
Proof.
  split_and!; [intros E; vm_compute in E; discriminate | vm_compute; reflexivity ..].
Qed.

(** ** Witnesses *)

Lemma first_correction_overshoots_witness :
  calculate_distance 2%positive first_payload (fst (create_drones empty_world)) =
    (fst (create_drones empty_world), Ok 14.783269192987836%float) /\
  World.dicts (fst (adjust_position 2%positive first_payload (fst (create_drones empty_world))))
    !! 2%positive = Some (Gps.mk (PFloat 37.036029550760233) (PFloat 85.43442955105624)).
Proof. apply first_correction_overshoots. vm_compute. reflexivity. Defined.

Lemma far_follower_overflows_witness :
  adjust_position 2%positive (Payload.mk 1%positive (PInt 0)) far_world = (far_world, Raise OverflowError).
Proof. apply far_follower_overflows. vm_compute. reflexivity. Defined.
